(** * Neon PostgreSQL to Google Sheets sync: a shallow embedding

    The development follows the Python sources:
    - [src/core/sheets.py]    (class GoogleSheetsConnection)
    - [src/core/database.py]  (class DatabaseConnection)
    - [src/sync/continuous_sync.py] (class NeonToSheetsSync)
    - [src/sync/one_time_sync.py]   (class OneTimeSyncToSheets)

    Python values are an inductive type, methods that touch the database,
    the spreadsheet service or the clock are functions in a state and
    exception monad over an explicit program state, and everything the
    outside world decides (server answers, API faults, latencies, the
    arrival of a termination signal) is read from an environment record. *)

From stdpp Require Import gmap strings list.
From Stdlib Require Import ZArith DecimalString Ascii.

Local Open Scope string_scope.
Local Open Scope Z_scope.

(** ** Python values *)

Module Py.

(** [datetime.datetime] / [pd.Timestamp], naive (no tzinfo). *)
Record datetime := mkDatetime {
  year : Z; month : Z; day : Z;
  hour : Z; minute : Z; second : Z;
  microsecond : Z
}.

(** The ranges Python enforces when a datetime is built. *)
Definition valid_datetime (t : datetime) : bool :=
  (1 <=? year t) && (year t <=? 9999) &&
  (1 <=? month t) && (month t <=? 12) &&
  (1 <=? day t) && (day t <=? 31) &&
  (0 <=? hour t) && (hour t <=? 23) &&
  (0 <=? minute t) && (minute t <=? 59) &&
  (0 <=? second t) && (second t <=? 59) &&
  (0 <=? microsecond t) && (microsecond t <=? 999999).

(** Exceptions the libraries and the interpreter raise. *)
Inductive exn :=
| InterfaceError       (* psycopg2: operation on a closed connection *)
| OperationalError     (* psycopg2: server unreachable, connection lost *)
| DatabaseError        (* psycopg2: the server rejected the statement *)
| ProgrammingError     (* psycopg2: no results to fetch *)
| SpreadsheetNotFound  (* gspread *)
| WorksheetNotFound    (* gspread *)
| APIError             (* gspread: the service refused or failed the call *)
| AttributeError
| TypeError
| KeyError
| ValueError.          (* numpy: the truth value of an array is ambiguous *)

(** What evaluating an expression or a call comes to. *)
Inductive outcome (A : Type) :=
| Return (a : A)
| Raise (e : exn).
Arguments Return {A} a.
Arguments Raise {A} e.

(** Sequencing where no state is involved: the rest runs on the value,
    an exception goes through. *)
Definition and_then {A B} (o : outcome A) (k : A -> outcome B) : outcome B :=
  match o with
  | Return a => k a
  | Raise e => Raise e
  end.

(** Values a database cell can hold once it sits in a DataFrame: the
    scalars (text, numeric, boolean, timestamp, null) and lists, which
    psycopg2 gives for array and JSON-array columns.  [VObj] stands for
    every other object that pandas takes as one value and not as a null
    (float, Decimal, date, dict, ...): it is carried by the text [str()]
    gives for it.
    A list is carried by the elements of the array numpy makes of it,
    [np.asarray(cell, dtype=object)], in order (for a list of scalars
    these are its items), and by the text [str()] gives for it. *)
#[warnings="-register-all"]
Inductive value :=
| VNone                      (* None *)
| VNaN                       (* float('nan') *)
| VNaT                       (* pd.NaT *)
| VBool (b : bool)
| VInt (z : Z)
| VStr (s : string)
| VDatetime (t : datetime)   (* datetime.datetime or pd.Timestamp *)
| VObj (repr : string)
| VList (items : list value) (repr : string).

Definition digit (n : Z) : ascii := ascii_of_nat (48 + Z.to_nat (n mod 10)).

Definition zfill2 (n : Z) : string :=
  String (digit (n / 10)) (String (digit n) EmptyString).

Definition zfill4 (n : Z) : string :=
  String (digit (n / 1000)) (String (digit (n / 100)) (zfill2 n)).

Definition zfill6 (n : Z) : string :=
  String (digit (n / 100000)) (String (digit (n / 10000)) (zfill4 n)).

Definition str_int (z : Z) : string := NilZero.string_of_int (Z.to_int z).

(** A year in decimal as it is, without leading zeros: one to four
    digits for the years a datetime can hold. *)
Definition year_text (y : Z) : string :=
  if y <? 10 then String (digit y) EmptyString
  else if y <? 100 then zfill2 y
  else if y <? 1000 then String (digit (y / 100)) (zfill2 y)
  else zfill4 y.

(** One [strftime] directive: the six that the sources use.  CPython
    hands the format to the C library; this is the one of Linux (glibc),
    which pads month, day, hour, minute and second to two digits and
    prints the year as it is, without leading zeros. *)
Definition directive (c : ascii) (t : datetime) : string :=
  if Ascii.eqb c "Y" then year_text (year t)
  else if Ascii.eqb c "m" then zfill2 (month t)
  else if Ascii.eqb c "d" then zfill2 (day t)
  else if Ascii.eqb c "H" then zfill2 (hour t)
  else if Ascii.eqb c "M" then zfill2 (minute t)
  else if Ascii.eqb c "S" then zfill2 (second t)
  else String "%" (String c EmptyString).

(** [t.strftime(fmt)] *)
Fixpoint strftime (fmt : string) (t : datetime) : string :=
  match fmt with
  | EmptyString => EmptyString
  | String c rest =>
      if Ascii.eqb c "%" then
        match rest with
        | String d rest' => directive d t ++ strftime rest' t
        | EmptyString => "%"
        end
      else String c (strftime rest t)
  end.

(** [t.isoformat(sep=' ', timespec='seconds')]: Python's own
    ["%04d-%02d-%02d %02d:%02d:%02d"], the year padded to four digits. *)
Definition isoformat (t : datetime) : string :=
  zfill4 (year t) ++ "-" ++ zfill2 (month t) ++ "-" ++ zfill2 (day t) ++ " "
  ++ zfill2 (hour t) ++ ":" ++ zfill2 (minute t) ++ ":" ++ zfill2 (second t).

(** [str(v)] *)
Definition str (v : value) : string :=
  match v with
  | VNone => "None"
  | VNaN => "nan"
  | VNaT => "NaT"
  | VBool true => "True"
  | VBool false => "False"
  | VInt z => str_int z
  | VStr s => s
  | VDatetime t =>
      isoformat t ++
      (if microsecond t =? 0 then EmptyString else "." ++ zfill6 (microsecond t))
  | VObj repr => repr
  | VList _ repr => repr
  end.

(** Truth value of an object ([if v:], [not v]).  A list is false when
    it is empty, which is when its text is ["[]"]. *)
Definition truthy (v : value) : bool :=
  match v with
  | VNone => false
  | VBool b => b
  | VInt z => negb (z =? 0)
  | VStr s => negb (String.eqb s EmptyString)
  | VList _ repr => negb (String.eqb repr "[]")
  | _ => true
  end.

(** [pd.isna] on one value that is not a list ([libmissing.checknull]). *)
Definition checknull (v : value) : bool :=
  match v with
  | VNone | VNaN | VNaT => true
  | _ => false
  end.

(** [pd.isna(v)]: a boolean for a scalar; for a list, the array of the
    booleans of the elements of [np.asarray(v, dtype=object)]. *)
Definition isna (v : value) : bool + list bool :=
  match v with
  | VList items _ => inr (map checknull items)
  | _ => inl (checknull v)
  end.

(** The truth value [if] asks of what [pd.isna] returned.  numpy gives
    an array of one element the truth value of that element and raises
    [ValueError] for an array of two or more; an empty array is refused
    as well (numpy 2.2 and later; earlier versions took it as false,
    with a warning). *)
Definition truth (r : bool + list bool) : outcome bool :=
  match r with
  | inl b => Return b
  | inr [b] => Return b
  | inr _ => Raise ValueError
  end.

(** [isinstance(v, list)] *)
Definition is_list (v : value) : bool :=
  match v with
  | VList _ _ => true
  | _ => false
  end.

(** [isinstance(v, (pd.Timestamp, datetime))], with the instance when it
    holds.  [pd.NaT] never reaches this test: [pd.isna] holds for it. *)
Definition as_datetime (v : value) : option datetime :=
  match v with
  | VDatetime t => Some t
  | _ => None
  end.

(** [s.isascii()] *)
Fixpoint isascii (s : string) : bool :=
  match s with
  | EmptyString => true
  | String c r => (nat_of_ascii c <? 128)%nat && isascii r
  end.

(** [s.upper()] on ASCII text: the letters a to z change, nothing else. *)
Definition upper_ascii (c : ascii) : ascii :=
  let n := nat_of_ascii c in
  if ((97 <=? n) && (n <=? 122))%nat then ascii_of_nat (n - 32) else c.

Fixpoint upper (s : string) : string :=
  match s with
  | EmptyString => EmptyString
  | String c r => String (upper_ascii c) (upper r)
  end.

(** Whitespace as [str.strip()] sees it on ASCII text: tab to carriage
    return, the four separators and the space. *)
Definition is_space (c : ascii) : bool :=
  let n := nat_of_ascii c in
  (((9 <=? n) && (n <=? 13)) || ((28 <=? n) && (n <=? 32)))%nat.

Fixpoint lstrip (s : string) : string :=
  match s with
  | EmptyString => EmptyString
  | String c r => if is_space c then lstrip r else s
  end.

Definition rstrip (s : string) : string :=
  String.rev (lstrip (String.rev s)).

Definition strip (s : string) : string := rstrip (lstrip s).

(** [s.startswith(p)] *)
Definition startswith (p s : string) : bool := String.prefix p s.

(** [p in s] *)
Fixpoint contains (p s : string) : bool :=
  String.prefix p s ||
  match s with
  | EmptyString => false
  | String _ r => contains p r
  end.

End Py.

(** ** pandas DataFrame *)

Module Pd.

(** A frame as the sources use it: [columns] is [df.columns.tolist()],
    [values] is [df.values.tolist()], row by row.  A frame made of
    fetched rows holds the values as they were fetched: what pandas
    converts when it settles the type of a column (the integers of a
    column that has a null become floats) is not modelled. *)
Record DataFrame := mkDataFrame {
  columns : list string;
  values : list (list Py.value)
}.

(** [pd.DataFrame()] *)
Definition empty : DataFrame := mkDataFrame [] [].

(** [len(df)] *)
Definition len (df : DataFrame) : nat := length (values df).

(** Every row has one value per column. *)
Definition well_formed (df : DataFrame) : Prop :=
  Forall (fun row => length row = length (columns df)) (values df).

End Pd.

(** A worksheet grid: rows of cells, top-left first. *)
Abbreviation grid := (list (list string)).

(** ** The normalizer of [GoogleSheetsConnection] *)

Module Normalizer.

(** Body of the inner loop of [prepare_dataframe_for_upload]: the text
    appended to [cleaned_row] for one cell, or the exception the test of
    [pd.isna(cell)] raises. *)
Definition clean_cell (cell : Py.value) : Py.outcome string :=
  Py.and_then (Py.truth (Py.isna cell)) (fun null =>
    if null then Py.Return EmptyString
    else match Py.as_datetime cell with
         | Some t => Py.Return (Py.strftime "%Y-%m-%d %H:%M:%S" t)
         | None => Py.Return (Py.str cell)
         end).

(** The inner [for cell in row] loop, with its accumulator; an exception
    ends it. *)
Definition clean_row (row : list Py.value) : Py.outcome (list string) :=
  fold_left (fun cleaned_row cell =>
               Py.and_then cleaned_row (fun cells =>
               Py.and_then (clean_cell cell) (fun text =>
               Py.Return (cells ++ [text])%list)))
            row (Py.Return []).

(** [GoogleSheetsConnection.prepare_dataframe_for_upload] *)
Definition prepare_dataframe_for_upload (df : Pd.DataFrame) : Py.outcome grid :=
  let data_to_upload := map Py.VStr (Pd.columns df) :: Pd.values df in
  fold_left (fun cleaned_data row =>
               Py.and_then cleaned_data (fun rows =>
               Py.and_then (clean_row row) (fun cleaned_row =>
               Py.Return (rows ++ [cleaned_row])%list)))
            data_to_upload (Py.Return []).




(** Reading a printed timestamp back: the six numbers at their columns. *)
Definition digit_value (c : ascii) : Z := Z.of_nat (nat_of_ascii c) - 48.

Fixpoint number (s : string) (acc : Z) : Z :=
  match s with
  | EmptyString => acc
  | String c r => number r (10 * acc + digit_value c)
  end.

Definition timestamp_fields (s : string) : list Z :=
  [ number (String.substring 0 4 s) 0; number (String.substring 5 2 s) 0;
    number (String.substring 8 2 s) 0; number (String.substring 11 2 s) 0;
    number (String.substring 14 2 s) 0; number (String.substring 17 2 s) 0 ].

End Normalizer.


(** ** The outside world and the program state *)

Module World.
Import Py.

(** What the server answers to [cursor.execute]. *)
Inductive exec_result :=
| ExecRows (description : list string) (rows : list (list value))
| ExecDone      (* statement executed, no result set *)
| ExecError     (* statement rejected; the connection stays usable *)
| ExecLost.     (* connection lost; psycopg2 marks the connection closed *)

(** Printed status lines that the claims refer to; the payload is what the
    f-string interpolates. *)
Inductive message :=
| MsgSignal                  (* "Received shutdown signal (..). Stopping sync..." *)
| MsgInitialSync             (* "Performing initial sync..." *)
| MsgInitialSyncFailed       (* "Initial sync failed" *)
| MsgInitialSyncCompleted    (* "Initial sync completed! Starting continuous sync ..." *)
| MsgStartingSync (n : nat)  (* "[..] Starting sync #n..." *)
| MsgSyncCompleted (n : nat) (* "Sync #n completed successfully" *)
| MsgSyncFailed (n : nat)    (* "Sync #n failed" *)
| MsgLoopError (e : exn)     (* "Error during sync cycle: e" (scheduler loop) *)
| MsgShuttingDown            (* "Shutting down sync process..." *)
| MsgStopped.                (* "Sync process stopped gracefully" *)

(** Calls that leave the process, in the order they are issued. *)
Inductive event :=
| EPgConnect
| EPgCursor
| EPgExecute (query : string) (params : list value)
| EPgFetchall
| EPgCommit
| EPgRollback
| EPgClose
| EGsOauth
| EGsOpen (title : string)
| EGsCreate (title : string)
| EGsWorksheet (title : string)
| EGsAddWorksheet (title : string) (rows cols : nat)
| EGsClear (title : string)
| EGsUpdate (title : string) (data : grid)
| ESleep (seconds : nat)
| EPrint (m : message).

(** Everything decided outside the program.  Times are milliseconds on the
    program's own clock. *)
Record Env := mkEnv {
  getenv : string -> option string;       (* os.getenv, after load_dotenv *)
  sync_interval_minutes : Z;              (* int(os.getenv('SYNC_INTERVAL_MINUTES', '2')) *)
  now : nat -> datetime;                  (* datetime.now() read at a clock time *)
  latency : nat -> nat;                   (* duration of a library call started then *)
  signal_at : option nat;                 (* arrival of SIGINT / SIGTERM *)
  pg_reachable : nat -> bool;             (* psycopg2.connect succeeds *)
  pg_answer : nat -> string -> list value -> exec_result;
  gs_fault : nat -> event -> bool         (* the Sheets call fails *)
}.

(** A psycopg2 connection object. *)
Record PgConnection := mkPgConnection { closed : bool }.

(** A worksheet of the remote spreadsheet. *)
Record Worksheet := mkWorksheet {
  ws_rows : nat; ws_cols : nat;
  cells : grid
}.

(** The program state: the clock and the calls made so far, the remote
    spreadsheets by title (each a map from worksheet title to worksheet),
    and the attributes of the Python objects. *)
Record State := mkState {
  clock : nat;
  trace : list event;
  drive : gmap string (gmap string Worksheet);
  connection : option PgConnection;   (* DatabaseConnection.connection *)
  gc : bool;                          (* GoogleSheetsConnection.gc is set *)
  spreadsheet : option string;        (* GoogleSheetsConnection.spreadsheet *)
  df : option Pd.DataFrame;           (* self.df of the sync object *)
  is_running : bool;                  (* NeonToSheetsSync.is_running *)
  sync_count : nat                    (* local of start_continuous_sync *)
}.

Definition set_clock (t : nat) (st : State) : State :=
  mkState t (trace st) (drive st) (connection st) (gc st) (spreadsheet st)
          (df st) (is_running st) (sync_count st).
Definition set_trace (tr : list event) (st : State) : State :=
  mkState (clock st) tr (drive st) (connection st) (gc st) (spreadsheet st)
          (df st) (is_running st) (sync_count st).
Definition set_drive (d : gmap string (gmap string Worksheet)) (st : State) : State :=
  mkState (clock st) (trace st) d (connection st) (gc st) (spreadsheet st)
          (df st) (is_running st) (sync_count st).
Definition set_connection (c : option PgConnection) (st : State) : State :=
  mkState (clock st) (trace st) (drive st) c (gc st) (spreadsheet st)
          (df st) (is_running st) (sync_count st).
Definition set_gc (b : bool) (st : State) : State :=
  mkState (clock st) (trace st) (drive st) (connection st) b (spreadsheet st)
          (df st) (is_running st) (sync_count st).
Definition set_spreadsheet (s : option string) (st : State) : State :=
  mkState (clock st) (trace st) (drive st) (connection st) (gc st) s
          (df st) (is_running st) (sync_count st).
Definition set_df (d : option Pd.DataFrame) (st : State) : State :=
  mkState (clock st) (trace st) (drive st) (connection st) (gc st) (spreadsheet st)
          d (is_running st) (sync_count st).
Definition set_is_running (b : bool) (st : State) : State :=
  mkState (clock st) (trace st) (drive st) (connection st) (gc st) (spreadsheet st)
          (df st) b (sync_count st).
Definition set_sync_count (n : nat) (st : State) : State :=
  mkState (clock st) (trace st) (drive st) (connection st) (gc st) (spreadsheet st)
          (df st) (is_running st) n.

(** *** State and exception monad *)

Definition M (A : Type) : Type := State -> outcome A * State.

Definition ret {A} (a : A) : M A := fun st => (Return a, st).

Definition raise {A} (e : exn) : M A := fun st => (Raise e, st).

Definition bind {A B} (m : M A) (k : A -> M B) : M B :=
  fun st =>
    match m st with
    | (Return a, st') => k a st'
    | (Raise e, st') => (Raise e, st')
    end.

(** [try: m  except Exception as e: handler e] *)
Definition try_except {A} (m : M A) (handler : exn -> M A) : M A :=
  fun st =>
    match m st with
    | (Return a, st') => (Return a, st')
    | (Raise e, st') => handler e st'
    end.

(** [try: m  finally: cleanup]; an exception of [cleanup] replaces the
    outcome of [m]. *)
Definition try_finally {A} (m : M A) (cleanup : M unit) : M A :=
  fun st =>
    let (r, st') := m st in
    match cleanup st' with
    | (Return _, st'') => (r, st'')
    | (Raise e, st'') => (Raise e, st'')
    end.

Definition gets {A} (f : State -> A) : M A := fun st => (Return (f st), st).

Definition modify (f : State -> State) : M unit := fun st => (Return tt, f st).

(** An expression evaluated inside a method: the state is not touched. *)
Definition lift {A} (o : outcome A) : M A := fun st => (o, st).

Declare Scope py_scope.
Delimit Scope py_scope with py.
Notation "'let*' x ':=' c1 'in' c2" := (bind c1 (fun x => c2))
  (at level 10, x name, c1 at level 100, c2 at level 200) : py_scope.
Notation "c1 ';;' c2" := (bind c1 (fun _ => c2))
  (at level 100, c2 at level 200, right associativity) : py_scope.
Local Open Scope py_scope.

Section Primitives.
Variable env : Env.

Definition log (ev : event) : M unit :=
  modify (fun st => set_trace (trace st ++ [ev])%list st).

(** [print(...)] of one of the tracked status lines. *)
Definition print (m : message) : M unit := log (EPrint m).

(** [NeonToSheetsSync._signal_handler] *)
Definition _signal_handler : M unit :=
  print MsgSignal;;
  modify (set_is_running false).

(** Time passes by [d] milliseconds; a signal that arrives meanwhile runs
    the handler. *)
Definition advance (d : nat) : M unit :=
  let* t0 := gets clock in
  modify (set_clock (t0 + d));;
  match signal_at env with
  | Some s => if ((t0 <? s) && (s <=? t0 + d))%nat then _signal_handler else ret tt
  | None => ret tt
  end.

(** A library call: recorded, and it takes the latency of its start time.
    Returns the start time, at which the environment decides its result. *)
Definition external (ev : event) : M nat :=
  let* t0 := gets clock in
  log ev;;
  advance (latency env t0);;
  ret t0.

(** [time.sleep(seconds)] *)
Definition sleep (seconds : nat) : M unit :=
  log (ESleep seconds);;
  advance (1000 * seconds).

(** [datetime.now()] *)
Definition datetime_now : M datetime :=
  let* t := gets clock in ret (now env t).

End Primitives.

End World.

(** ** [src/core/database.py]: class DatabaseConnection *)

Module DatabaseConnection.
Import Py World.
Local Open Scope py_scope.

(** A fetched row under [RealDictCursor], after [dict(row)]. *)
Abbreviation dict := (list (string * value)).

(** What [query_database] returns: [None], a list of dicts, or [True]. *)
Inductive query_result :=
| QNone
| QRows (rows : list dict)
| QTrue.

(** A cursor after [execute]: its result set, if the statement has one. *)
Abbreviation cursor := (option (list string * list (list value))).

Definition dquote : string := String "034"%char EmptyString.

(** The literal of [table_exists], line breaks and indentation included. *)
Definition exists_query : string :=
"
            SELECT EXISTS (
                SELECT FROM information_schema.tables 
                WHERE table_schema = 'public' 
                AND table_name = %s
            );
        ".

(** [f'SELECT * FROM "{table_name}" ORDER BY 1;'] *)
Definition select_all_query (table_name : value) : string :=
  "SELECT * FROM " ++ dquote ++ str table_name ++ dquote ++ " ORDER BY 1;".

(** The test of [query_database] on the statement text,
    [query.strip().upper().startswith('SELECT') or 'RETURNING' in
    query.upper()], with [upper] and [strip] as they are on ASCII
    text. *)
Definition is_select_or_returning (query : string) : bool :=
  startswith "SELECT" (upper (strip query)) || contains "RETURNING" (upper query).

Section Methods.
Variable env : Env.

(** *** psycopg2 *)

(** [psycopg2.connect] with the connection parameters *)
Definition psycopg2_connect : M PgConnection :=
  let* t := external env EPgConnect in
  if pg_reachable env t then ret (mkPgConnection false)
  else raise OperationalError.

(** [self.connection], which must be an object to call a method on it. *)
Definition the_connection : M PgConnection :=
  let* c := gets connection in
  match c with
  | Some conn => ret conn
  | None => raise AttributeError
  end.

(** [self.connection.cursor(...)] *)
Definition connection_cursor : M unit :=
  let* conn := the_connection in
  external env EPgCursor;;
  if closed conn then raise InterfaceError else ret tt.

(** [cursor.execute(query, params)] *)
Definition cursor_execute (query : string) (params : list value) : M cursor :=
  let* conn := the_connection in
  let* t := external env (EPgExecute query params) in
  if closed conn then raise InterfaceError
  else match pg_answer env t query params with
       | ExecRows description rows => ret (Some (description, rows))
       | ExecDone => ret None
       | ExecError => raise DatabaseError
       | ExecLost =>
           modify (set_connection (Some (mkPgConnection true)));;
           raise OperationalError
       end.

(** [cursor.fetchall()] *)
Definition cursor_fetchall (cur : cursor) : M (list (list value)) :=
  external env EPgFetchall;;
  match cur with
  | Some (_, rows) => ret rows
  | None => raise ProgrammingError
  end.

(** [[desc[0] for desc in cursor.description]]; [description] is [None]
    when there is no result set. *)
Definition cursor_columns (cur : cursor) : M (list string) :=
  match cur with
  | Some (description, _) => ret description
  | None => raise TypeError
  end.

(** [self.connection.commit()] *)
Definition connection_commit : M unit :=
  let* conn := the_connection in
  external env EPgCommit;;
  if closed conn then raise InterfaceError else ret tt.

(** [self.connection.rollback()] *)
Definition connection_rollback : M unit :=
  let* conn := the_connection in
  external env EPgRollback;;
  if closed conn then raise InterfaceError else ret tt.

(** [self.connection.close()] *)
Definition connection_close : M unit :=
  let* conn := the_connection in
  external env EPgClose;;
  modify (set_connection (Some (mkPgConnection true))).

(** *** Methods *)

(** [DatabaseConnection.connect] *)
Definition connect : M bool :=
  try_except
    (let* conn := psycopg2_connect in
     modify (set_connection (Some conn));;
     ret true)
    (fun _ => ret false).

(** [DatabaseConnection.disconnect] *)
Definition disconnect : M unit :=
  let* c := gets connection in
  match c with
  | Some _ => connection_close
  | None => ret tt
  end.

(** [[dict(row) for row in results]] *)
Definition dicts (description : list string) (rows : list (list value)) : list dict :=
  map (fun row => zip description row) rows.

(** The [try] statement of [query_database], with its [except] and
    [finally] clauses. *)
Definition query_database_try (query : string) (params : list value)
    (need_to_disconnect : bool) : M query_result :=
  try_finally
    (try_except
       (connection_cursor;;
        let* cur := cursor_execute query params in
        if is_select_or_returning query then
          let* results := cursor_fetchall cur in
          connection_commit;;
          ret (QRows (dicts (match cur with Some (d, _) => d | None => [] end) results))
        else
          connection_commit;;
          ret QTrue)
       (fun _ =>
          connection_rollback;;
          ret QNone))
    (if need_to_disconnect then disconnect else ret tt).

(** [DatabaseConnection.query_database] *)
Definition query_database (query : string) (params : list value) : M query_result :=
  let* c := gets connection in
  let* proceed :=
    match c with
    | None =>
        let* ok := connect in
        if ok then ret (Some true) else ret None
    | Some _ => ret (Some false)
    end in
  match proceed with
  | None => ret QNone
  | Some need_to_disconnect => query_database_try query params need_to_disconnect
  end.

(** [result[0]['exists']] *)
Definition first_exists (rows : list dict) : M value :=
  match rows with
  | [] => raise KeyError
  | row :: _ =>
      match List.find (fun kv => String.eqb (fst kv) "exists") row with
      | Some (_, v) => ret v
      | None => raise KeyError
      end
  end.

(** [DatabaseConnection.table_exists]:
    [return result and result[0]['exists'] if result else False] *)
Definition table_exists (table_name : value) : M value :=
  let* result := query_database exists_query [table_name] in
  match result with
  | QNone => ret (VBool false)
  | QRows [] => ret (VBool false)
  | QRows rows => first_exists rows
  | QTrue => raise TypeError
  end.

(** The [try] statement of [get_table_data]. *)
Definition get_table_data_try (table_name : value) : M (option Pd.DataFrame) :=
  try_except
    (let query := select_all_query table_name in
     connection_cursor;;
     let* cur := cursor_execute query [] in
     let* columns := cursor_columns cur in
     let* data := cursor_fetchall cur in
     match data with
     | [] => ret (Some Pd.empty)
     | _ => ret (Some (Pd.mkDataFrame columns data))
     end)
    (fun _ => ret None).

(** [DatabaseConnection.get_table_data] *)
Definition get_table_data (table_name : value) : M (option Pd.DataFrame) :=
  let* c := gets connection in
  let* ok :=
    match c with
    | None => connect
    | Some conn => if closed conn then connect else ret true
    end in
  if negb ok then ret None
  else get_table_data_try table_name.

(** The literal of [get_table_info]. *)
Definition table_info_query : string :=
"
            SELECT column_name, data_type, is_nullable, column_default
            FROM information_schema.columns 
            WHERE table_name = %s AND table_schema = 'public'
            ORDER BY ordinal_position;
        ".

(** [DatabaseConnection.get_table_info] *)
Definition get_table_info (table_name : value) : M query_result :=
  query_database table_info_query [table_name].

(** The f-string of [get_row_count]: a count of all rows, named
    [row_count], from the table whose name stands between double
    quotes. *)
Definition row_count_query (table_name : value) : string :=
  "SELECT COUNT(" ++ String "*"%char ") as row_count FROM "
  ++ dquote ++ str table_name ++ dquote ++ ";".

(** [row[key]] for a fetched row, which is [None] when [fetchone] has
    found no row. *)
Definition subscript (row : option dict) (key : string) : M value :=
  match row with
  | None => raise TypeError
  | Some d =>
      match List.find (fun kv => String.eqb (fst kv) key) d with
      | Some (_, v) => ret v
      | None => raise KeyError
      end
  end.

(** [DatabaseConnection.get_row_count]:
    [return result[0]['row_count'] if result else None] *)
Definition get_row_count (table_name : value) : M (option value) :=
  let* result := query_database (row_count_query table_name) [] in
  match result with
  | QNone => ret None
  | QRows [] => ret None
  | QRows (row :: _) =>
      let* count := subscript (Some row) "row_count" in
      ret (Some count)
  | QTrue => raise TypeError
  end.

(** [cursor.fetchone()] under [RealDictCursor]: the first row of the
    result set the cursor holds, [None] when it is empty. *)
Definition cursor_fetchone (cur : cursor) : M (option dict) :=
  match cur with
  | Some (description, []) => ret None
  | Some (description, row :: _) => ret (Some (zip description row))
  | None => raise ProgrammingError
  end.

(** The statement of [test_connection] that lists the tables. *)
Definition list_tables_query : string :=
"
                SELECT table_name 
                FROM information_schema.tables 
                WHERE table_schema = 'public'
                ORDER BY table_name;
            ".

(** [for table in tables: print(f"   - {table['table_name']}")] *)
Fixpoint print_tables (tables : list dict) : M unit :=
  match tables with
  | [] => ret tt
  | table :: rest =>
      subscript (Some table) "table_name";;
      print_tables rest
  end.

(** [DatabaseConnection.test_connection] *)
Definition test_connection : M bool :=
  let* ok := connect in
  if negb ok then ret false
  else
    try_finally
      (try_except
         (connection_cursor;;
          let* cur := cursor_execute "SELECT version();" [] in
          let* version := cursor_fetchone cur in
          subscript version "version";;
          let* cur := cursor_execute "SELECT current_database();" [] in
          let* db_name := cursor_fetchone cur in
          subscript db_name "current_database";;
          let* cur := cursor_execute list_tables_query [] in
          let* tables := cursor_fetchall cur in
          print_tables (dicts (match cur with Some (d, _) => d | None => [] end) tables);;
          ret true)
         (fun _ => ret false))
      disconnect.

End Methods.

End DatabaseConnection.

(** ** [src/core/sheets.py]: class GoogleSheetsConnection *)

Module GoogleSheetsConnection.
Import Py World.
Local Open Scope py_scope.

(** A [gspread.Worksheet] object: the spreadsheet it belongs to and its
    title. *)
Record handle := mkHandle { h_spreadsheet : string; h_title : string }.

(** [os.getenv(..)] seen as a condition: unset and empty are both false. *)
Definition env_truthy (o : option string) : bool :=
  match o with
  | Some s => negb (String.eqb s EmptyString)
  | None => false
  end.

(** [os.getenv("SPREADSHEET_NAME") or os.getenv("TABLE_NAME") or
    "neon_to_google_sheets"] *)
Definition spreadsheet_name (env : Env) : string :=
  if env_truthy (getenv env "SPREADSHEET_NAME")
  then default EmptyString (getenv env "SPREADSHEET_NAME")
  else if env_truthy (getenv env "TABLE_NAME")
       then default EmptyString (getenv env "TABLE_NAME")
       else "neon_to_google_sheets".

(** Writing [new] over [old] from the first cell on. *)
Definition overlay_row (new old : list string) : list string :=
  (new ++ drop (length new) old)%list.

Fixpoint overlay (new old : grid) : grid :=
  match new, old with
  | [], _ => old
  | r :: new', [] => r :: new'
  | r :: new', o :: old' => overlay_row r o :: overlay new' old'
  end.

Section Methods.
Variable env : Env.

(** *** gspread *)

(** [gspread.oauth_from_dict(credentials)] *)
Definition oauth_from_dict : M unit :=
  let* t := external env EGsOauth in
  if gs_fault env t EGsOauth then raise APIError
  else modify (set_gc true).

(** [self.gc.open(title)] *)
Definition gc_open (title : string) : M string :=
  let* t := external env (EGsOpen title) in
  if gs_fault env t (EGsOpen title) then raise APIError
  else
    let* d := gets drive in
    match d !! title with
    | Some _ => ret title
    | None => raise SpreadsheetNotFound
    end.

(** [self.gc.create(title)]: a new spreadsheet comes with one empty
    worksheet, "Sheet1". *)
Definition gc_create (title : string) : M string :=
  let* t := external env (EGsCreate title) in
  if gs_fault env t (EGsCreate title) then raise APIError
  else
    modify (fun st =>
      set_drive (<[title := {["Sheet1" := mkWorksheet 1000 26 []]}]> (drive st)) st);;
    ret title.

(** [self.spreadsheet], which must be an object to call a method on it. *)
Definition the_spreadsheet : M string :=
  let* s := gets spreadsheet in
  match s with
  | Some title => ret title
  | None => raise AttributeError
  end.

(** [self.spreadsheet.worksheet(title)] *)
Definition spreadsheet_worksheet (title : string) : M handle :=
  let* sp := the_spreadsheet in
  let* t := external env (EGsWorksheet title) in
  if gs_fault env t (EGsWorksheet title) then raise APIError
  else
    let* d := gets drive in
    match d !! sp with
    | None => raise APIError
    | Some sheets =>
        match sheets !! title with
        | Some _ => ret (mkHandle sp title)
        | None => raise WorksheetNotFound
        end
    end.

(** [self.spreadsheet.add_worksheet(title=.., rows=.., cols=..)] *)
Definition spreadsheet_add_worksheet (title : string) (rows cols : nat) : M handle :=
  let* sp := the_spreadsheet in
  let* t := external env (EGsAddWorksheet title rows cols) in
  if gs_fault env t (EGsAddWorksheet title rows cols) then raise APIError
  else
    let* d := gets drive in
    match d !! sp with
    | None => raise APIError
    | Some sheets =>
        match sheets !! title with
        | Some _ => raise APIError
        | None =>
            modify (set_drive (<[sp := <[title := mkWorksheet rows cols []]> sheets]> d));;
            ret (mkHandle sp title)
        end
    end.

(** The cells of a worksheet are replaced through [f]. *)
Definition write_cells (ev : event) (w : handle) (f : grid -> grid) : M unit :=
  let* t := external env ev in
  if gs_fault env t ev then raise APIError
  else
    let* d := gets drive in
    match d !! h_spreadsheet w with
    | None => raise APIError
    | Some sheets =>
        match sheets !! h_title w with
        | None => raise APIError
        | Some ws =>
            modify (set_drive
              (<[h_spreadsheet w :=
                   <[h_title w := mkWorksheet (ws_rows ws) (ws_cols ws) (f (cells ws))]> sheets]> d))
        end
    end.

(** [worksheet.clear()] *)
Definition worksheet_clear (w : handle) : M unit :=
  write_cells (EGsClear (h_title w)) w (fun _ => []).

(** [worksheet.update(range_name='A1', values=data)] *)
Definition worksheet_update (w : handle) (data : grid) : M unit :=
  write_cells (EGsUpdate (h_title w) data) w (overlay data).

(** *** Methods *)

(** [GoogleSheetsConnection.connect] *)
Definition connect : M bool :=
  try_except
    (oauth_from_dict;;
     let* sp :=
       (fun st =>
          match gc_open (spreadsheet_name env) st with
          | (Raise SpreadsheetNotFound, st') => gc_create (spreadsheet_name env) st'
          | r => r
          end) in
     modify (set_spreadsheet (Some sp));;
     ret true)
    (fun _ => ret false).

(** [GoogleSheetsConnection.get_or_create_worksheet].  The second and
    third [except] clauses guard the [try] body only: what the handler of
    [WorksheetNotFound] raises leaves the method. *)
Definition get_or_create_worksheet (worksheet_name : string) (rows cols : nat)
  : M (option handle) :=
  fun st =>
    match spreadsheet_worksheet worksheet_name st with
    | (Return worksheet, st') => (Return (Some worksheet), st')
    | (Raise WorksheetNotFound, st') =>
        (let* worksheet := spreadsheet_add_worksheet worksheet_name rows cols in
         ret (Some worksheet)) st'
    | (Raise _, st') => (Return None, st')
    end.

(** [GoogleSheetsConnection.update_worksheet_data] *)
Definition update_worksheet_data (worksheet : handle) (data : grid) : M bool :=
  try_except
    (worksheet_clear worksheet;;
     worksheet_update worksheet data;;
     ret true)
    (fun _ => ret false).

(** [GoogleSheetsConnection.setup_worksheets] *)
Definition setup_worksheets (table_name : value) : M bool :=
  try_except
    (let data_worksheet_name := str table_name ++ "_data" in
     let* data_worksheet := get_or_create_worksheet data_worksheet_name 1000 50 in
     match data_worksheet with
     | None => ret false
     | Some _ =>
         let* metadata_worksheet := get_or_create_worksheet "Sync_Metadata" 10 3 in
         match metadata_worksheet with
         | None => ret false
         | Some _ => ret true
         end
     end)
    (fun _ => ret false).

(** [GoogleSheetsConnection.update_data_worksheet] *)
Definition update_data_worksheet (df : Pd.DataFrame) (worksheet_name : string) : M bool :=
  try_except
    (let* worksheet :=
       get_or_create_worksheet worksheet_name
         (Nat.max (Pd.len df + 10) 100)
         (Nat.max (length (Pd.columns df) + 5) 20) in
     match worksheet with
     | None => ret false
     | Some w =>
         let* cleaned_data := lift (Normalizer.prepare_dataframe_for_upload df) in
         update_worksheet_data w cleaned_data
     end)
    (fun _ => ret false).

(** The rows [update_metadata_worksheet] builds from the metadata dict, in
    insertion order. *)
Definition sync_info (metadata : list (string * value)) : grid :=
  fold_left (fun info kv => (info ++ [[fst kv; str (snd kv)]])%list)
            metadata [["Attribute"; "Value"]].

(** [GoogleSheetsConnection.update_metadata_worksheet] *)
Definition update_metadata_worksheet (metadata : list (string * value)) : M bool :=
  try_except
    (let* metadata_sheet := get_or_create_worksheet "Sync_Metadata" 10 3 in
     match metadata_sheet with
     | None => ret false
     | Some w => update_worksheet_data w (sync_info metadata)
     end)
    (fun _ => ret false).

End Methods.

End GoogleSheetsConnection.

(** ** Configuration shared by the two sync classes *)

Module Config.
Import Py World.

(** [self.table_name = os.getenv('TABLE_NAME')] *)
Definition table_name (env : Env) : value :=
  match getenv env "TABLE_NAME" with
  | Some s => VStr s
  | None => VNone
  end.

(** [self.sync_interval]: minutes converted to seconds. *)
Definition sync_interval (env : Env) : Z := sync_interval_minutes env * 60.

(** [f"{self.sync_interval/60:.1f} minutes"]: [sync_interval] is a multiple
    of 60, so the quotient is the whole number of minutes and one decimal
    prints as [.0]. *)
Definition interval_text (env : Env) : string :=
  str_int (sync_interval_minutes env) ++ ".0 minutes".

Definition required_vars : list string :=
  ["PGHOST"; "PGDATABASE"; "PGUSER"; "PGPASSWORD"; "TABLE_NAME";
   "CLIENT_ID"; "CLIENT_SECRET"; "PROJECT_ID"].

(** [validate_environment] of both classes. *)
Definition validate_environment (env : Env) : bool :=
  let missing_vars :=
    filter (fun var => negb (GoogleSheetsConnection.env_truthy (getenv env var)))
           required_vars in
  match missing_vars with
  | [] => true
  | _ => false
  end.

(** [datetime.now().strftime("%Y-%m-%d %H:%M:%S")] as a dict value. *)
Definition timestamp (t : datetime) : value :=
  VStr (strftime "%Y-%m-%d %H:%M:%S" t).

End Config.

(** ** [src/sync/continuous_sync.py]: class NeonToSheetsSync *)

Module NeonToSheetsSync.
Import Py World Config.
Local Open Scope py_scope.

Section Methods.
Variable env : Env.

(** [NeonToSheetsSync.connect_to_services] *)
Definition connect_to_services : M bool :=
  let* ok := DatabaseConnection.connect env in
  if negb ok then ret false
  else
    let* found := DatabaseConnection.table_exists env (table_name env) in
    if negb (truthy found) then ret false
    else
      let* ok := GoogleSheetsConnection.connect env in
      if negb ok then ret false
      else
        let* ok := GoogleSheetsConnection.setup_worksheets env (table_name env) in
        if negb ok then ret false
        else ret true.

(** The metadata dict of [perform_sync_cycle], in insertion order. *)
Definition metadata (t : datetime) (df : Pd.DataFrame) : list (string * value) :=
  [ ("Last Sync Time", timestamp t);
    ("Source Table", table_name env);
    ("Total Rows", VInt (Z.of_nat (Pd.len df)));
    ("Total Columns", VInt (Z.of_nat (length (Pd.columns df))));
    ("Data Worksheet", VStr (str (table_name env) ++ "_data"));
    ("Sync Interval", VStr (interval_text env));
    ("Status", VStr "Running") ].

(** [NeonToSheetsSync.perform_sync_cycle] *)
Definition perform_sync_cycle : M bool :=
  try_except
    (let* data := DatabaseConnection.get_table_data env (table_name env) in
     modify (set_df data);;
     match data with
     | None => ret false
     | Some df =>
         if (Pd.len df =? 0)%nat then ret false
         else
           let* ok := GoogleSheetsConnection.update_data_worksheet env df
                        (str (table_name env) ++ "_data") in
           if negb ok then ret false
           else
             let* t := datetime_now env in
             let* ok := GoogleSheetsConnection.update_metadata_worksheet env (metadata t df) in
             if negb ok then ret false
             else ret true
     end)
    (fun _ => ret false).

(** The [for i in range(self.sync_interval)] loop: one flag test and one
    second of sleep per round. *)
Fixpoint wait_interval (n : nat) : M unit :=
  match n with
  | O => ret tt
  | S k =>
      let* running := gets is_running in
      if negb running then ret tt
      else (sleep env 1;; wait_interval k)
  end.

(** Body of the [while self.is_running] loop; the result tells whether the
    body ended in [break]. *)
Definition loop_body : M bool :=
  try_except
    (wait_interval (Z.to_nat (sync_interval env));;
     let* running := gets is_running in
     if negb running then ret true
     else
       modify (fun st => set_sync_count (sync_count st + 1) st);;
       let* n := gets sync_count in
       print (MsgStartingSync n);;
       let* ok := perform_sync_cycle in
       (if ok then print (MsgSyncCompleted n) else print (MsgSyncFailed n));;
       ret false)
    (fun e =>
       print (MsgLoopError e);;
       sleep env 5;;
       ret false).

(** The [while self.is_running] loop, run for at most [fuel] rounds.  The
    result is [true] when the loop has ended and [false] when the rounds
    are used up with the loop still running. *)
Fixpoint sync_loop (fuel : nat) : M bool :=
  let* running := gets is_running in
  if negb running then ret true
  else
    match fuel with
    | O => ret false
    | S fuel' =>
        let* stop := loop_body in
        if stop then ret true else sync_loop fuel'
    end.

(** The dict [final_metadata]. *)
Definition final_metadata (t : datetime) (sync_count : nat) : list (string * value) :=
  [ ("Last Sync Time", timestamp t);
    ("Source Table", table_name env);
    ("Total Syncs Completed", VInt (Z.of_nat sync_count));
    ("Status", VStr "Stopped") ].

(** The statements of [start_continuous_sync] after the loop. *)
Definition shutdown : M bool :=
  print MsgShuttingDown;;
  let* c := gets connection in
  match c with
  | Some _ => DatabaseConnection.disconnect env
  | None => ret tt
  end;;
  try_except
    (let* t := datetime_now env in
     let* n := gets sync_count in
     GoogleSheetsConnection.update_metadata_worksheet env (final_metadata t n);;
     ret tt)
    (fun _ => ret tt);;
  print MsgStopped;;
  ret true.

(** [NeonToSheetsSync.start_continuous_sync], its loop run for at most
    [fuel] rounds: [None] when the loop is still running after them. *)
Definition start_continuous_sync (fuel : nat) : M (option bool) :=
  if negb (validate_environment env) then ret (Some false)
  else
    let* ok := connect_to_services in
    if negb ok then ret (Some false)
    else
      print MsgInitialSync;;
      let* ok := perform_sync_cycle in
      if negb ok then (print MsgInitialSyncFailed;; ret (Some false))
      else
        print MsgInitialSyncCompleted;;
        modify (set_sync_count 1);;
        let* ended := sync_loop fuel in
        if negb ended then ret None
        else
          let* r := shutdown in
          ret (Some r).

End Methods.

End NeonToSheetsSync.

(** ** [src/sync/one_time_sync.py]: class OneTimeSyncToSheets *)

Module OneTimeSyncToSheets.
Import Py World Config.
Local Open Scope py_scope.

Section Methods.
Variable env : Env.

(** [OneTimeSyncToSheets.connect_to_services] *)
Definition connect_to_services : M bool :=
  let* ok := DatabaseConnection.connect env in
  if negb ok then ret false
  else
    let* found := DatabaseConnection.table_exists env (table_name env) in
    if negb (truthy found) then ret false
    else
      let* ok := GoogleSheetsConnection.connect env in
      if negb ok then ret false
      else
        let* ok := GoogleSheetsConnection.setup_worksheets env (table_name env) in
        if negb ok then ret false
        else ret true.

(** The metadata dict of [download_and_upload_data], in insertion order. *)
Definition metadata (t : datetime) (df : Pd.DataFrame) (worksheet_name : string)
  : list (string * value) :=
  [ ("Last Sync Time", timestamp t);
    ("Source Table", table_name env);
    ("Total Rows", VInt (Z.of_nat (Pd.len df)));
    ("Total Columns", VInt (Z.of_nat (length (Pd.columns df))));
    ("Data Worksheet", VStr worksheet_name);
    ("Sync Type", VStr "One-time") ].

(** [OneTimeSyncToSheets.download_and_upload_data] *)
Definition download_and_upload_data : M bool :=
  let* data := DatabaseConnection.get_table_data env (table_name env) in
  modify (set_df data);;
  match data with
  | None => ret false
  | Some df =>
      if (Pd.len df =? 0)%nat then ret false
      else
        let worksheet_name := str (table_name env) ++ "_data" in
        let* ok := GoogleSheetsConnection.update_data_worksheet env df worksheet_name in
        if negb ok then ret false
        else
          let* t := datetime_now env in
          let* ok := GoogleSheetsConnection.update_metadata_worksheet env
                       (metadata t df worksheet_name) in
          if negb ok then ret false
          else ret true
  end.

(** [OneTimeSyncToSheets.sync_data] *)
Definition sync_data : M bool :=
  if negb (validate_environment env) then ret false
  else
    let* ok := connect_to_services in
    if negb ok then ret false
    else
      let* ok := download_and_upload_data in
      if negb ok then ret false
      else ret true.

End Methods.

End OneTimeSyncToSheets.

(** ** Vocabulary of the properties *)

Module Spec.
Import Py World.

(** A signal is due while [d] milliseconds pass from [t0]. *)
Definition due (env : Env) (t0 d : nat) : bool :=
  match signal_at env with
  | Some s => ((t0 <? s) && (s <=? t0 + d))%nat
  | None => false
  end.

(** The state after [d] milliseconds have passed. *)
Definition elapse (env : Env) (d : nat) (st : State) : State :=
  let st1 := set_clock (clock st + d) st in
  if due env (clock st) d
  then set_is_running false (set_trace (trace st1 ++ [EPrint MsgSignal]) st1)
  else st1.

(** The state after a library call [ev] has been issued and has taken its
    time. *)
Definition called (env : Env) (ev : event) (st : State) : State :=
  elapse env (latency env (clock st)) (set_trace (trace st ++ [ev]) st).

(** Calls to the spreadsheet service. *)
Definition is_gs_event (ev : event) : bool :=
  match ev with
  | EGsOauth | EGsOpen _ | EGsCreate _ | EGsWorksheet _
  | EGsAddWorksheet _ _ _ | EGsClear _ | EGsUpdate _ _ => true
  | _ => false
  end.

Definition gs_calls (st : State) : list event :=
  List.filter is_gs_event (trace st).

(** Neither the remote spreadsheets nor the list of calls made to the
    spreadsheet service differ between the two states. *)
Definition sheets_untouched (st st' : State) : Prop :=
  drive st' = drive st /\ gs_calls st' = gs_calls st.

(** The cells of a worksheet of the spreadsheet the program has opened. *)
Definition worksheet_cells (title : string) (st : State) : option grid :=
  match spreadsheet st with
  | Some sp =>
      match drive st !! sp with
      | Some sheets =>
          match sheets !! title with
          | Some ws => Some (cells ws)
          | None => None
          end
      | None => None
      end
  | None => None
  end.

(** The attribute names of a metadata grid: the first column below the
    header row. *)
Definition attributes (g : grid) : list string :=
  List.map (fun row => List.hd EmptyString row) (List.tl g).

(** The value a metadata grid gives to an attribute. *)
Definition attribute_value (name : string) (g : grid) : option string :=
  match List.find (fun row => String.eqb (List.hd EmptyString row) name) (List.tl g) with
  | Some row => Some (List.nth 1 row EmptyString)
  | None => None
  end.

(** Whatever state a computation starts in, the state it ends in is
    related to it by [R]. *)
Definition preserves {A : Type} (R : State -> State -> Prop) (m : M A) : Prop :=
  forall st, R st (snd (m st)).

(** The state in which [get_table_data] starts its query, if it gets that
    far: the one it is called in when the connection is open, the one
    after a successful [connect] otherwise. *)
Definition ensure_connection (env : Env) (st : State) : option State :=
  match connection st with
  | Some (mkPgConnection false) => Some st
  | _ =>
      if pg_reachable env (clock st)
      then Some (set_connection (Some (mkPgConnection false)) (called env EPgConnect st))
      else None
  end.

(** What the [try] statement of [get_table_data] comes to on an open
    connection. *)
Definition fetch_all (env : Env) (name : value) (st : State)
  : outcome (option Pd.DataFrame) * State :=
  let st1 := called env EPgCursor st in
  let query := DatabaseConnection.select_all_query name in
  let st2 := called env (EPgExecute query []) st1 in
  match pg_answer env (clock st1) query [] with
  | ExecRows description rows =>
      (Return (Some (match rows with
                     | [] => Pd.empty
                     | _ => Pd.mkDataFrame description rows
                     end)),
       called env EPgFetchall st2)
  | ExecDone => (Return None, st2)
  | ExecError => (Return None, st2)
  | ExecLost => (Return None, set_connection (Some (mkPgConnection true)) st2)
  end.

(** The two sync modes, the method that runs one cycle in each, and the
    metadata dict that method builds. *)
Inductive sync_mode := Interval | OneTime.

Definition cycle (mode : sync_mode) (env : Env) : M bool :=
  match mode with
  | Interval => NeonToSheetsSync.perform_sync_cycle env
  | OneTime => OneTimeSyncToSheets.download_and_upload_data env
  end.

Definition cycle_metadata (mode : sync_mode) (env : Env) (t : datetime)
    (d : Pd.DataFrame) : list (string * value) :=
  match mode with
  | Interval => NeonToSheetsSync.metadata env t d
  | OneTime =>
      OneTimeSyncToSheets.metadata env t d (str (Config.table_name env) +:+ "_data")
  end.

(** The attributes both modes record. *)
Definition common_attributes : list string :=
  ["Last Sync Time"; "Source Table"; "Total Rows"; "Total Columns"; "Data Worksheet"].

(** The Python objects a spreadsheet method leaves alone. *)
Definition same_objects (st st' : State) : Prop :=
  spreadsheet st' = spreadsheet st /\ df st' = df st.

(** The state after a line has been printed or a call recorded. *)
Definition logged (ev : event) (st : State) : State :=
  set_trace (trace st ++ [ev]) st.

(** The state after [time.sleep(1)]. *)
Definition slept (env : Env) (st : State) : State :=
  elapse env 1000 (logged (ESleep 1) st).

(** The state after the wait loop has run for at most [n] rounds: a round
    sleeps one second, and no round starts once the flag is down. *)
Fixpoint waited (env : Env) (n : nat) (st : State) : State :=
  match n with
  | O => st
  | S k => if is_running st then waited env k (slept env st) else st
  end.

(** Seconds to wait between two cycles: [range(self.sync_interval)]. *)
Definition interval_seconds (env : Env) : nat := Z.to_nat (Config.sync_interval env).

(** The state in which the cycle of a round starts: the counter
    incremented, the line "Starting sync #n" printed. *)
Definition round_start (st : State) : State :=
  logged (EPrint (MsgStartingSync (sync_count st + 1)))
         (set_sync_count (sync_count st + 1) st).

(** The line a round prints about its cycle. *)
Definition round_report (ok : bool) (n : nat) : event :=
  EPrint (if ok then MsgSyncCompleted n else MsgSyncFailed n).

(** The result of a cycle as a boolean. *)
Definition succeeded (r : outcome bool * State) : bool :=
  match fst r with
  | Return ok => ok
  | Raise _ => false
  end.

(** The flag is up exactly as long as the signal, due at [s], has not
    arrived. *)
Definition flag_tracks_signal (s : nat) (st : State) : Prop :=
  is_running st = true <-> (clock st < s)%nat.

(** The connection object has been released: it exists and is closed. *)
Definition released (st : State) : Prop :=
  connection st = Some (mkPgConnection true).

(** A connection object that exists before still exists after. *)
Definition keeps_connection (st st' : State) : Prop :=
  is_Some (connection st) -> is_Some (connection st').

(** What a cycle may add to the trace: the calls of a read (connect,
    cursor, the one statement that selects the whole table, fetchall),
    calls to the spreadsheet service, and the line the signal handler
    prints. *)
Definition is_cycle_event (env : Env) (ev : event) : bool :=
  match ev with
  | EPgConnect | EPgCursor | EPgFetchall => true
  | EPgExecute query params =>
      String.eqb query (DatabaseConnection.select_all_query (Config.table_name env))
      && match params with
         | [] => true
         | _ => false
         end
  | EPrint MsgSignal => true
  | _ => is_gs_event ev
  end.

(** The trace has grown, by events that all pass [P]. *)
Definition appends (P : event -> bool) (st st' : State) : Prop :=
  exists l, trace st' = (trace st ++ l)%list /\ forallb P l = true.

(** A worksheet of the drive, by spreadsheet and title. *)
Definition worksheet_at (sp title : string) (st : State) : option Worksheet :=
  match drive st !! sp with
  | Some sheets => sheets !! title
  | None => None
  end.

(** The frame a read has returned, [None] when it has raised. *)
Definition read_frame (r : outcome (option Pd.DataFrame) * State) : option Pd.DataFrame :=
  match fst r with
  | Return d => d
  | Raise _ => None
  end.

(** Name of the data worksheet: [f"{self.table_name}_data"]. *)
Definition data_worksheet_name (env : Env) : string :=
  str (Config.table_name env) +:+ "_data".

(** Between the two states no worksheet has changed, been added or been
    removed, except possibly the worksheet [name] of the spreadsheet
    [sp]. *)
Definition writes_only (sp name : string) (st st' : State) : Prop :=
  forall sp' title,
    sp' <> sp \/ title <> name ->
    worksheet_at sp' title st' = worksheet_at sp' title st.

End Spec.

(** ** Concrete worlds, used to run the model *)

Module Scenario.
Import Py Pd World.

(** The table "users" of the specification's example. *)
Definition users_columns : list string := ["id"; "name"; "created_at"].

Definition users_rows : list (list value) :=
  [ [VInt 1; VStr "Ann"; VDatetime (mkDatetime 2024 1 1 0 0 0 0)];
    [VInt 2; VStr "Bo"; VNone] ].

Definition users_df : DataFrame := mkDataFrame users_columns users_rows.

(** A table with an array column ([text[]]): psycopg2 gives a list for
    each of its values. *)
Definition tagged_df : DataFrame :=
  mkDataFrame ["id"; "tags"] [ [VInt 1; VList [VStr "a"; VStr "b"] "['a', 'b']"] ].


(** Every required variable is set; the table to sync is "users". *)
Definition environ (name : string) : option string :=
  if String.eqb name "TABLE_NAME" then Some "users"
  else if String.eqb name "SPREADSHEET_NAME" then None
  else Some "x".

(** The server knows the table "users" with the given rows and rejects
    every other statement. *)
Definition answer (rows : list (list value)) (query : string) : exec_result :=
  if String.eqb query DatabaseConnection.exists_query
  then ExecRows ["exists"] [[VBool true]]
  else if String.eqb query (DatabaseConnection.select_all_query (VStr "users"))
       then ExecRows users_columns rows
       else ExecError.

(** A world in which every call succeeds at once, with a one-minute
    interval and a termination signal at the given time, if any. *)
Definition world (signal : option nat) (rows : list (list value)) : Env :=
  mkEnv environ 1
        (fun _ => mkDatetime 2024 5 6 7 8 9 0)
        (fun _ => 0%nat)
        signal
        (fun _ => true)
        (fun _ query _ => answer rows query)
        (fun _ _ => false).

(** The signal arrives three seconds after the start. *)
Definition calm (rows : list (list value)) : Env := world (Some 3000%nat) rows.

(** No signal ever arrives. *)
Definition endless (rows : list (list value)) : Env := world None rows.

(** A world in which every call takes 400 ms and the signal arrives
    60.9 s after the start. *)
Definition slow (rows : list (list value)) : Env :=
  mkEnv environ 1
        (fun _ => mkDatetime 2024 5 6 7 8 9 0)
        (fun _ => 400%nat)
        (Some (609 * 100)%nat)
        (fun _ => true)
        (fun _ query _ => answer rows query)
        (fun _ _ => false).

(** The signal arrives three seconds after the start, and from then on
    the spreadsheet service rejects every call. *)
Definition flaky (rows : list (list value)) : Env :=
  mkEnv environ 1
        (fun _ => mkDatetime 2024 5 6 7 8 9 0)
        (fun _ => 0%nat)
        (Some 3000%nat)
        (fun _ => true)
        (fun _ query _ => answer rows query)
        (fun t _ => (3000 <=? t)%nat).

(** Every call succeeds at once, except the update of the worksheet
    "Sync_Metadata", which the service rejects. *)
Definition metadata_fails (rows : list (list value)) : Env :=
  mkEnv environ 1
        (fun _ => mkDatetime 2024 5 6 7 8 9 0)
        (fun _ => 0%nat)
        None
        (fun _ => true)
        (fun _ query _ => answer rows query)
        (fun _ ev => match ev with
                     | EGsUpdate title _ => String.eqb title "Sync_Metadata"
                     | _ => false
                     end).

(** Every call succeeds at once, except [add_worksheet], which the
    service rejects. *)
Definition add_fails (rows : list (list value)) : Env :=
  mkEnv environ 1
        (fun _ => mkDatetime 2024 5 6 7 8 9 0)
        (fun _ => 0%nat)
        None
        (fun _ => true)
        (fun _ query _ => answer rows query)
        (fun _ ev => match ev with
                     | EGsAddWorksheet _ _ _ => true
                     | _ => false
                     end).

(** The world [world None rows] with [CLIENT_SECRET] set to the empty
    string. *)
Definition unconfigured (rows : list (list value)) : Env :=
  mkEnv (fun name => if String.eqb name "CLIENT_SECRET" then Some EmptyString
                     else environ name)
        1
        (fun _ => mkDatetime 2024 5 6 7 8 9 0)
        (fun _ => 0%nat)
        None
        (fun _ => true)
        (fun _ query _ => answer rows query)
        (fun _ _ => false).

(** A world whose server executes every statement and returns no result
    set. *)
Definition accepting : Env :=
  mkEnv environ 1
        (fun _ => mkDatetime 2024 5 6 7 8 9 0)
        (fun _ => 0%nat)
        None
        (fun _ => true)
        (fun _ _ _ => ExecDone)
        (fun _ _ => false).

(** A world whose server cannot be reached. *)
Definition offline : Env :=
  mkEnv environ 1
        (fun _ => mkDatetime 2024 5 6 7 8 9 0)
        (fun _ => 0%nat)
        None
        (fun _ => false)
        (fun _ _ _ => ExecError)
        (fun _ _ => false).

(** The server of [world None rows], which also answers the three
    statements of [test_connection] and the count of the rows of
    "users". *)
Definition diagnostics (rows : list (list value)) : Env :=
  mkEnv environ 1
        (fun _ => mkDatetime 2024 5 6 7 8 9 0)
        (fun _ => 0%nat)
        None
        (fun _ => true)
        (fun _ query _ =>
           if String.eqb query "SELECT version();"
           then ExecRows ["version"] [[VStr "PostgreSQL 16.2"]]
           else if String.eqb query "SELECT current_database();"
           then ExecRows ["current_database"] [[VStr "neondb"]]
           else if String.eqb query DatabaseConnection.list_tables_query
           then ExecRows ["table_name"] [[VStr "users"]]
           else if String.eqb query (DatabaseConnection.row_count_query (VStr "users"))
           then ExecRows ["row_count"] [[VInt (Z.of_nat (length rows))]]
           else answer rows query)
        (fun _ _ => false).

(** The world [world None rows] with [SYNC_INTERVAL_MINUTES] set to 0. *)
Definition hasty (rows : list (list value)) : Env :=
  mkEnv environ 0
        (fun _ => mkDatetime 2024 5 6 7 8 9 0)
        (fun _ => 0%nat)
        None
        (fun _ => true)
        (fun _ query _ => answer rows query)
        (fun _ _ => false).

(** Every call takes 400 ms and the signal arrives one second after the
    start, while the services are being connected. *)
Definition early (rows : list (list value)) : Env :=
  mkEnv environ 1
        (fun _ => mkDatetime 2024 5 6 7 8 9 0)
        (fun _ => 400%nat)
        (Some 1000%nat)
        (fun _ => true)
        (fun _ query _ => answer rows query)
        (fun _ _ => false).

(** The table to sync is "ghosts", which the server does not know: it
    has the table "users" only. *)
Definition ghosts : Env :=
  mkEnv (fun name => if String.eqb name "TABLE_NAME" then Some "ghosts"
                     else environ name)
        1
        (fun _ => mkDatetime 2024 5 6 7 8 9 0)
        (fun _ => 0%nat)
        None
        (fun _ => true)
        (fun _ query params =>
           if String.eqb query DatabaseConnection.exists_query
           then ExecRows ["exists"]
                  [[VBool match params with
                          | [VStr name] => String.eqb name "users"
                          | _ => false
                          end]]
           else answer users_rows query)
        (fun _ _ => false).

(** A fresh process: nothing connected, no spreadsheet on the drive. *)
Definition fresh : State := mkState 0 [] ∅ None false None None true 0.

(** The same process once [connect_to_services] has run. *)
Definition connected : State :=
  snd (OneTimeSyncToSheets.connect_to_services (calm users_rows) fresh).

(** A process that has opened its spreadsheet and set up no worksheet
    yet. *)
Definition signed_in : State :=
  snd (GoogleSheetsConnection.connect (world None users_rows) fresh).

End Scenario.

(** * Properties *)

Import Py Pd Normalizer World Spec.

(** ** The normalizer *)

Section NormalizerFacts.

Lemma fold_left_snoc_map {A B} (f : A -> B) (l : list A) (acc : list B) :
  fold_left (fun acc x => (acc ++ [f x])%list) l acc = (acc ++ map f l)%list.
Proof.
  revert acc. induction l as [|x l IH]; intros acc; simpl.
  - by rewrite app_nil_r.
  - rewrite IH. by rewrite <- app_assoc.
Qed.

Lemma Return_inj {A} (a b : A) : Return a = Return b -> a = b.
Proof. by intros [=]. Qed.

(** The two loops of the normalizer have one shape: the results are
    collected in order, and the first exception ends the loop. *)
Section Loop.
Context {A B : Type} (f : A -> outcome B).

Let step (acc : outcome (list B)) (x : A) : outcome (list B) :=
  and_then acc (fun ys => and_then (f x) (fun y => Return (ys ++ [y])%list)).

Lemma loop_raise l e : fold_left step l (Raise e) = Raise e.
Proof. by induction l as [|x l IH]. Qed.

Lemma loop_return l ys acc :
  Forall2 (fun x y => f x = Return y) l ys ->
  fold_left step l (Return acc) = Return (acc ++ ys)%list.
Proof.
  intros H. revert acc. induction H as [|x y l ys Hx _ IH]; intros acc; cbn [fold_left].
  - by rewrite app_nil_r.
  - assert (step (Return acc) x = Return (acc ++ [y])%list) as ->
      by (unfold step; simpl; by rewrite Hx).
    rewrite IH. by rewrite <- app_assoc.
Qed.

Lemma loop_cases l acc :
  (exists ys, Forall2 (fun x y => f x = Return y) l ys
              /\ fold_left step l (Return acc) = Return (acc ++ ys)%list)
  \/ (exists x e, In x l /\ f x = Raise e /\ fold_left step l (Return acc) = Raise e).
Proof.
  revert acc. induction l as [|x l IH]; intros acc.
  - left. exists []. split; [constructor|]. simpl. by rewrite app_nil_r.
  - cbn [fold_left]. destruct (f x) as [y|e] eqn:Hx.
    + assert (step (Return acc) x = Return (acc ++ [y])%list) as ->
        by (unfold step; simpl; by rewrite Hx).
      destruct (IH (acc ++ [y])%list) as [(ys & Hys & ->)|(x' & e & Hin & Hx' & ->)].
      * left. exists (y :: ys). split; [by constructor|]. by rewrite <- app_assoc.
      * right. exists x', e. split; [by right|done].
    + assert (step (Return acc) x = Raise e) as ->
        by (unfold step; simpl; by rewrite Hx).
      right. exists x, e. rewrite loop_raise. split; [by left|done].
Qed.

Lemma loop_inv l acc out :
  fold_left step l (Return acc) = Return out ->
  exists ys, out = (acc ++ ys)%list /\ Forall2 (fun x y => f x = Return y) l ys.
Proof.
  destruct (loop_cases l acc) as [(ys & Hys & ->)|(x & e & _ & _ & ->)]; [|done].
  intros [= <-]. eauto.
Qed.

End Loop.

Lemma clean_cell_scalar cell :
  is_list cell = false ->
  clean_cell cell
  = Return (if checknull cell then EmptyString
            else match as_datetime cell with
                 | Some t => strftime "%Y-%m-%d %H:%M:%S" t
                 | None => str cell
                 end).
Proof. by destruct cell as [| | |b|z|s|t|r|items r]; try destruct b. Qed.

Lemma clean_cell_list items repr :
  (2 <= length items)%nat -> clean_cell (VList items repr) = Raise ValueError.
Proof. destruct items as [|x [|y items]]; simpl; [lia|lia|done]. Qed.

Lemma clean_cell_raise cell e : clean_cell cell = Raise e -> e = ValueError.
Proof.
  destruct cell as [| | |b|z|s|t|r|items r]; try done.
  unfold clean_cell. simpl. destruct items as [|x [|y items]]; simpl.
  - by intros [= <-].
  - by destruct (checknull x).
  - by intros [= <-].
Qed.

Lemma clean_row_return row cells :
  Forall2 (fun cell text => clean_cell cell = Return text) row cells ->
  clean_row row = Return cells.
Proof. intros H. unfold clean_row. by rewrite (loop_return clean_cell row cells []). Qed.

Lemma clean_row_inv row cells :
  clean_row row = Return cells ->
  Forall2 (fun cell text => clean_cell cell = Return text) row cells.
Proof.
  unfold clean_row. intros H.
  apply (loop_inv clean_cell) in H as (ys & -> & H). done.
Qed.

Lemma clean_row_raise row e : clean_row row = Raise e -> e = ValueError.
Proof.
  unfold clean_row.
  destruct (loop_cases clean_cell row []) as [(ys & _ & ->)|(x & e' & _ & Hx & ->)];
    [done|].
  intros [= <-]. by apply clean_cell_raise in Hx.
Qed.

Lemma clean_row_raises row cell e :
  In cell row -> clean_cell cell = Raise e -> clean_row row = Raise ValueError.
Proof.
  intros Hin Hcell.
  destruct (clean_row row) as [cells|e'] eqn:Hrow.
  - apply clean_row_inv in Hrow. apply list_elem_of_In in Hin.
    apply list_elem_of_lookup in Hin as [i Hi].
    destruct (Forall2_lookup_l _ _ _ _ _ Hrow Hi) as (y & _ & Hy). congruence.
  - by rewrite (clean_row_raise row e' Hrow).
Qed.

Lemma clean_header cols : clean_row (map VStr cols) = Return cols.
Proof.
  apply clean_row_return. induction cols as [|c cols IH]; simpl; by constructor.
Qed.

Lemma prepare_dataframe_for_upload_return df rows :
  Forall2 (fun row cells => clean_row row = Return cells) (values df) rows ->
  prepare_dataframe_for_upload df = Return (columns df :: rows).
Proof.
  intros H. unfold prepare_dataframe_for_upload. cbv zeta.
  by rewrite (loop_return clean_row _ (columns df :: rows) []);
    [|constructor; [apply clean_header|]].
Qed.

Lemma prepare_dataframe_for_upload_inv df g :
  prepare_dataframe_for_upload df = Return g ->
  exists rows,
    g = columns df :: rows
    /\ Forall2 (fun row cells => clean_row row = Return cells) (values df) rows.
Proof.
  unfold prepare_dataframe_for_upload. cbv zeta. intros H.
  apply (loop_inv clean_row) in H as (ys & -> & H).
  inversion H as [|x y l ys' Hx Hl]; subst. rewrite clean_header in Hx.
  injection Hx as <-. by exists ys'.
Qed.

Lemma prepare_dataframe_for_upload_length df g :
  prepare_dataframe_for_upload df = Return g -> length g = S (len df).
Proof.
  intros H. apply prepare_dataframe_for_upload_inv in H as (rows & -> & H).
  simpl. unfold len. by rewrite (Forall2_length _ _ _ H).
Qed.

Lemma prepare_dataframe_for_upload_raise df e :
  prepare_dataframe_for_upload df = Raise e -> e = ValueError.
Proof.
  unfold prepare_dataframe_for_upload. cbv zeta.
  destruct (loop_cases clean_row (map VStr (columns df) :: values df) [])
    as [(ys & _ & ->)|(x & e' & _ & Hx & ->)]; [done|].
  intros [= <-]. by apply clean_row_raise in Hx.
Qed.

Lemma prepare_dataframe_for_upload_raises df row cell e :
  In row (values df) -> In cell row -> clean_cell cell = Raise e ->
  prepare_dataframe_for_upload df = Raise ValueError.
Proof.
  intros Hrow Hcell He.
  destruct (prepare_dataframe_for_upload df) as [g|e'] eqn:Hg.
  - apply prepare_dataframe_for_upload_inv in Hg as (rows & -> & H).
    apply list_elem_of_In in Hrow. apply list_elem_of_lookup in Hrow as [i Hi].
    destruct (Forall2_lookup_l _ _ _ _ _ H Hi) as (y & _ & Hy).
    by rewrite (clean_row_raises row cell e Hcell He) in Hy.
  - by rewrite (prepare_dataframe_for_upload_raise df e' Hg).
Qed.

Lemma clean_rows_lengths (n : nat) rows out :
  Forall (fun row => length row = n) rows ->
  Forall2 (fun row cells => clean_row row = Return cells) rows out ->
  Forall (fun cells => length cells = n) out.
Proof.
  intros Hwf H. induction H as [|row cells rest out Hrow _ IH]; [constructor|].
  inversion Hwf as [|? ? Hlen Hrest]; subst.
  constructor; [|by apply IH].
  apply clean_row_inv in Hrow. by rewrite <- (Forall2_length _ _ _ Hrow).
Qed.

(** A frame without list cells. *)
Lemma prepare_dataframe_for_upload_scalars df :
  Forall (Forall (fun cell => is_list cell = false)) (values df) ->
  exists g, prepare_dataframe_for_upload df = Return g.
Proof.
  intros H.
  destruct (prepare_dataframe_for_upload df) as [g|e] eqn:Hg; [by eexists|].
  exfalso. revert Hg. unfold prepare_dataframe_for_upload. cbv zeta.
  destruct (loop_cases clean_row (map VStr (columns df) :: values df) [])
    as [(ys & _ & ->)|(row & e' & Hin & Hrow & ->)]; [done|].
  intros _. destruct Hin as [<-|Hin]; [by rewrite clean_header in Hrow|].
  revert Hrow. unfold clean_row.
  destruct (loop_cases clean_cell row []) as [(ys & _ & ->)|(cell & e2 & Hc & He & ->)];
    [done|].
  intros _. rewrite Forall_forall in H. apply list_elem_of_In in Hin, Hc.
  specialize (H row Hin). rewrite Forall_forall in H. specialize (H cell Hc).
  by rewrite (clean_cell_scalar cell H) in He.
Qed.


Lemma digit_range n : (Z.to_nat (n mod 10) < 10)%nat.
Proof. pose proof (Z.mod_pos_bound n 10). lia. Qed.


Lemma digit_value_digit n : digit_value (digit n) = n mod 10.
Proof.
  unfold digit_value, digit. rewrite nat_ascii_embedding.
  - pose proof (Z.mod_pos_bound n 10). lia.
  - pose proof (digit_range n). lia.
Qed.



(** The text of a year reads back as the year. *)
Lemma number_year_text y : 0 <= y <= 9999 -> number (year_text y) 0 = y.
Proof.
  intros H. unfold year_text.
  destruct (Z.ltb_spec y 10); [|destruct (Z.ltb_spec y 100);
                                  [|destruct (Z.ltb_spec y 1000)]];
    cbn -[digit digit_value Z.div Z.modulo Z.mul Z.add];
    rewrite !digit_value_digit; Z.div_mod_to_equations; lia.
Qed.

Lemma append_length (a b : string) :
  String.length (a ++ b) = (String.length a + String.length b)%nat.
Proof. induction a as [|c a IH]; simpl; [done|]. by rewrite IH. Qed.

Lemma append_inj (a a' b b' : string) :
  String.length b = String.length b' -> a ++ b = a' ++ b' -> a = a' /\ b = b'.
Proof.
  intros Hlen. revert a'. induction a as [|c a IH]; intros [|c' a'] H.
  - done.
  - apply (f_equal String.length) in H. rewrite !append_length in H. simpl in H. lia.
  - apply (f_equal String.length) in H. rewrite !append_length in H. simpl in H. lia.
  - change (String c (a ++ b) = String c' (a' ++ b')) in H.
    injection H as -> H. by destruct (IH a' H) as [-> ->].
Qed.

(** [strftime] with the format of the sources: the year, then fifteen
    characters. *)
Lemma strftime_timestamp t :
  strftime "%Y-%m-%d %H:%M:%S" t
  = year_text (year t)
    ++ String "-" (String (digit (month t / 10)) (String (digit (month t))
      (String "-" (String (digit (day t / 10)) (String (digit (day t))
      (String " " (String (digit (hour t / 10)) (String (digit (hour t))
      (String ":" (String (digit (minute t / 10)) (String (digit (minute t))
      (String ":" (String (digit (second t / 10)) (String (digit (second t))
       EmptyString)))))))))))))).
Proof. reflexivity. Qed.





Lemma valid_datetime_year t : valid_datetime t = true -> 1 <= year t <= 9999.
Proof. unfold valid_datetime. rewrite !andb_true_iff, !Z.leb_le. lia. Qed.



(** The text tells the six fields, whatever the year. *)
Lemma strftime_fields t1 t2 :
  valid_datetime t1 = true -> valid_datetime t2 = true ->
  strftime "%Y-%m-%d %H:%M:%S" t1 = strftime "%Y-%m-%d %H:%M:%S" t2 ->
  [year t1; month t1; day t1; hour t1; minute t1; second t1]
  = [year t2; month t2; day t2; hour t2; minute t2; second t2].
Proof.
  intros H1 H2. rewrite !strftime_timestamp. intros Heq.
  apply append_inj in Heq as [Hy Hrest]; [|reflexivity].
  apply (f_equal (fun s => number s 0)) in Hy.
  rewrite !number_year_text in Hy
    by (pose proof (valid_datetime_year t1 H1); pose proof (valid_datetime_year t2 H2);
        lia).
  apply (f_equal (fun s => timestamp_fields
                             (String "0" (String "0" (String "0" (String "0" s))))))
    in Hrest.
  revert H1 H2 Hrest. unfold valid_datetime. rewrite !andb_true_iff, !Z.leb_le.
  intros H1 H2. unfold timestamp_fields.
  cbn -[digit digit_value Z.div Z.modulo Z.mul Z.add].
  rewrite !digit_value_digit. intros [= Hmo Hd Hh Hmi Hs].
  assert (month t1 = month t2) as -> by (Z.div_mod_to_equations; lia).
  assert (day t1 = day t2) as -> by (Z.div_mod_to_equations; lia).
  assert (hour t1 = hour t2) as -> by (Z.div_mod_to_equations; lia).
  assert (minute t1 = minute t2) as -> by (Z.div_mod_to_equations; lia).
  assert (second t1 = second t2) as -> by (Z.div_mod_to_equations; lia).
  by rewrite Hy.
Qed.

End NormalizerFacts.

(** C1.  A list cell is the case the normalizer misses.  [pd.isna] gives
    an array for it, and [if] refuses the array when it has two or more
    elements: a frame that holds such a cell anywhere, as the frame of a
    table with an array column does, gets no rows, the call raises
    [ValueError].  A frame without list cells, whose rows all have [c]
    values, gets its [r + 1] rows of [c] texts, the column names
    first. *)
Theorem list_cell_stops_prepare_dataframe_for_upload (d : DataFrame) :
  (forall i j row items repr,
      values d !! i = Some row ->
      row !! j = Some (VList items repr) ->
      (2 <= length items)%nat ->
      prepare_dataframe_for_upload d = Raise ValueError)
  /\ (well_formed d ->
      Forall (Forall (fun cell => is_list cell = false)) (values d) ->
      exists g,
        prepare_dataframe_for_upload d = Return g
        /\ length g = S (len d)
        /\ Forall (fun row => length row = length (columns d)) g
        /\ head g = Some (columns d)).
Proof.
  split.
  - intros i j row items repr Hrow Hcell Hlen.
    apply (prepare_dataframe_for_upload_raises d row (VList items repr) ValueError).
    + apply list_elem_of_In. by eapply list_elem_of_lookup_2.
    + apply list_elem_of_In. by eapply list_elem_of_lookup_2.
    + by apply clean_cell_list.
  - intros Hwf Hscalars.
    destruct (prepare_dataframe_for_upload_scalars d Hscalars) as [g Hg].
    exists g. split; [done|].
    apply prepare_dataframe_for_upload_inv in Hg as (rows & -> & Hrows).
    split; [|split; [|done]].
    + simpl. unfold len. by rewrite (Forall2_length _ _ _ Hrows).
    + constructor; [done|]. by apply (clean_rows_lengths _ (values d)).
Qed.

Lemma list_cell_stops_prepare_dataframe_for_upload_witness :
  prepare_dataframe_for_upload Scenario.tagged_df = Raise ValueError
  /\ exists g,
       prepare_dataframe_for_upload Scenario.users_df = Return g
       /\ length g = 3%nat
       /\ Forall (fun row => length row = 3%nat) g
       /\ head g = Some ["id"; "name"; "created_at"].
Proof.
  split.
  - destruct (list_cell_stops_prepare_dataframe_for_upload Scenario.tagged_df)
      as [H _].
    apply (H 0%nat 1%nat [VInt 1; VList [VStr "a"; VStr "b"] "['a', 'b']"]
             [VStr "a"; VStr "b"] "['a', 'b']"); [reflexivity|reflexivity|].
    simpl. lia.
  - destruct (list_cell_stops_prepare_dataframe_for_upload Scenario.users_df)
      as [_ H].
    apply H; repeat constructor.
Defined.




Local Open Scope nat_scope.
Local Open Scope py_scope.
Local Open Scope list_scope.

(** * Facts about the monad and its primitives *)

Section MonadFacts.
Variable env : Env.

Lemma advance_eq d st : advance env d st = (Return tt, elapse env d st).
Proof.
  unfold advance, elapse, due, bind, gets, modify, _signal_handler, print, log, ret.
  simpl. destruct (signal_at env) as [s|]; [|done].
  by destruct ((clock st <? s) && (s <=? clock st + d)).
Qed.

Lemma external_eq ev st : external env ev st = (Return (clock st), called env ev st).
Proof.
  unfold external, called, bind, gets, log, modify, ret. simpl.
  by rewrite advance_eq.
Qed.

Lemma sleep_eq n st :
  sleep env n st
  = (Return tt, elapse env (1000 * n) (set_trace (trace st ++ [ESleep n]) st)).
Proof. unfold sleep, bind, log, modify. simpl. by rewrite advance_eq. Qed.

Lemma elapse_drive d st : drive (elapse env d st) = drive st.
Proof. unfold elapse. by destruct (due _ _ _). Qed.
Lemma elapse_connection d st : connection (elapse env d st) = connection st.
Proof. unfold elapse. by destruct (due _ _ _). Qed.
Lemma elapse_spreadsheet d st : spreadsheet (elapse env d st) = spreadsheet st.
Proof. unfold elapse. by destruct (due _ _ _). Qed.
Lemma elapse_gc d st : gc (elapse env d st) = gc st.
Proof. unfold elapse. by destruct (due _ _ _). Qed.
Lemma elapse_df d st : df (elapse env d st) = df st.
Proof. unfold elapse. by destruct (due _ _ _). Qed.
Lemma elapse_sync_count d st : sync_count (elapse env d st) = sync_count st.
Proof. unfold elapse. by destruct (due _ _ _). Qed.
Lemma elapse_clock d st : clock (elapse env d st) = clock st + d.
Proof. unfold elapse. by destruct (due _ _ _). Qed.
Lemma elapse_is_running d st :
  is_running (elapse env d st) = is_running st && negb (due env (clock st) d).
Proof. unfold elapse. destruct (due _ _ _); simpl; by rewrite ?andb_false_r, ?andb_true_r. Qed.
Lemma elapse_trace d st :
  trace (elapse env d st)
  = trace st ++ (if due env (clock st) d then [EPrint MsgSignal] else []).
Proof. unfold elapse. destruct (due _ _ _); simpl; by rewrite ?app_nil_r. Qed.

Lemma called_drive ev st : drive (called env ev st) = drive st.
Proof. unfold called. by rewrite elapse_drive. Qed.
Lemma called_connection ev st : connection (called env ev st) = connection st.
Proof. unfold called. by rewrite elapse_connection. Qed.
Lemma called_spreadsheet ev st : spreadsheet (called env ev st) = spreadsheet st.
Proof. unfold called. by rewrite elapse_spreadsheet. Qed.
Lemma called_trace ev st :
  trace (called env ev st)
  = trace st ++ ev :: (if due env (clock st) (latency env (clock st))
                       then [EPrint MsgSignal] else []).
Proof. unfold called. rewrite elapse_trace. simpl. by rewrite <- app_assoc. Qed.

End MonadFacts.

(** * A frame rule for the methods

    [R] relates the state before to the state after.  Once it is a
    preorder that every primitive state change respects, each method
    respects it. *)

Section Frame.
Variable env : Env.
Variable R : State -> State -> Prop.
Hypothesis Hrefl : forall st, R st st.
Hypothesis Htrans : forall a b c, R a b -> R b c -> R a c.

Lemma preserves_ret {A} (a : A) : preserves R (ret a).
Proof. intros st. apply Hrefl. Qed.

Lemma preserves_raise {A} e : preserves R (@raise A e).
Proof. intros st. apply Hrefl. Qed.

Lemma preserves_gets {A} (f : State -> A) : preserves R (gets f).
Proof. intros st. apply Hrefl. Qed.

Lemma preserves_modify f : (forall st, R st (f st)) -> preserves R (modify f).
Proof. intros H st. apply H. Qed.

Lemma preserves_lift {A} (o : outcome A) : preserves R (lift o).
Proof. intros st. apply Hrefl. Qed.

Lemma preserves_bind {A B} (m : M A) (k : A -> M B) :
  preserves R m -> (forall a, preserves R (k a)) -> preserves R (bind m k).
Proof.
  intros Hm Hk st. unfold bind. specialize (Hm st).
  destruct (m st) as [[a|e] st1]; simpl in *; [|done].
  eapply Htrans; [exact Hm | apply Hk].
Qed.

Lemma preserves_try_except {A} (m : M A) h :
  preserves R m -> (forall e, preserves R (h e)) -> preserves R (try_except m h).
Proof.
  intros Hm Hh st. unfold try_except. specialize (Hm st).
  destruct (m st) as [[a|e] st1]; simpl in *; [done|].
  eapply Htrans; [exact Hm | apply Hh].
Qed.

Lemma preserves_try_finally {A} (m : M A) c :
  preserves R m -> preserves R c -> preserves R (try_finally m c).
Proof.
  intros Hm Hc st. unfold try_finally. specialize (Hm st).
  destruct (m st) as [r st1]. specialize (Hc st1).
  destruct (c st1) as [[[]|e] st2]; simpl in *; eapply Htrans; eauto.
Qed.

End Frame.

Create HintDb frame.

Ltac frame_step :=
  first
    [ solve [auto with frame]
    | apply preserves_ret; assumption
    | apply preserves_raise; assumption
    | apply preserves_gets; assumption
    | apply preserves_modify; solve [auto with frame]
    | match goal with
      | |- preserves _ (match ?x with _ => _ end) => destruct x
      | |- preserves _ (if ?x then _ else _) => destruct x
      end
    | apply preserves_bind; [assumption | | intros ?; cbv beta]
    | apply preserves_try_except; [assumption | | intros ?; cbv beta]
    | apply preserves_try_finally; [assumption | | ] ].

Ltac frame := repeat frame_step.

Section FrameMethods.
Variable env : Env.
Variable R : State -> State -> Prop.
Variable ok : event -> bool.
Hypothesis Hrefl : forall st, R st st.
Hypothesis Htrans : forall a b c, R a b -> R b c -> R a c.
Hypothesis Helapse : forall d st, R st (elapse env d st).
Hypothesis Hlog : forall ev st, ok ev = true -> R st (set_trace (trace st ++ [ev]) st).
Hypothesis Hconnection : forall conn st, R st (set_connection (Some conn) st).
Hypothesis Hdf : forall d st, R st (set_df d st).
Hypothesis Hpg : forall ev, is_gs_event ev = false -> ok ev = true.

Lemma external_preserves ev : ok ev = true -> preserves R (external env ev).
Proof.
  intros Hev st. rewrite external_eq. simpl. unfold called.
  eapply Htrans; [apply Hlog, Hev | apply Helapse].
Qed.

Local Hint Resolve external_preserves : frame.
Local Hint Extern 1 (ok _ = true) => (apply Hpg; reflexivity) : frame.
Local Hint Resolve Hconnection Hdf : frame.

Import DatabaseConnection.

Lemma psycopg2_connect_preserves : preserves R (psycopg2_connect env).
Proof. unfold psycopg2_connect. frame. Qed.

Lemma the_connection_preserves : preserves R the_connection.
Proof. unfold the_connection. frame. Qed.

Local Hint Resolve psycopg2_connect_preserves the_connection_preserves : frame.

Lemma connection_cursor_preserves : preserves R (connection_cursor env).
Proof. unfold connection_cursor. frame. Qed.

Lemma cursor_execute_preserves q ps : preserves R (cursor_execute env q ps).
Proof. unfold cursor_execute. frame. Qed.

Lemma cursor_fetchall_preserves cur : preserves R (cursor_fetchall env cur).
Proof. unfold cursor_fetchall. frame. Qed.

Lemma cursor_columns_preserves cur : preserves R (cursor_columns cur).
Proof. unfold cursor_columns. frame. Qed.

Lemma connect_preserves : preserves R (connect env).
Proof. unfold connect. frame. Qed.

Local Hint Resolve connection_cursor_preserves cursor_execute_preserves
  cursor_fetchall_preserves cursor_columns_preserves connect_preserves : frame.

Lemma get_table_data_preserves name : preserves R (get_table_data env name).
Proof. unfold get_table_data, get_table_data_try. frame. Qed.

Local Hint Resolve get_table_data_preserves : frame.

Lemma connection_commit_preserves : preserves R (connection_commit env).
Proof. unfold connection_commit. frame. Qed.

Lemma connection_rollback_preserves : preserves R (connection_rollback env).
Proof. unfold connection_rollback. frame. Qed.

Lemma disconnect_preserves : preserves R (disconnect env).
Proof. unfold disconnect, connection_close. frame. Qed.

Local Hint Resolve connection_commit_preserves connection_rollback_preserves
  disconnect_preserves : frame.

Lemma query_database_preserves query params :
  preserves R (query_database env query params).
Proof. unfold query_database, query_database_try. frame. Qed.

Lemma first_exists_preserves rows : preserves R (first_exists rows).
Proof. unfold first_exists. frame. Qed.

Local Hint Resolve query_database_preserves first_exists_preserves : frame.

Lemma table_exists_preserves name : preserves R (table_exists env name).
Proof. unfold table_exists. frame. Qed.

Local Hint Resolve table_exists_preserves : frame.

(** The spreadsheet methods change more of the state. *)
Hypothesis Hgs : forall ev, ok ev = true.
Hypothesis Hdrive : forall d st, R st (set_drive d st).
Hypothesis Hgc : forall b st, R st (set_gc b st).
Hypothesis Hspreadsheet : forall s st, R st (set_spreadsheet s st).

Local Hint Resolve Hgs Hdrive Hgc Hspreadsheet : frame.

Import GoogleSheetsConnection.

Lemma the_spreadsheet_preserves : preserves R the_spreadsheet.
Proof. unfold the_spreadsheet. frame. Qed.

Local Hint Resolve the_spreadsheet_preserves : frame.

Lemma spreadsheet_worksheet_preserves title :
  preserves R (spreadsheet_worksheet env title).
Proof. unfold spreadsheet_worksheet. frame. Qed.

Lemma spreadsheet_add_worksheet_preserves title rows cols :
  preserves R (spreadsheet_add_worksheet env title rows cols).
Proof. unfold spreadsheet_add_worksheet. frame. Qed.

Lemma write_cells_preserves ev w f : preserves R (write_cells env ev w f).
Proof. unfold write_cells. frame. Qed.

Local Hint Resolve spreadsheet_worksheet_preserves
  spreadsheet_add_worksheet_preserves write_cells_preserves : frame.

Lemma get_or_create_worksheet_preserves name rows cols :
  preserves R (get_or_create_worksheet env name rows cols).
Proof.
  intros st. unfold get_or_create_worksheet.
  pose proof (spreadsheet_worksheet_preserves name st) as H1.
  destruct (spreadsheet_worksheet env name st) as [[w|e] st1]; simpl in *; [done|].
  assert (preserves R (let* worksheet := spreadsheet_add_worksheet env name rows cols
                       in ret (Some worksheet))) as H2 by frame.
  destruct e; simpl; try done.
  eapply Htrans; [exact H1 | apply H2].
Qed.

Lemma update_worksheet_data_preserves w data :
  preserves R (update_worksheet_data env w data).
Proof. unfold update_worksheet_data, worksheet_clear, worksheet_update. frame. Qed.

Local Hint Resolve get_or_create_worksheet_preserves
  update_worksheet_data_preserves : frame.

Lemma update_data_worksheet_preserves d name :
  preserves R (update_data_worksheet env d name).
Proof. unfold update_data_worksheet. frame. Qed.

Lemma update_metadata_worksheet_preserves md :
  preserves R (update_metadata_worksheet env md).
Proof. unfold update_metadata_worksheet. frame. Qed.

Local Hint Resolve update_data_worksheet_preserves
  update_metadata_worksheet_preserves : frame.

Lemma datetime_now_preserves : preserves R (datetime_now env).
Proof. unfold datetime_now. frame. Qed.

Local Hint Resolve datetime_now_preserves : frame.

Lemma perform_sync_cycle_preserves :
  preserves R (NeonToSheetsSync.perform_sync_cycle env).
Proof. unfold NeonToSheetsSync.perform_sync_cycle. frame. Qed.

Lemma oauth_from_dict_preserves : preserves R (oauth_from_dict env).
Proof. unfold oauth_from_dict. frame. Qed.

Lemma gc_open_preserves title : preserves R (gc_open env title).
Proof. unfold gc_open. frame. Qed.

Lemma gc_create_preserves title : preserves R (gc_create env title).
Proof. unfold gc_create. frame. Qed.

Local Hint Resolve oauth_from_dict_preserves : frame.

Lemma open_or_create_preserves title :
  preserves R (fun st =>
                 match gc_open env title st with
                 | (Raise SpreadsheetNotFound, st') => gc_create env title st'
                 | r => r
                 end).
Proof.
  intros st. pose proof (gc_open_preserves title st) as H1.
  destruct (gc_open env title st) as [[sp|e] st1]; simpl in *; [done|].
  destruct e; simpl; try done.
  eapply Htrans; [exact H1 | apply gc_create_preserves].
Qed.

Local Hint Resolve open_or_create_preserves : frame.

Lemma sheets_connect_preserves : preserves R (GoogleSheetsConnection.connect env).
Proof. unfold GoogleSheetsConnection.connect. frame. Qed.

Lemma setup_worksheets_preserves name : preserves R (setup_worksheets env name).
Proof. unfold setup_worksheets. frame. Qed.

Local Hint Resolve sheets_connect_preserves setup_worksheets_preserves : frame.

Lemma connect_to_services_preserves :
  preserves R (NeonToSheetsSync.connect_to_services env).
Proof. unfold NeonToSheetsSync.connect_to_services. frame. Qed.

End FrameMethods.

(** ** A failed read leaves the spreadsheet alone *)

Section SheetsUntouched.
Variable env : Env.

Lemma sheets_untouched_refl st : sheets_untouched st st.
Proof. by split. Qed.

Lemma sheets_untouched_trans a b c :
  sheets_untouched a b -> sheets_untouched b c -> sheets_untouched a c.
Proof. intros [H1 H2] [H3 H4]. split; congruence. Qed.

Lemma sheets_untouched_log ev st :
  negb (is_gs_event ev) = true ->
  sheets_untouched st (set_trace (trace st ++ [ev]) st).
Proof.
  intros Hev. split; [done|]. unfold gs_calls. simpl.
  rewrite List.filter_app. simpl.
  destruct (is_gs_event ev); [done|]. by rewrite app_nil_r.
Qed.

Lemma sheets_untouched_elapse d st : sheets_untouched st (elapse env d st).
Proof.
  split; [apply elapse_drive|]. unfold gs_calls.
  rewrite elapse_trace, List.filter_app.
  destruct (due _ _ _); simpl; by rewrite app_nil_r.
Qed.

Lemma get_table_data_sheets_untouched name st :
  sheets_untouched st (snd (DatabaseConnection.get_table_data env name st)).
Proof.
  apply (get_table_data_preserves env sheets_untouched (fun ev => negb (is_gs_event ev))).
  - apply sheets_untouched_refl.
  - apply sheets_untouched_trans.
  - apply sheets_untouched_elapse.
  - apply sheets_untouched_log.
  - by intros c st0.
  - by intros ev ->.
Qed.

End SheetsUntouched.

(** C3.  When the read of a cycle gives [None] or a frame without rows, the
    cycle returns [False], in interval mode ([perform_sync_cycle]) and in
    one-time mode ([download_and_upload_data]) alike, and it has made no
    call to the spreadsheet service: the remote worksheets, data and
    metadata, are what they were. *)
Theorem failed_read_writes_nothing (env : Env) (st : State) :
  (fst (DatabaseConnection.get_table_data env (Config.table_name env) st) = Return None
   \/ exists d,
        fst (DatabaseConnection.get_table_data env (Config.table_name env) st)
        = Return (Some d) /\ len d = 0) ->
  (fst (NeonToSheetsSync.perform_sync_cycle env st) = Return false
   /\ sheets_untouched st (snd (NeonToSheetsSync.perform_sync_cycle env st)))
  /\ (fst (OneTimeSyncToSheets.download_and_upload_data env st) = Return false
      /\ sheets_untouched st (snd (OneTimeSyncToSheets.download_and_upload_data env st))).
Proof.
  intros Hread.
  pose proof (get_table_data_sheets_untouched env (Config.table_name env) st) as Hframe.
  unfold NeonToSheetsSync.perform_sync_cycle,
    OneTimeSyncToSheets.download_and_upload_data, try_except, bind, modify, ret.
  destruct (DatabaseConnection.get_table_data env (Config.table_name env) st)
    as [r st1]; simpl in *.
  destruct Hread as [-> | (d & -> & Hlen)]; simpl; rewrite ?Hlen; simpl;
    by repeat split; apply Hframe.
Qed.

Lemma failed_read_writes_nothing_witness :
  (fst (NeonToSheetsSync.perform_sync_cycle (Scenario.calm []) Scenario.fresh)
   = Return false
   /\ sheets_untouched Scenario.fresh
        (snd (NeonToSheetsSync.perform_sync_cycle (Scenario.calm []) Scenario.fresh)))
  /\ (fst (OneTimeSyncToSheets.download_and_upload_data (Scenario.calm []) Scenario.fresh)
      = Return false
      /\ sheets_untouched Scenario.fresh
           (snd (OneTimeSyncToSheets.download_and_upload_data
                   (Scenario.calm []) Scenario.fresh))).
Proof.
  apply (failed_read_writes_nothing (Scenario.calm []) Scenario.fresh).
  right. exists Pd.empty. split; reflexivity.
Defined.

(** ** Running a computation step by step *)

Section Steps.
Context {A B : Type}.

Lemma bind_eq (m : M A) (k : A -> M B) st :
  bind m k st
  = match m st with
    | (Return a, st') => k a st'
    | (Raise e, st') => (Raise e, st')
    end.
Proof. reflexivity. Qed.

Lemma try_except_eq (m : M A) h st :
  try_except m h st
  = match m st with
    | (Return a, st') => (Return a, st')
    | (Raise e, st') => h e st'
    end.
Proof. reflexivity. Qed.

Lemma try_finally_eq (m : M A) c st :
  try_finally m c st
  = match c (snd (m st)) with
    | (Return _, st'') => (fst (m st), st'')
    | (Raise e, st'') => (Raise e, st'')
    end.
Proof. unfold try_finally. by destruct (m st). Qed.

Lemma ret_eq (a : A) st : ret a st = (Return a, st).
Proof. reflexivity. Qed.

Lemma raise_eq e st : @raise A e st = (Raise e, st).
Proof. reflexivity. Qed.

Lemma gets_eq (f : State -> A) st : gets f st = (Return (f st), st).
Proof. reflexivity. Qed.

Lemma lift_eq (o : outcome A) st : lift o st = (o, st).
Proof. reflexivity. Qed.

End Steps.

Lemma modify_eq f st : modify f st = (Return tt, f st).
Proof. reflexivity. Qed.

Ltac mstep :=
  first
    [ rewrite bind_eq | rewrite try_except_eq | rewrite ret_eq | rewrite raise_eq
    | rewrite gets_eq | rewrite modify_eq | rewrite lift_eq | rewrite external_eq
    | rewrite sleep_eq ];
  cbv beta iota.

Ltac mrun := repeat mstep.

(** ** Reading a table *)

Section GetTableData.
Import DatabaseConnection.
Variable env : Env.

Lemma connect_eq st :
  connect env st
  = if pg_reachable env (clock st)
    then (Return true,
          set_connection (Some (mkPgConnection false)) (called env EPgConnect st))
    else (Return false, called env EPgConnect st).
Proof.
  unfold connect, psycopg2_connect. mrun.
  destruct (pg_reachable env (clock st)); by mrun.
Qed.

Lemma connection_cursor_eq st conn :
  connection st = Some conn ->
  connection_cursor env st
  = (if closed conn then Raise InterfaceError else Return tt, called env EPgCursor st).
Proof.
  intros Hc. unfold connection_cursor, the_connection. mrun. rewrite Hc. mrun.
  destruct (closed conn); by mrun.
Qed.

Lemma cursor_execute_eq query params st conn :
  connection st = Some conn ->
  cursor_execute env query params st
  = let st1 := called env (EPgExecute query params) st in
    if closed conn then (Raise InterfaceError, st1)
    else match pg_answer env (clock st) query params with
         | ExecRows description rows => (Return (Some (description, rows)), st1)
         | ExecDone => (Return None, st1)
         | ExecError => (Raise DatabaseError, st1)
         | ExecLost => (Raise OperationalError,
                        set_connection (Some (mkPgConnection true)) st1)
         end.
Proof.
  intros Hc. unfold cursor_execute, the_connection. mrun. rewrite Hc. mrun.
  destruct (closed conn); [by mrun|].
  destruct (pg_answer env (clock st) query params); by mrun.
Qed.

Lemma get_table_data_try_eq name st :
  connection st = Some (mkPgConnection false) ->
  get_table_data_try env name st = fetch_all env name st.
Proof.
  intros Hc. unfold get_table_data_try, fetch_all. cbv zeta.
  rewrite try_except_eq, bind_eq, (connection_cursor_eq st _ Hc). cbn.
  rewrite bind_eq, (cursor_execute_eq _ _ _ (mkPgConnection false))
    by (by rewrite called_connection).
  cbn.
  destruct (pg_answer env (clock (called env EPgCursor st)) (select_all_query name) [])
    as [description rows| | |]; cbn; try done.
  unfold cursor_fetchall. mrun. by destruct rows.
Qed.

Lemma get_table_data_eq name st :
  get_table_data env name st
  = match ensure_connection env st with
    | Some st1 => fetch_all env name st1
    | None => (Return None, called env EPgConnect st)
    end.
Proof.
  unfold get_table_data, ensure_connection. mrun.
  destruct (connection st) as [[[|]]|] eqn:Hc; mrun; rewrite ?connect_eq.
  - destruct (pg_reachable env (clock st)); cbn; [|done].
    by apply get_table_data_try_eq.
  - cbn. by apply get_table_data_try_eq.
  - destruct (pg_reachable env (clock st)); cbn; [|done].
    by apply get_table_data_try_eq.
Qed.

End GetTableData.

(** C4, as stated, fails: the table "users" has three columns and no row,
    and the frame [get_table_data] returns for it has no column at all. *)
Lemma get_table_data_empty_table_loses_columns :
  pg_answer (Scenario.calm []) 0
    (DatabaseConnection.select_all_query (VStr "users")) []
  = ExecRows ["id"; "name"; "created_at"] []
  /\ ~ exists d,
        fst (DatabaseConnection.get_table_data (Scenario.calm []) (VStr "users")
               Scenario.fresh) = Return (Some d)
        /\ columns d = ["id"; "name"; "created_at"].
Proof.
  split; [reflexivity|]. intros (d & Hd & Hcols).
  vm_compute in Hd. injection Hd as <-. discriminate Hcols.
Qed.

(** C4, amended.  With a reachable server, a table for which the full read
    gives no row makes [get_table_data] return [pd.DataFrame()], a frame
    with no rows and no columns, whatever columns the table has; a read
    that the server rejects or that loses the connection makes it return
    [None]; the two results differ. *)
Theorem get_table_data_empty_or_failed (env : Env) (st : State) (name : value) :
  (forall t, pg_reachable env t = true) ->
  ((exists cols, forall t,
      pg_answer env t (DatabaseConnection.select_all_query name) [] = ExecRows cols []) ->
   fst (DatabaseConnection.get_table_data env name st) = Return (Some Pd.empty))
  /\ ((forall t,
         pg_answer env t (DatabaseConnection.select_all_query name) [] = ExecError
         \/ pg_answer env t (DatabaseConnection.select_all_query name) [] = ExecLost) ->
      fst (DatabaseConnection.get_table_data env name st) = Return None)
  /\ columns Pd.empty = [] /\ len Pd.empty = 0
  /\ Some Pd.empty <> None.
Proof.
  intros Hup. rewrite get_table_data_eq.
  assert (exists st1, ensure_connection env st = Some st1) as [st1 ->].
  { unfold ensure_connection. rewrite Hup.
    destruct (connection st) as [[[|]]|]; eauto. }
  unfold fetch_all. cbv zeta. repeat split.
  - intros [cols Hrows]. by rewrite Hrows.
  - intros Hfail.
    by destruct (Hfail (clock (called env EPgCursor st1))) as [-> | ->].
  - discriminate.
Qed.

Lemma get_table_data_empty_or_failed_witness :
  ((exists cols, forall t,
      pg_answer (Scenario.calm []) t
        (DatabaseConnection.select_all_query (VStr "users")) [] = ExecRows cols []) ->
   fst (DatabaseConnection.get_table_data (Scenario.calm []) (VStr "users") Scenario.fresh)
   = Return (Some Pd.empty))
  /\ ((forall t,
         pg_answer (Scenario.calm []) t
           (DatabaseConnection.select_all_query (VStr "users")) [] = ExecError
         \/ pg_answer (Scenario.calm []) t
              (DatabaseConnection.select_all_query (VStr "users")) [] = ExecLost) ->
      fst (DatabaseConnection.get_table_data (Scenario.calm []) (VStr "users")
             Scenario.fresh) = Return None)
  /\ columns Pd.empty = [] /\ len Pd.empty = 0
  /\ Some Pd.empty <> None.
Proof.
  apply (get_table_data_empty_or_failed (Scenario.calm []) Scenario.fresh (VStr "users")).
  reflexivity.
Defined.

(** ** Queries on a connection that [disconnect] has closed *)

Section ClosedConnection.
Import DatabaseConnection.
Variable env : Env.

Lemma connection_rollback_eq st conn :
  connection st = Some conn ->
  connection_rollback env st
  = (if closed conn then Raise InterfaceError else Return tt, called env EPgRollback st).
Proof.
  intros Hc. unfold connection_rollback, the_connection. mrun. rewrite Hc. mrun.
  destruct (closed conn); by mrun.
Qed.

Lemma connection_commit_eq st conn :
  connection st = Some conn ->
  connection_commit env st
  = (if closed conn then Raise InterfaceError else Return tt, called env EPgCommit st).
Proof.
  intros Hc. unfold connection_commit, the_connection. mrun. rewrite Hc. mrun.
  destruct (closed conn); by mrun.
Qed.

Lemma disconnect_eq st conn :
  connection st = Some conn ->
  disconnect env st
  = (Return tt, set_connection (Some (mkPgConnection true)) (called env EPgClose st)).
Proof.
  intros Hc. unfold disconnect, connection_close, the_connection.
  mrun. rewrite Hc. mrun. rewrite Hc. by mrun.
Qed.

(** [query_database] tests [not self.connection] only.  A connection
    object that is closed passes the test; [cursor()] raises on it, and so
    does the [rollback()] of the handler. *)
Lemma query_database_on_closed_connection query params st :
  connection st = Some (mkPgConnection true) ->
  query_database env query params st
  = (Raise InterfaceError, called env EPgRollback (called env EPgCursor st)).
Proof.
  intros Hc. unfold query_database. mrun. rewrite Hc. mrun.
  unfold query_database_try. rewrite try_finally_eq, try_except_eq, bind_eq.
  rewrite (connection_cursor_eq env st _ Hc). cbn.
  rewrite bind_eq, (connection_rollback_eq _ (mkPgConnection true))
    by (by rewrite called_connection).
  reflexivity.
Qed.

Lemma table_exists_on_closed_connection name st :
  connection st = Some (mkPgConnection true) ->
  fst (table_exists env name st) = Raise InterfaceError.
Proof.
  intros Hc. unfold table_exists. rewrite bind_eq.
  by rewrite query_database_on_closed_connection.
Qed.

End ClosedConnection.

(** ** Queries on an open connection *)

Section OpenConnection.
Import DatabaseConnection.
Variable env : Env.

(** On an open connection [query_database] returns the rows of a SELECT or
    RETURNING statement, [True] for another statement, and [None], after a
    rollback and without a commit, for a statement the server rejects.
    When the connection is lost during [execute] the rollback of the
    handler raises in its turn. *)
Lemma query_database_on_open_connection query params st :
  connection st = Some (mkPgConnection false) ->
  let st1 := called env EPgCursor st in
  let st2 := called env (EPgExecute query params) st1 in
  query_database env query params st
  = match pg_answer env (clock st1) query params with
    | ExecRows d rows =>
        if is_select_or_returning query
        then (Return (QRows (dicts d rows)),
              called env EPgCommit (called env EPgFetchall st2))
        else (Return QTrue, called env EPgCommit st2)
    | ExecDone =>
        if is_select_or_returning query
        then (Return QNone, called env EPgRollback (called env EPgFetchall st2))
        else (Return QTrue, called env EPgCommit st2)
    | ExecError => (Return QNone, called env EPgRollback st2)
    | ExecLost =>
        (Raise InterfaceError,
         called env EPgRollback (set_connection (Some (mkPgConnection true)) st2))
    end.
Proof.
  intros Hc st1 st2. unfold query_database. mrun. rewrite Hc. mrun.
  unfold query_database_try. rewrite try_finally_eq, try_except_eq, bind_eq.
  rewrite (connection_cursor_eq env st _ Hc). cbn.
  rewrite bind_eq, (cursor_execute_eq env _ _ _ (mkPgConnection false))
    by (by rewrite called_connection).
  cbn. fold st1 st2.
  assert (connection st2 = Some (mkPgConnection false)) as Hc2
    by (subst st1 st2; by rewrite !called_connection).
  destruct (pg_answer env (clock st1) query params) as [d rows| | |]; cbn.
  - destruct (is_select_or_returning query).
    + unfold cursor_fetchall. mrun.
      rewrite (connection_commit_eq env _ (mkPgConnection false))
        by (by rewrite called_connection).
      by mrun.
    + mrun. rewrite (connection_commit_eq env _ (mkPgConnection false)) by done.
      by mrun.
  - destruct (is_select_or_returning query).
    + unfold cursor_fetchall. mrun.
      rewrite (connection_rollback_eq env _ (mkPgConnection false))
        by (by rewrite called_connection).
      by mrun.
    + mrun. rewrite (connection_commit_eq env _ (mkPgConnection false)) by done.
      by mrun.
  - mrun. rewrite (connection_rollback_eq env _ (mkPgConnection false)) by done.
    by mrun.
  - mrun. by rewrite (connection_rollback_eq env _ (mkPgConnection true)).
Qed.

End OpenConnection.

(** C10 at the failing input: a second query on the same
    [DatabaseConnection] object.  The first call connects, answers and
    disconnects, which leaves [self.connection] set to a closed connection;
    the second call raises [InterfaceError] instead of returning [None]. *)
Lemma query_database_second_call_raises :
  let env := Scenario.calm Scenario.users_rows in
  let q := DatabaseConnection.exists_query in
  let first := DatabaseConnection.query_database env q [VStr "users"] Scenario.fresh in
  fst first = Return (DatabaseConnection.QRows [[("exists", VBool true)]])
  /\ connection (snd first) = Some (mkPgConnection true)
  /\ fst (DatabaseConnection.query_database env q [VStr "users"] (snd first))
     = Raise InterfaceError.
Proof. vm_compute. repeat split. Qed.

(** C9 at the failing input: a second [table_exists] on the same
    [DatabaseConnection] object raises [InterfaceError] instead of
    returning a boolean. *)
Lemma table_exists_second_call_raises :
  let env := Scenario.calm Scenario.users_rows in
  let first := DatabaseConnection.table_exists env (VStr "users") Scenario.fresh in
  fst first = Return (VBool true)
  /\ connection (snd first) = Some (mkPgConnection true)
  /\ fst (DatabaseConnection.table_exists env (VStr "users") (snd first))
     = Raise InterfaceError.
Proof. vm_compute. repeat split. Qed.

(** ** More projections of a state after a call *)

Section Projections.
Variable env : Env.

Lemma called_df ev st : df (called env ev st) = df st.
Proof. unfold called. by rewrite elapse_df. Qed.
Lemma called_gc ev st : gc (called env ev st) = gc st.
Proof. unfold called. by rewrite elapse_gc. Qed.
Lemma called_sync_count ev st : sync_count (called env ev st) = sync_count st.
Proof. unfold called. by rewrite elapse_sync_count. Qed.
Lemma called_clock ev st :
  clock (called env ev st) = clock st + latency env (clock st).
Proof. unfold called. by rewrite elapse_clock. Qed.

End Projections.

Ltac proj :=
  repeat progress
    (simpl;
     rewrite ?called_spreadsheet, ?called_drive, ?called_connection, ?called_df,
       ?called_gc, ?called_sync_count).

(** ** What a successful write leaves in the worksheet *)

Ltac mfail := cbv beta iota; mrun; by intros [=].

Section Writes.
Import GoogleSheetsConnection.
Variable env : Env.

Lemma overlay_nil data : overlay data [] = data.
Proof. by destruct data. Qed.

Lemma write_cells_eq ev w f st :
  write_cells env ev w f st
  = let st1 := called env ev st in
    if gs_fault env (clock st) ev then (Raise APIError, st1)
    else match drive st !! h_spreadsheet w with
         | None => (Raise APIError, st1)
         | Some sheets =>
             match sheets !! h_title w with
             | None => (Raise APIError, st1)
             | Some ws =>
                 (Return tt,
                  set_drive
                    (<[h_spreadsheet w :=
                         <[h_title w := mkWorksheet (ws_rows ws) (ws_cols ws) (f (cells ws))]>
                           sheets]> (drive st)) st1)
             end
         end.
Proof.
  unfold write_cells. mrun. cbv zeta.
  destruct (gs_fault env (clock st) ev); [by mrun|]. mrun.
  rewrite called_drive.
  destruct (drive st !! h_spreadsheet w) as [sheets|]; [|by mrun].
  destruct (sheets !! h_title w) as [ws|]; by mrun.
Qed.

(** After [update_worksheet_data] has returned [True] the worksheet holds
    exactly the rows it was given. *)
Lemma update_worksheet_data_true w data st st' :
  update_worksheet_data env w data st = (Return true, st') ->
  spreadsheet st' = spreadsheet st
  /\ exists sheets ws,
       drive st' !! h_spreadsheet w = Some sheets
       /\ sheets !! h_title w = Some ws
       /\ cells ws = data.
Proof.
  unfold update_worksheet_data, worksheet_clear, worksheet_update.
  rewrite try_except_eq, bind_eq, write_cells_eq. cbv zeta.
  destruct (gs_fault env (clock st) (EGsClear (h_title w))); [mfail|].
  destruct (drive st !! h_spreadsheet w) as [sheets|]; [|mfail].
  destruct (sheets !! h_title w) as [ws|]; [|mfail].
  cbv beta iota. rewrite bind_eq, write_cells_eq. cbv zeta. cbn [drive set_drive].
  match goal with
  | |- context [gs_fault env ?t ?e] => destruct (gs_fault env t e); [mfail|]
  end.
  rewrite lookup_insert_eq, lookup_insert_eq. mrun.
  intros [= <-]. proj. split; [done|].
  eexists _, _. rewrite lookup_insert_eq. split; [done|].
  rewrite lookup_insert_eq. split; [done|]. cbn. apply overlay_nil.
Qed.

Lemma same_objects_refl st : same_objects st st.
Proof. by split. Qed.

Lemma same_objects_trans a b c :
  same_objects a b -> same_objects b c -> same_objects a c.
Proof. intros [H1 H2] [H3 H4]. split; congruence. Qed.

Lemma same_objects_elapse d st : same_objects st (elapse env d st).
Proof. split; [apply elapse_spreadsheet | apply elapse_df]. Qed.

Lemma get_or_create_worksheet_same_objects name rows cols st :
  same_objects st (snd (get_or_create_worksheet env name rows cols st)).
Proof.
  apply (get_or_create_worksheet_preserves env same_objects (fun _ => true));
    [ apply same_objects_refl | apply same_objects_trans
    | apply same_objects_elapse | by intros; split | done | by intros; split ].
Qed.

Lemma update_data_worksheet_same_objects d name st :
  same_objects st (snd (update_data_worksheet env d name st)).
Proof.
  apply (update_data_worksheet_preserves env same_objects (fun _ => true));
    [ apply same_objects_refl | apply same_objects_trans
    | apply same_objects_elapse | by intros; split | done | by intros; split ].
Qed.

Lemma update_metadata_worksheet_same_objects md st :
  same_objects st (snd (update_metadata_worksheet env md st)).
Proof.
  apply (update_metadata_worksheet_preserves env same_objects (fun _ => true));
    [ apply same_objects_refl | apply same_objects_trans
    | apply same_objects_elapse | by intros; split | done | by intros; split ].
Qed.

(** The worksheet object [get_or_create_worksheet] returns belongs to the
    open spreadsheet and has the title asked for. *)
Lemma get_or_create_worksheet_some name rows cols st w st' :
  get_or_create_worksheet env name rows cols st = (Return (Some w), st') ->
  spreadsheet st = Some (h_spreadsheet w) /\ h_title w = name.
Proof.
  unfold get_or_create_worksheet, spreadsheet_worksheet, the_spreadsheet. mrun.
  destruct (spreadsheet st) as [sp|] eqn:Hsp; [|mfail]. mrun.
  destruct (gs_fault env (clock st) (EGsWorksheet name)); [mfail|]. mrun.
  rewrite called_drive.
  destruct (drive st !! sp) as [sheets|]; [|mfail].
  destruct (sheets !! name); mrun.
  { by intros [= <- _]. }
  unfold spreadsheet_add_worksheet, the_spreadsheet. mrun.
  rewrite called_spreadsheet, Hsp. mrun.
  match goal with
  | |- context [gs_fault env ?t ?e] => destruct (gs_fault env t e); [mfail|]
  end.
  mrun. rewrite !called_drive.
  destruct (drive st !! sp) as [sheets'|]; [|mfail].
  destruct (sheets' !! name); [mfail|]. mrun.
  by intros [= <- _].
Qed.

(** After [update_metadata_worksheet] has returned [True] the worksheet
    "Sync_Metadata" holds the rendered dict. *)
Lemma update_metadata_worksheet_true md st st' :
  update_metadata_worksheet env md st = (Return true, st') ->
  worksheet_cells "Sync_Metadata" st' = Some (sync_info md).
Proof.
  unfold update_metadata_worksheet. rewrite try_except_eq, bind_eq.
  pose proof (get_or_create_worksheet_same_objects "Sync_Metadata" 10 3 st) as [Hs _].
  destruct (get_or_create_worksheet env "Sync_Metadata" 10 3 st)
    as [[[w|]|e] st1] eqn:Hg; cbv beta iota; [|mfail|mfail].
  apply get_or_create_worksheet_some in Hg as [Hsp Htitle]. simpl in Hs.
  destruct (update_worksheet_data env w (sync_info md) st1) as [[[|]|e] st2] eqn:Hu;
    [|mfail|mfail].
  intros [= <-].
  apply update_worksheet_data_true in Hu as (Hs2 & sheets & ws & H1 & H2 & H3).
  unfold worksheet_cells. rewrite Hs2, Hs, Hsp, H1. rewrite Htitle in H2.
  by rewrite H2, H3.
Qed.

End Writes.

(** ** The metadata record of a successful cycle *)

(** A cycle that returns [True] has read a frame, kept it in [self.df],
    and has ended on a successful write of its metadata dict. *)
Lemma cycle_true mode env st st' :
  cycle mode env st = (Return true, st') ->
  exists t d,
    df st' = Some d
    /\ worksheet_cells "Sync_Metadata" st' = Some
         (GoogleSheetsConnection.sync_info (cycle_metadata mode env t d)).
Proof.
  destruct mode; unfold cycle, cycle_metadata, NeonToSheetsSync.perform_sync_cycle,
    OneTimeSyncToSheets.download_and_upload_data; cbv zeta;
    rewrite ?try_except_eq, bind_eq.
  - destruct (DatabaseConnection.get_table_data env (Config.table_name env) st)
      as [[[d|]|e] st1]; try mfail. mrun.
    destruct (len d =? 0); [mfail|]. rewrite bind_eq.
    pose proof (update_data_worksheet_same_objects env d
                  (str (Config.table_name env) +:+ "_data") (set_df (Some d) st1))
      as [_ Hdf].
    destruct (GoogleSheetsConnection.update_data_worksheet env d
                (str (Config.table_name env) +:+ "_data") (set_df (Some d) st1))
      as [[[|]|e] st2]; try mfail.
    cbn [negb]. cbv beta iota. unfold datetime_now. mrun.
    pose proof (update_metadata_worksheet_same_objects env
                  (NeonToSheetsSync.metadata env (now env (clock st2)) d) st2)
      as [_ Hdf2].
    destruct (GoogleSheetsConnection.update_metadata_worksheet env
                (NeonToSheetsSync.metadata env (now env (clock st2)) d) st2)
      as [[[|]|e] st3] eqn:Hmd; try mfail.
    cbn [negb]. mrun. intros [= Heq]. subst st'. exists (now env (clock st2)), d.
    split; [simpl in *; congruence|].
    by apply update_metadata_worksheet_true in Hmd.
  - destruct (DatabaseConnection.get_table_data env (Config.table_name env) st)
      as [[[d|]|e] st1]; try mfail. mrun.
    destruct (len d =? 0); [mfail|]. rewrite bind_eq.
    pose proof (update_data_worksheet_same_objects env d
                  (str (Config.table_name env) +:+ "_data") (set_df (Some d) st1))
      as [_ Hdf].
    destruct (GoogleSheetsConnection.update_data_worksheet env d
                (str (Config.table_name env) +:+ "_data") (set_df (Some d) st1))
      as [[[|]|e] st2]; try mfail.
    cbn [negb]. cbv beta iota. unfold datetime_now. mrun.
    pose proof (update_metadata_worksheet_same_objects env
                  (OneTimeSyncToSheets.metadata env (now env (clock st2)) d
                     (str (Config.table_name env) +:+ "_data")) st2)
      as [_ Hdf2].
    destruct (GoogleSheetsConnection.update_metadata_worksheet env
                (OneTimeSyncToSheets.metadata env (now env (clock st2)) d
                   (str (Config.table_name env) +:+ "_data")) st2)
      as [[[|]|e] st3] eqn:Hmd; try mfail.
    cbn [negb]. mrun. intros [= Heq]. subst st'. exists (now env (clock st2)), d.
    split; [simpl in *; congruence|].
    by apply update_metadata_worksheet_true in Hmd.
Qed.

(** C5, as stated, fails in one-time mode: the cycle succeeds and the
    metadata record it writes has a "Sync Type" but no "Status". *)
Lemma one_time_metadata_has_no_status :
  let r := OneTimeSyncToSheets.download_and_upload_data
             (Scenario.calm Scenario.users_rows) Scenario.connected in
  fst r = Return true
  /\ exists g,
       worksheet_cells "Sync_Metadata" (snd r) = Some g
       /\ attributes g
          = ["Last Sync Time"; "Source Table"; "Total Rows"; "Total Columns";
             "Data Worksheet"; "Sync Type"]
       /\ ~ In "Status" (attributes g).
Proof.
  split; [by vm_compute|].
  eexists. split; [by vm_compute|]. split; [reflexivity|].
  cbv [attributes List.map List.tl List.hd In]. intros H.
  repeat (destruct H as [H|H]; [discriminate H|]). exact H.
Qed.

(** C5, amended.  In either mode a cycle that returns [True] leaves in the
    worksheet "Sync_Metadata" the record of the frame it has read: last
    sync time, source table, row count, column count and data worksheet
    name in both modes; then "Sync Interval" and "Status" = "Running" (and
    no "Sync Type") in interval mode, "Sync Type" = "One-time" (and no
    "Status") in one-time mode. *)
Theorem successful_cycle_metadata (mode : sync_mode) (env : Env) (st st' : State) :
  cycle mode env st = (Return true, st') ->
  exists t d g,
    df st' = Some d
    /\ worksheet_cells "Sync_Metadata" st' = Some g
    /\ attributes g
       = common_attributes
         ++ match mode with
            | Interval => ["Sync Interval"; "Status"]
            | OneTime => ["Sync Type"]
            end
    /\ attribute_value "Last Sync Time" g = Some (strftime "%Y-%m-%d %H:%M:%S" t)
    /\ attribute_value "Source Table" g = Some (str (Config.table_name env))
    /\ attribute_value "Total Rows" g = Some (str_int (Z.of_nat (len d)))
    /\ attribute_value "Total Columns" g = Some (str_int (Z.of_nat (length (columns d))))
    /\ attribute_value "Data Worksheet" g
       = Some (str (Config.table_name env) +:+ "_data")
    /\ match mode with
       | Interval =>
           attribute_value "Sync Interval" g = Some (Config.interval_text env)
           /\ attribute_value "Status" g = Some "Running"
           /\ attribute_value "Sync Type" g = None
       | OneTime =>
           attribute_value "Sync Type" g = Some "One-time"
           /\ attribute_value "Status" g = None
       end.
Proof.
  intros Hcycle. apply cycle_true in Hcycle as (t & d & Hdf & Hcells).
  exists t, d. eexists. split; [exact Hdf|]. split; [exact Hcells|].
  destruct mode; repeat split; reflexivity.
Qed.

Lemma successful_cycle_metadata_witness :
  exists t d g,
    df (snd (cycle Interval (Scenario.calm Scenario.users_rows) Scenario.connected))
    = Some d
    /\ worksheet_cells "Sync_Metadata"
         (snd (cycle Interval (Scenario.calm Scenario.users_rows) Scenario.connected))
       = Some g
    /\ attributes g = common_attributes ++ ["Sync Interval"; "Status"]
    /\ attribute_value "Last Sync Time" g = Some (strftime "%Y-%m-%d %H:%M:%S" t)
    /\ attribute_value "Source Table" g
       = Some (str (Config.table_name (Scenario.calm Scenario.users_rows)))
    /\ attribute_value "Total Rows" g = Some (str_int (Z.of_nat (len d)))
    /\ attribute_value "Total Columns" g = Some (str_int (Z.of_nat (length (columns d))))
    /\ attribute_value "Data Worksheet" g
       = Some (str (Config.table_name (Scenario.calm Scenario.users_rows)) +:+ "_data")
    /\ (attribute_value "Sync Interval" g
        = Some (Config.interval_text (Scenario.calm Scenario.users_rows))
        /\ attribute_value "Status" g = Some "Running"
        /\ attribute_value "Sync Type" g = None).
Proof.
  apply (successful_cycle_metadata Interval (Scenario.calm Scenario.users_rows)
           Scenario.connected).
  vm_compute. reflexivity.
Defined.

(** ** The scheduler loop *)

Section Loop.
Import NeonToSheetsSync.
Variable env : Env.

(** A cycle always returns: every exception ends in its handler. *)
Lemma perform_sync_cycle_returns st :
  fst (perform_sync_cycle env st) = Return (succeeded (perform_sync_cycle env st)).
Proof.
  unfold succeeded, perform_sync_cycle. rewrite try_except_eq.
  match goal with |- context [match ?m with _ => _ end] => destruct m as [[ok|e] st1] end;
    reflexivity.
Qed.

Lemma perform_sync_cycle_eq st :
  perform_sync_cycle env st
  = (Return (succeeded (perform_sync_cycle env st)), snd (perform_sync_cycle env st)).
Proof.
  rewrite <- perform_sync_cycle_returns. by destruct (perform_sync_cycle env st).
Qed.

Lemma wait_interval_eq n st : wait_interval env n st = (Return tt, waited env n st).
Proof.
  revert st. induction n as [|n IH]; intros st; simpl; [done|].
  mrun. destruct (is_running st); simpl; [|done].
  mrun. apply IH.
Qed.

(** One round of the [while] loop. *)
Lemma loop_body_eq st :
  loop_body env st
  = let st_w := waited env (interval_seconds env) st in
    if is_running st_w then
      let r := perform_sync_cycle env (round_start st_w) in
      (Return false,
       logged (round_report (succeeded r) (sync_count st_w + 1)) (snd r))
    else (Return true, st_w).
Proof.
  unfold loop_body. rewrite try_except_eq, bind_eq, wait_interval_eq.
  fold (interval_seconds env). cbv beta iota zeta. mrun.
  destruct (is_running (waited env (interval_seconds env) st)); simpl; [|done].
  mrun. unfold print, log. mrun. simpl.
  fold (round_start (waited env (interval_seconds env) st)).
  rewrite perform_sync_cycle_eq. cbv beta iota.
  by destruct (succeeded _); mrun.
Qed.

Lemma sync_loop_eq fuel st :
  sync_loop env fuel st
  = if is_running st then
      match fuel with
      | O => (Return false, st)
      | S fuel' =>
          match loop_body env st with
          | (Return true, st') => (Return true, st')
          | (Return false, st') => sync_loop env fuel' st'
          | (Raise e, st') => (Raise e, st')
          end
      end
    else (Return true, st).
Proof.
  destruct fuel; simpl; mrun; destruct (is_running st); simpl; try done.
  mrun. by destruct (loop_body env st) as [[[|]|e] st'].
Qed.

(** *** The wait between two cycles *)

Local Arguments Nat.mul : simpl never.
Local Arguments Nat.add : simpl never.

Lemma waited_stopped n st : is_running st = false -> waited env n st = st.
Proof. intros H. destruct n; simpl; [done|]. by rewrite H. Qed.

Lemma slept_eq st :
  slept env st
  = if due env (clock st) 1000
    then set_is_running false
           (set_trace (trace st ++ [ESleep 1; EPrint MsgSignal])
              (set_clock (clock st + 1000) st))
    else set_trace (trace st ++ [ESleep 1]) (set_clock (clock st + 1000) st).
Proof.
  unfold slept, elapse, logged. simpl. destruct (due env (clock st) 1000); simpl.
  - by rewrite <- app_assoc.
  - done.
Qed.

(** A wait that ends with the flag still up has slept all its seconds and
    done nothing else. *)
Lemma waited_running n st :
  is_running (waited env n st) = true ->
  waited env n st
  = set_trace (trace st ++ replicate n (ESleep 1)) (set_clock (clock st + n * 1000) st).
Proof.
  revert st. induction n as [|n IH]; intros st Hrun; simpl in *.
  - destruct st; simpl. by rewrite app_nil_r, Nat.add_0_r.
  - destruct (is_running st) eqn:Hst; [|congruence].
    rewrite (IH _ Hrun). rewrite (IH _ Hrun) in Hrun. simpl in Hrun.
    rewrite slept_eq in *.
    destruct (due env (clock st) 1000); simpl in *; [congruence|].
    rewrite <- app_assoc. unfold set_trace, set_clock. simpl. f_equal. lia.
Qed.

(** A signal that arrives during the wait ends it at the next flag test:
    after the sleep in which it arrives, less than a second later. *)
Lemma waited_signal n st s :
  signal_at env = Some s ->
  is_running st = true ->
  clock st < s <= clock st + n * 1000 ->
  exists k,
    k < n
    /\ waited env n st
       = set_is_running false
           (set_trace (trace st ++ replicate (S k) (ESleep 1) ++ [EPrint MsgSignal])
              (set_clock (clock st + S k * 1000) st))
    /\ s <= clock st + S k * 1000 < s + 1000.
Proof.
  intros Hs. revert st. induction n as [|n IH]; intros st Hrun Hwin; [lia|].
  simpl. rewrite Hrun, slept_eq.
  destruct (due env (clock st) 1000) eqn:Hdue.
  - exists 0. split; [lia|]. rewrite waited_stopped by done.
    unfold due in Hdue. rewrite Hs in Hdue.
    apply andb_true_iff in Hdue as [H1%Nat.ltb_lt H2%Nat.leb_le].
    split; [reflexivity|lia].
  - unfold due in Hdue. rewrite Hs in Hdue.
    apply andb_false_iff in Hdue as [H1%Nat.ltb_ge | H2%Nat.leb_gt]; [lia|].
    destruct (IH (set_trace (trace st ++ [ESleep 1]) (set_clock (clock st + 1000) st)))
      as (k & Hk & Hw & Ht); [done | simpl; lia |].
    exists (S k). split; [lia|]. rewrite Hw. simpl in *.
    split; [|lia]. rewrite <- app_assoc. unfold set_is_running, set_trace, set_clock.
    simpl. f_equal. lia.
Qed.

Lemma waited_no_signal n st s :
  signal_at env = Some s ->
  is_running st = true ->
  clock st + n * 1000 < s ->
  is_running (waited env n st) = true.
Proof.
  intros Hs. revert st. induction n as [|n IH]; intros st Hrun Hlate; [done|].
  simpl. rewrite Hrun. apply IH.
  - rewrite slept_eq. unfold due. rewrite Hs.
    destruct (s <=? clock st + 1000) eqn:Hle.
    + apply Nat.leb_le in Hle. lia.
    + by rewrite andb_false_r.
  - unfold slept. rewrite elapse_clock. simpl. lia.
Qed.

(** *** The flag and the signal *)

Lemma flag_tracks_signal_elapse s d st :
  signal_at env = Some s ->
  flag_tracks_signal s st -> flag_tracks_signal s (elapse env d st).
Proof.
  intros Hs [H1 H2]. unfold flag_tracks_signal.
  rewrite elapse_is_running, elapse_clock. unfold due. rewrite Hs.
  destruct (is_running st) eqn:Hrun; simpl.
  - specialize (H1 eq_refl).
    destruct (clock st <? s) eqn:Hlt; [|apply Nat.ltb_ge in Hlt; lia].
    simpl. destruct (s <=? clock st + d) eqn:Hle; simpl.
    + apply Nat.leb_le in Hle. split; [done|lia].
    + apply Nat.leb_gt in Hle. split; [lia|done].
  - split; [done|]. intros Hlt. apply H2. lia.
Qed.

Lemma perform_sync_cycle_flag_tracks_signal s st :
  signal_at env = Some s ->
  flag_tracks_signal s st ->
  flag_tracks_signal s (snd (perform_sync_cycle env st)).
Proof.
  intros Hs.
  apply (perform_sync_cycle_preserves env
           (fun st st' => flag_tracks_signal s st -> flag_tracks_signal s st')
           (fun _ => true)); try done.
  - auto.
  - intros d st0. by apply flag_tracks_signal_elapse.
Qed.

Lemma waited_flag_tracks_signal s n st :
  signal_at env = Some s ->
  flag_tracks_signal s st -> flag_tracks_signal s (waited env n st).
Proof.
  intros Hs. revert st. induction n as [|n IH]; intros st Hst; simpl; [done|].
  destruct (is_running st); [|done].
  apply IH. unfold slept. apply flag_tracks_signal_elapse; [done|].
  by unfold flag_tracks_signal in *.
Qed.

Lemma perform_sync_cycle_clock st :
  clock st <= clock (snd (perform_sync_cycle env st)).
Proof.
  apply (perform_sync_cycle_preserves env
           (fun st st' => clock st <= clock st') (fun _ => true)); try done.
  - intros a b c. lia.
  - intros d st0. rewrite elapse_clock. lia.
Qed.

(** Once a signal is due, the loop ends: a round takes at least a second,
    so one round per second left until the signal is enough. *)
Lemma sync_loop_ends s fuel st :
  signal_at env = Some s ->
  flag_tracks_signal s st ->
  0 < interval_seconds env ->
  s <= clock st + fuel * 1000 ->
  fst (sync_loop env fuel st) = Return true.
Proof.
  intros Hs Hst Hpos. revert st Hst.
  induction fuel as [|fuel IH]; intros st Hst Hfuel;
    rewrite sync_loop_eq; destruct (is_running st) eqn:Hrun; try done.
  - destruct Hst as [H1 _]. rewrite Hrun in H1. specialize (H1 eq_refl). lia.
  - rewrite loop_body_eq. cbv zeta.
    pose proof (waited_flag_tracks_signal s (interval_seconds env) st Hs Hst) as Hw.
    destruct (is_running (waited env (interval_seconds env) st)) eqn:Hrun_w; [|done].
    pose proof (waited_running _ _ Hrun_w) as Heq.
    set (st_w := waited env (interval_seconds env) st) in *.
    pose proof (perform_sync_cycle_clock (round_start st_w)) as Hclock.
    apply IH.
    + assert (flag_tracks_signal s (round_start st_w)) as Hstart
        by (by unfold flag_tracks_signal in *).
      apply (perform_sync_cycle_flag_tracks_signal s _ Hs) in Hstart.
      by unfold flag_tracks_signal in *.
    + change (clock (logged ?e ?x)) with (clock x).
      change (clock (round_start st_w)) with (clock st_w) in Hclock.
      assert (clock st_w = clock st + interval_seconds env * 1000) as Hcw
        by by rewrite Heq.
      nia.
Qed.

(** *** A process no signal reaches *)

Lemma elapse_no_signal d st :
  signal_at env = None -> is_running (elapse env d st) = is_running st.
Proof.
  intros Hs. rewrite elapse_is_running. unfold due. rewrite Hs. simpl.
  by rewrite andb_true_r.
Qed.

Lemma perform_sync_cycle_keeps_running st :
  signal_at env = None ->
  is_running st = true ->
  is_running (snd (perform_sync_cycle env st)) = true.
Proof.
  intros Hs.
  apply (perform_sync_cycle_preserves env
           (fun st st' => is_running st = true -> is_running st' = true)
           (fun _ => true)); try done.
  - auto.
  - intros d st0. by rewrite elapse_no_signal.
Qed.

Lemma waited_keeps_running n st :
  signal_at env = None ->
  is_running st = true ->
  is_running (waited env n st) = true.
Proof.
  intros Hs. revert st. induction n as [|n IH]; intros st Hrun; simpl; [done|].
  rewrite Hrun. apply IH. unfold slept. by rewrite elapse_no_signal.
Qed.

(** Whatever its cycles return, the loop is still running after any number
    of rounds. *)
Lemma sync_loop_without_signal fuel st :
  signal_at env = None ->
  is_running st = true ->
  fst (sync_loop env fuel st) = Return false.
Proof.
  intros Hs. revert st. induction fuel as [|fuel IH]; intros st Hrun;
    rewrite sync_loop_eq, Hrun; [done|].
  rewrite loop_body_eq. cbv zeta. rewrite waited_keeps_running by done.
  apply IH. simpl. apply perform_sync_cycle_keeps_running; [done|].
  simpl. by apply waited_keeps_running.
Qed.

(** *** The steps before the loop *)

Lemma start_continuous_sync_initial_cycle fuel st st1 :
  Config.validate_environment env = true ->
  connect_to_services env st = (Return true, st1) ->
  let r := perform_sync_cycle env (logged (EPrint MsgInitialSync) st1) in
  start_continuous_sync env fuel st
  = if succeeded r then
      match sync_loop env fuel
              (set_sync_count 1 (logged (EPrint MsgInitialSyncCompleted) (snd r))) with
      | (Return true, st3) =>
          (match fst (shutdown env st3) with
           | Return b => Return (Some b)
           | Raise e => Raise e
           end, snd (shutdown env st3))
      | (Return false, st3) => (Return None, st3)
      | (Raise e, st3) => (Raise e, st3)
      end
    else (Return (Some false), logged (EPrint MsgInitialSyncFailed) (snd r)).
Proof.
  intros Hv Hc r. unfold start_continuous_sync. rewrite Hv. cbn [negb].
  rewrite bind_eq, Hc. cbv beta iota. cbn [negb].
  unfold print, log. mrun. fold (logged (EPrint MsgInitialSync) st1).
  rewrite perform_sync_cycle_eq. fold r. cbv beta iota.
  destruct (succeeded r); cbn [negb]; mrun; [|done].
  fold (logged (EPrint MsgInitialSyncCompleted) (snd r)).
  destruct (sync_loop env fuel _) as [[[|]|e] st3]; cbv beta iota; cbn [negb]; mrun;
    try done.
  by destruct (shutdown env st3) as [[b|e] st4].
Qed.

End Loop.

(** C7.  In the loop of interval mode, with the flag up and a stop signal
    due at [s]:
    - when the signal arrives during the wait, the loop has done nothing
      since the wait began but sleep whole seconds, it leaves the wait at
      the first flag test after the arrival, less than one second after
      it, and it ends there, without starting a cycle;
    - when the signal arrives later, during the cycle that follows the
      wait, the cycle returns, its report is printed, and only then does
      the loop end. *)
Theorem stop_observed_within_a_second (env : Env) (fuel : nat) (st : State) (s : nat) :
  signal_at env = Some s ->
  is_running st = true ->
  clock st < s ->
  (s <= clock st + interval_seconds env * 1000 ->
   exists k,
     k < interval_seconds env
     /\ NeonToSheetsSync.sync_loop env (S fuel) st
        = (Return true,
           set_is_running false
             (set_trace (trace st ++ replicate (S k) (ESleep 1) ++ [EPrint MsgSignal])
                (set_clock (clock st + S k * 1000) st)))
     /\ s <= clock st + S k * 1000 < s + 1000)
  /\ (clock st + interval_seconds env * 1000 < s ->
      let st_w :=
        set_trace (trace st ++ replicate (interval_seconds env) (ESleep 1))
          (set_clock (clock st + interval_seconds env * 1000) st) in
      let r := NeonToSheetsSync.perform_sync_cycle env (round_start st_w) in
      s <= clock (snd r) ->
      NeonToSheetsSync.sync_loop env (S fuel) st
      = (Return true, logged (round_report (succeeded r) (sync_count st + 1)) (snd r))).
Proof.
  intros Hs Hrun Hbefore. split.
  - intros Hwin.
    destruct (waited_signal env (interval_seconds env) st s Hs Hrun) as (k & Hk & Hw & Ht);
      [lia|].
    exists k. split; [done|]. split; [|done].
    rewrite sync_loop_eq, Hrun, loop_body_eq. cbv zeta.
    by rewrite Hw.
  - intros Hlate st_w r Hduring.
    pose proof (waited_no_signal env (interval_seconds env) st s Hs Hrun Hlate) as Hw.
    pose proof (waited_running env _ _ Hw) as Heq. fold st_w in Heq.
    rewrite sync_loop_eq, Hrun, loop_body_eq. cbv zeta.
    rewrite Heq. change (is_running st_w) with (is_running st). rewrite Hrun.
    change (sync_count st_w) with (sync_count st). fold r.
    assert (is_running (snd r) = false) as Hstop.
    { assert (flag_tracks_signal s (round_start st_w)) as Hinv.
      { unfold flag_tracks_signal. simpl. split; [lia|done]. }
      apply (perform_sync_cycle_flag_tracks_signal env s _ Hs) in Hinv.
      fold r in Hinv. destruct Hinv as [H1 _].
      destruct (is_running (snd r)); [|done]. specialize (H1 eq_refl). lia. }
    rewrite sync_loop_eq. simpl. by rewrite Hstop.
Qed.

Lemma stop_observed_within_a_second_witness :
  (exists k,
     k < 60
     /\ NeonToSheetsSync.sync_loop (Scenario.calm Scenario.users_rows) 1 Scenario.connected
        = (Return true,
           set_is_running false
             (set_trace (trace Scenario.connected
                         ++ replicate (S k) (ESleep 1) ++ [EPrint MsgSignal])
                (set_clock (clock Scenario.connected + S k * 1000) Scenario.connected)))
     /\ 3000 <= clock Scenario.connected + S k * 1000 < 3000 + 1000)
  /\ (let env := Scenario.slow Scenario.users_rows in
      let st_w :=
        set_trace (trace Scenario.connected ++ replicate 60 (ESleep 1))
          (set_clock (clock Scenario.connected + 60 * 1000) Scenario.connected) in
      let r := NeonToSheetsSync.perform_sync_cycle env (round_start st_w) in
      NeonToSheetsSync.sync_loop env 1 Scenario.connected
      = (Return true,
         logged (round_report (succeeded r) (sync_count Scenario.connected + 1)) (snd r))).
Proof.
  split.
  - apply (stop_observed_within_a_second
             (Scenario.calm Scenario.users_rows) 0 Scenario.connected 3000);
      [ reflexivity | vm_compute; reflexivity
      | apply Nat.ltb_lt; vm_compute; reflexivity
      | apply Nat.leb_le; vm_compute; reflexivity ].
  - apply (stop_observed_within_a_second
             (Scenario.slow Scenario.users_rows) 0 Scenario.connected (609 * 100));
      [ reflexivity | vm_compute; reflexivity
      | apply Nat.ltb_lt; vm_compute; reflexivity
      | apply Nat.ltb_lt; vm_compute; reflexivity
      | apply Nat.leb_le; vm_compute; reflexivity ].
Defined.

(** C6.  In interval mode, once the environment is valid and the services
    are connected:
    - when the initial cycle fails, [start_continuous_sync] prints
      "Initial sync failed" and returns [False] at once, whatever number
      of rounds the loop is allowed: no round runs, nothing is slept;
    - a round of the loop that reaches its cycle has slept the interval in
      one-second sleeps, runs the cycle once, prints "Sync #n failed" when
      the cycle fails, and hands over to the next round in both cases;
    - as long as no signal arrives, the loop is still running after any
      number of rounds, whatever its cycles return. *)
Theorem initial_failure_aborts_later_failure_skipped
    (env : Env) (fuel : nat) (st st1 st_n : State) :
  Config.validate_environment env = true ->
  NeonToSheetsSync.connect_to_services env st = (Return true, st1) ->
  is_running (waited env (interval_seconds env) st_n) = true ->
  (let r0 := NeonToSheetsSync.perform_sync_cycle env (logged (EPrint MsgInitialSync) st1) in
   succeeded r0 = false ->
   NeonToSheetsSync.start_continuous_sync env fuel st
   = (Return (Some false), logged (EPrint MsgInitialSyncFailed) (snd r0)))
  /\ (let st_w :=
        set_trace (trace st_n ++ replicate (interval_seconds env) (ESleep 1))
          (set_clock (clock st_n + interval_seconds env * 1000) st_n) in
      let r := NeonToSheetsSync.perform_sync_cycle env (round_start st_w) in
      let n := sync_count st_n + 1 in
      NeonToSheetsSync.sync_loop env (S fuel) st_n
      = NeonToSheetsSync.sync_loop env fuel
          (logged (EPrint (if succeeded r then MsgSyncCompleted n else MsgSyncFailed n))
                  (snd r)))
  /\ (signal_at env = None ->
      forall rounds, fst (NeonToSheetsSync.sync_loop env rounds st_n) = Return false).
Proof.
  intros Hv Hc Hw.
  assert (is_running st_n = true) as Hrun.
  { destruct (is_running st_n) eqn:Hrun; [done|].
    rewrite waited_stopped in Hw by done. congruence. }
  split; [|split].
  - intros r0 Hfail.
    rewrite (start_continuous_sync_initial_cycle env fuel st st1 Hv Hc). cbv zeta.
    fold r0. by rewrite Hfail.
  - intros st_w r n.
    pose proof (waited_running env _ _ Hw) as Heq. fold st_w in Heq.
    rewrite sync_loop_eq, Hrun, loop_body_eq. cbv zeta.
    rewrite Heq. change (is_running st_w) with (is_running st_n). rewrite Hrun.
    reflexivity.
  - intros Hs rounds. by apply sync_loop_without_signal.
Qed.

Lemma initial_failure_aborts_later_failure_skipped_witness :
  let env := Scenario.endless [] in
  let r0 :=
    NeonToSheetsSync.perform_sync_cycle env
      (logged (EPrint MsgInitialSync) Scenario.connected) in
  let st_w :=
    set_trace (trace Scenario.connected ++ replicate 60 (ESleep 1))
      (set_clock (clock Scenario.connected + 60 * 1000) Scenario.connected) in
  let r := NeonToSheetsSync.perform_sync_cycle env (round_start st_w) in
  NeonToSheetsSync.start_continuous_sync env 2 Scenario.fresh
  = (Return (Some false), logged (EPrint MsgInitialSyncFailed) (snd r0))
  /\ NeonToSheetsSync.sync_loop env 3 Scenario.connected
     = NeonToSheetsSync.sync_loop env 2 (logged (EPrint (MsgSyncFailed 1)) (snd r))
  /\ forall rounds,
       fst (NeonToSheetsSync.sync_loop env rounds Scenario.connected) = Return false.
Proof.
  intros env r0 st_w r.
  destruct (initial_failure_aborts_later_failure_skipped
              env 2 Scenario.fresh Scenario.connected Scenario.connected)
    as (H0 & H1 & H2);
    [ vm_compute; reflexivity | vm_compute; reflexivity | vm_compute; reflexivity | ].
  split; [|split].
  - apply H0. vm_compute; reflexivity.
  - exact H1.
  - apply H2. reflexivity.
Defined.

(** ** Shutdown *)

Section Shutdown.
Import NeonToSheetsSync GoogleSheetsConnection.
Variable env : Env.

(** A spreadsheet method leaves the database connection object alone. *)
Lemma update_metadata_worksheet_connection md st :
  connection (snd (update_metadata_worksheet env md st)) = connection st.
Proof.
  apply (update_metadata_worksheet_preserves env
           (fun st st' => connection st' = connection st) (fun _ => true));
    try done.
  - intros a b c H1 H2. congruence.
  - intros d st0. apply elapse_connection.
Qed.

Lemma update_metadata_worksheet_returns md st :
  exists b, fst (update_metadata_worksheet env md st) = Return b.
Proof.
  unfold update_metadata_worksheet. rewrite try_except_eq.
  match goal with |- context [match ?m with _ => _ end] => destruct m as [[b|e] st1] end;
    by eexists.
Qed.

(** The statements after the loop. *)
Lemma shutdown_eq st :
  shutdown env st
  = let st1 := logged (EPrint MsgShuttingDown) st in
    let st2 :=
      match connection st with
      | Some _ => set_connection (Some (mkPgConnection true)) (called env EPgClose st1)
      | None => st1
      end in
    let md := final_metadata env (now env (clock st2)) (sync_count st2) in
    (Return true, logged (EPrint MsgStopped) (snd (update_metadata_worksheet env md st2))).
Proof.
  unfold shutdown, print, log. mrun. fold (logged (EPrint MsgShuttingDown) st).
  change (connection (logged (EPrint MsgShuttingDown) st)) with (connection st).
  cbv zeta.
  destruct (connection st) as [conn|] eqn:Hc.
  - rewrite (disconnect_eq env _ conn) by done. cbv beta iota.
    unfold datetime_now. mrun.
    match goal with
    | |- context [update_metadata_worksheet env ?md ?s] =>
        destruct (update_metadata_worksheet env md s) as [[b|e] st3]
    end; by mrun.
  - mrun. unfold datetime_now. mrun.
    match goal with
    | |- context [update_metadata_worksheet env ?md ?s] =>
        destruct (update_metadata_worksheet env md s) as [[b|e] st3]
    end; by mrun.
Qed.

(** *** The connection object on the way to the shutdown *)

Lemma keeps_connection_elapse d st : keeps_connection st (elapse env d st).
Proof. unfold keeps_connection. by rewrite elapse_connection. Qed.

Lemma perform_sync_cycle_keeps_connection st :
  keeps_connection st (snd (perform_sync_cycle env st)).
Proof.
  apply (perform_sync_cycle_preserves env keeps_connection (fun _ => true));
    unfold keeps_connection; try done.
  - auto.
  - apply keeps_connection_elapse.
Qed.

Lemma table_exists_keeps_connection name st :
  keeps_connection st (snd (DatabaseConnection.table_exists env name st)).
Proof.
  apply (table_exists_preserves env keeps_connection (fun _ => true));
    unfold keeps_connection; try done.
  - auto.
  - apply keeps_connection_elapse.
Qed.

Lemma sheets_connect_keeps_connection st :
  keeps_connection st (snd (GoogleSheetsConnection.connect env st)).
Proof.
  apply (sheets_connect_preserves env keeps_connection (fun _ => true));
    unfold keeps_connection; try done.
  - auto.
  - apply keeps_connection_elapse.
Qed.

Lemma setup_worksheets_keeps_connection name st :
  keeps_connection st (snd (setup_worksheets env name st)).
Proof.
  apply (setup_worksheets_preserves env keeps_connection (fun _ => true));
    unfold keeps_connection; try done.
  - auto.
  - apply keeps_connection_elapse.
Qed.

(** After [connect_to_services] has returned [True] there is a connection
    object. *)
Lemma connect_to_services_connects st st1 :
  connect_to_services env st = (Return true, st1) -> is_Some (connection st1).
Proof.
  unfold connect_to_services. rewrite bind_eq, connect_eq.
  destruct (pg_reachable env (clock st)); cbv beta iota; cbn [negb]; [|mfail].
  set (st_a := set_connection _ _).
  assert (is_Some (connection st_a)) as Ha by (by eexists).
  rewrite bind_eq.
  pose proof (table_exists_keeps_connection (Config.table_name env) st_a Ha) as Hb.
  destruct (DatabaseConnection.table_exists env _ st_a) as [[found|e] st_b];
    cbv beta iota; [|by intros [=]].
  destruct (truthy found); cbn [negb]; [|mfail].
  rewrite bind_eq.
  pose proof (sheets_connect_keeps_connection st_b Hb) as Hc.
  destruct (GoogleSheetsConnection.connect env st_b) as [[[|]|e] st_c];
    cbv beta iota; cbn [negb]; [|mfail|by intros [=]].
  rewrite bind_eq.
  pose proof (setup_worksheets_keeps_connection (Config.table_name env) st_c Hc) as Hd.
  destruct (setup_worksheets env _ st_c) as [[[|]|e] st_d];
    cbv beta iota; cbn [negb]; [|mfail|by intros [=]].
  mrun. by intros [= <-].
Qed.

Lemma waited_connection n st : connection (waited env n st) = connection st.
Proof.
  revert st. induction n as [|n IH]; intros st; simpl; [done|].
  destruct (is_running st); [|done].
  rewrite IH. unfold slept. by rewrite elapse_connection.
Qed.

Lemma sync_loop_keeps_connection fuel st :
  keeps_connection st (snd (sync_loop env fuel st)).
Proof.
  revert st. induction fuel as [|fuel IH]; intros st Hc;
    rewrite sync_loop_eq; destruct (is_running st); try done.
  rewrite loop_body_eq. cbv zeta.
  destruct (is_running (waited env _ st)).
  - apply IH. simpl. apply perform_sync_cycle_keeps_connection. simpl.
    by rewrite waited_connection.
  - simpl. by rewrite waited_connection.
Qed.

(** The loop ends with the flag down, and in no other way. *)
Lemma sync_loop_ended fuel st st' :
  sync_loop env fuel st = (Return true, st') -> is_running st' = false.
Proof.
  revert st. induction fuel as [|fuel IH]; intros st;
    rewrite sync_loop_eq; destruct (is_running st) eqn:Hrun; try by intros [=].
  - by intros [= <-].
  - rewrite loop_body_eq. cbv zeta.
    destruct (is_running (waited env _ st)) eqn:Hw.
    + apply IH.
    + by intros [= <-].
  - by intros [= <-].
Qed.

End Shutdown.

(** C8.  When [start_continuous_sync] reaches the statements after its
    loop (the environment is valid, the services are connected, the
    initial cycle has succeeded and the loop has ended), the flag is down,
    and the method
    - closes the database connection, which is released in the final
      state;
    - builds a final metadata dict whose "Status" is "Stopped" and asks
      for it to be written: when [update_metadata_worksheet] returns
      [True], the worksheet "Sync_Metadata" holds that record at the end;
    - prints "Sync process stopped gracefully" and returns [True]
      whatever [update_metadata_worksheet] has returned. *)
Theorem shutdown_releases_and_records (env : Env) (fuel : nat) (st st1 st3 : State) :
  Config.validate_environment env = true ->
  NeonToSheetsSync.connect_to_services env st = (Return true, st1) ->
  let r := NeonToSheetsSync.perform_sync_cycle env (logged (EPrint MsgInitialSync) st1) in
  succeeded r = true ->
  NeonToSheetsSync.sync_loop env fuel
    (set_sync_count 1 (logged (EPrint MsgInitialSyncCompleted) (snd r)))
  = (Return true, st3) ->
  let st4 :=
    set_connection (Some (mkPgConnection true))
      (called env EPgClose (logged (EPrint MsgShuttingDown) st3)) in
  let md := NeonToSheetsSync.final_metadata env (now env (clock st4)) (sync_count st3) in
  let w := GoogleSheetsConnection.update_metadata_worksheet env md st4 in
  let st' := logged (EPrint MsgStopped) (snd w) in
  is_running st3 = false
  /\ NeonToSheetsSync.start_continuous_sync env fuel st = (Return (Some true), st')
  /\ released st'
  /\ attribute_value "Status" (GoogleSheetsConnection.sync_info md) = Some "Stopped"
  /\ (fst w = Return true ->
      worksheet_cells "Sync_Metadata" st' = Some (GoogleSheetsConnection.sync_info md)).
Proof.
  intros Hv Hc r Hok Hloop st4 md w st'.
  assert (is_Some (connection st3)) as [conn Hconn].
  { replace st3 with (snd (NeonToSheetsSync.sync_loop env fuel
      (set_sync_count 1 (logged (EPrint MsgInitialSyncCompleted) (snd r)))))
      by by rewrite Hloop.
    apply sync_loop_keeps_connection. simpl.
    apply perform_sync_cycle_keeps_connection. simpl.
    by apply (connect_to_services_connects env st). }
  split; [by apply (sync_loop_ended env fuel _ _ Hloop)|].
  split; [|split; [|split]].
  - rewrite (start_continuous_sync_initial_cycle env fuel st st1 Hv Hc). cbv zeta.
    fold r. rewrite Hok, Hloop, shutdown_eq. cbv zeta. rewrite Hconn.
    cbn [fst snd]. unfold st', w, md, st4.
    change (sync_count (set_connection ?c ?s)) with (sync_count s).
    by rewrite called_sync_count.
  - unfold released, st'. simpl. unfold w.
    by rewrite update_metadata_worksheet_connection.
  - reflexivity.
  - intros Hw. unfold st'.
    change (worksheet_cells "Sync_Metadata" (logged (EPrint MsgStopped) (snd w)))
      with (worksheet_cells "Sync_Metadata" (snd w)).
    apply (update_metadata_worksheet_true env md st4).
    unfold w in *.
    by destruct (GoogleSheetsConnection.update_metadata_worksheet env md st4)
      as [[b|e] s]; simpl in *; simplify_eq.
Qed.

Lemma shutdown_releases_and_records_witness :
  let env := Scenario.calm Scenario.users_rows in
  let r := NeonToSheetsSync.perform_sync_cycle env
             (logged (EPrint MsgInitialSync) Scenario.connected) in
  let st3 :=
    snd (NeonToSheetsSync.sync_loop env 1
           (set_sync_count 1 (logged (EPrint MsgInitialSyncCompleted) (snd r)))) in
  let st4 :=
    set_connection (Some (mkPgConnection true))
      (called env EPgClose (logged (EPrint MsgShuttingDown) st3)) in
  let md := NeonToSheetsSync.final_metadata env (now env (clock st4)) (sync_count st3) in
  let w := GoogleSheetsConnection.update_metadata_worksheet env md st4 in
  let st' := logged (EPrint MsgStopped) (snd w) in
  (is_running st3 = false
   /\ NeonToSheetsSync.start_continuous_sync env 1 Scenario.fresh = (Return (Some true), st')
   /\ released st'
   /\ attribute_value "Status" (GoogleSheetsConnection.sync_info md) = Some "Stopped"
   /\ (fst w = Return true ->
       worksheet_cells "Sync_Metadata" st' = Some (GoogleSheetsConnection.sync_info md)))
  /\ fst w = Return true.
Proof.
  intros env r st3 st4 md w st'.
  assert (Config.validate_environment env = true) as Hv by (vm_compute; reflexivity).
  assert (NeonToSheetsSync.connect_to_services env Scenario.fresh
          = (Return true, Scenario.connected)) as Hc by (vm_compute; reflexivity).
  assert (succeeded r = true) as Hok by (vm_compute; reflexivity).
  assert (NeonToSheetsSync.sync_loop env 1
            (set_sync_count 1 (logged (EPrint MsgInitialSyncCompleted) (snd r)))
          = (Return true, st3)) as Hloop by (vm_compute; reflexivity).
  split.
  - exact (shutdown_releases_and_records env 1 Scenario.fresh Scenario.connected st3
             Hv Hc Hok Hloop).
  - vm_compute; reflexivity.
Defined.

(** The final write fails: the method returns [True] all the same, the
    connection is released, and the worksheet keeps the record of the last
    cycle. *)
Example final_write_failure_is_swallowed :
  let r := NeonToSheetsSync.start_continuous_sync
             (Scenario.flaky Scenario.users_rows) 1 Scenario.fresh in
  fst r = Return (Some true)
  /\ released (snd r)
  /\ option_map (attribute_value "Status") (worksheet_cells "Sync_Metadata" (snd r))
     = Some (Some "Running").
Proof. by vm_compute. Qed.

(** * Further properties of the code *)

(** ** Writes stay within one worksheet *)

Section WritesOnly.
Import GoogleSheetsConnection.
Variable env : Env.
Variables sp name : string.

Lemma writes_only_refl st : writes_only sp name st st.
Proof. by intros sp' title _. Qed.

Lemma writes_only_trans a b c :
  writes_only sp name a b -> writes_only sp name b c -> writes_only sp name a c.
Proof. intros H1 H2 sp' title Hne. by rewrite H2, H1. Qed.

Lemma writes_only_same_drive st st' :
  drive st' = drive st -> writes_only sp name st st'.
Proof. intros Hd sp' title _. unfold worksheet_at. by rewrite Hd. Qed.

Lemma writes_only_insert st st' sheets ws :
  drive st !! sp = Some sheets ->
  drive st' = <[sp := <[name := ws]> sheets]> (drive st) ->
  writes_only sp name st st'.
Proof.
  intros Hs Hd sp' title Hne. unfold worksheet_at. rewrite Hd.
  destruct (decide (sp' = sp)) as [->|Hsp].
  - rewrite lookup_insert_eq, Hs. destruct Hne as [|Hne]; [done|].
    by rewrite lookup_insert_ne.
  - by rewrite lookup_insert_ne.
Qed.

Lemma write_cells_writes_only ev w f st :
  h_spreadsheet w = sp -> h_title w = name ->
  writes_only sp name st (snd (write_cells env ev w f st)).
Proof.
  intros Hsp Hname. rewrite write_cells_eq. cbv zeta. rewrite Hsp, Hname.
  destruct (gs_fault env (clock st) ev);
    [apply writes_only_same_drive, called_drive|].
  destruct (drive st !! sp) as [sheets|] eqn:Hs;
    [|apply writes_only_same_drive, called_drive].
  destruct (sheets !! name) as [ws|];
    [|apply writes_only_same_drive, called_drive].
  by eapply writes_only_insert.
Qed.

Lemma update_worksheet_data_writes_only w data st :
  h_spreadsheet w = sp -> h_title w = name ->
  writes_only sp name st (snd (update_worksheet_data env w data st)).
Proof.
  intros Hsp Hname. revert st.
  change (preserves (writes_only sp name) (update_worksheet_data env w data)).
  pose proof writes_only_refl as Hrefl. pose proof writes_only_trans as Htrans.
  assert (forall ev f, preserves (writes_only sp name) (write_cells env ev w f)) as Hw
    by (intros ev f st; by apply write_cells_writes_only).
  unfold update_worksheet_data, worksheet_clear, worksheet_update.
  apply preserves_try_except; [done| |intros e; by apply preserves_ret].
  apply preserves_bind; [done|apply Hw|intros _].
  apply preserves_bind; [done|apply Hw|intros _]. by apply preserves_ret.
Qed.

Lemma get_or_create_worksheet_writes_only rows cols st :
  spreadsheet st = Some sp ->
  writes_only sp name st (snd (get_or_create_worksheet env name rows cols st)).
Proof.
  intros Hsp.
  unfold get_or_create_worksheet, spreadsheet_worksheet, the_spreadsheet. mrun.
  rewrite Hsp. mrun.
  destruct (gs_fault env (clock st) (EGsWorksheet name));
    [mrun; apply writes_only_same_drive, called_drive|].
  mrun. rewrite called_drive.
  destruct (drive st !! sp) as [sheets|] eqn:Hs;
    [|mrun; apply writes_only_same_drive, called_drive].
  destruct (sheets !! name) eqn:Hn; mrun;
    [apply writes_only_same_drive, called_drive|].
  unfold spreadsheet_add_worksheet, the_spreadsheet. mrun.
  rewrite called_spreadsheet, Hsp. mrun.
  match goal with
  | |- context [gs_fault env ?t ?e] => destruct (gs_fault env t e)
  end; [mrun; apply writes_only_same_drive; cbn [snd]; by rewrite !called_drive|].
  mrun. rewrite !called_drive, Hs, Hn. mrun.
  eapply writes_only_insert; [done|]. cbn [snd drive set_drive].
  reflexivity.
Qed.

End WritesOnly.

(** ** The steps of a cycle *)

Section CycleSteps.
Import GoogleSheetsConnection.
Variable env : Env.

Lemma worksheet_cells_at title st :
  worksheet_cells title st
  = match spreadsheet st with
    | Some sp => cells <$> worksheet_at sp title st
    | None => None
    end.
Proof.
  unfold worksheet_cells, worksheet_at. destruct (spreadsheet st) as [sp|]; [|done].
  destruct (drive st !! sp) as [sheets|]; [|done]. by destruct (sheets !! title).
Qed.

Lemma string_length_app s1 s2 :
  String.length (s1 +:+ s2) = String.length s1 + String.length s2.
Proof. induction s1 as [|c s1 IH]; simpl; [done|]. by rewrite IH. Qed.

Lemma data_worksheet_name_not_metadata s : s +:+ "_data" <> "Sync_Metadata".
Proof.
  intros H.
  assert (String.length s = 8) as Hlen.
  { apply (f_equal String.length) in H. rewrite string_length_app in H.
    simpl in H. lia. }
  do 8 (destruct s as [|? s]; [done|]).
  destruct s; by simplify_eq/=.
Qed.

Lemma get_table_data_returns name st :
  fst (DatabaseConnection.get_table_data env name st)
  = Return (read_frame (DatabaseConnection.get_table_data env name st)).
Proof.
  unfold read_frame. rewrite get_table_data_eq.
  destruct (ensure_connection env st) as [st1|]; [|done].
  unfold fetch_all. cbv zeta. by destruct (pg_answer env _ _ _).
Qed.

Lemma update_data_worksheet_returns d name st :
  fst (update_data_worksheet env d name st)
  = Return (succeeded (update_data_worksheet env d name st)).
Proof.
  unfold succeeded, update_data_worksheet. rewrite try_except_eq.
  match goal with |- context [match ?m with _ => _ end] => destruct m as [[b|e] st1] end;
    reflexivity.
Qed.

Lemma update_metadata_worksheet_succeeded md st :
  fst (update_metadata_worksheet env md st)
  = Return (succeeded (update_metadata_worksheet env md st)).
Proof.
  unfold succeeded, update_metadata_worksheet. rewrite try_except_eq.
  match goal with |- context [match ?m with _ => _ end] => destruct m as [[b|e] st1] end;
    reflexivity.
Qed.

(** A cycle, in either mode, step by step. *)
Lemma cycle_eq mode st :
  cycle mode env st
  = let r1 := DatabaseConnection.get_table_data env (Config.table_name env) st in
    let st1 := set_df (read_frame r1) (snd r1) in
    match read_frame r1 with
    | None => (Return false, st1)
    | Some d =>
        if len d =? 0 then (Return false, st1)
        else
          let r2 := update_data_worksheet env d (data_worksheet_name env) st1 in
          if succeeded r2 then
            let md := cycle_metadata mode env (now env (clock (snd r2))) d in
            let r3 := update_metadata_worksheet env md (snd r2) in
            (Return (succeeded r3), snd r3)
          else (Return false, snd r2)
    end.
Proof.
  cbv zeta. unfold data_worksheet_name.
  pose proof (get_table_data_returns (Config.table_name env) st) as H1.
  destruct mode; unfold cycle, cycle_metadata, NeonToSheetsSync.perform_sync_cycle,
    OneTimeSyncToSheets.download_and_upload_data; cbv zeta;
    rewrite ?try_except_eq, bind_eq;
    (destruct (DatabaseConnection.get_table_data env (Config.table_name env) st)
      as [[[d|]|e] st1]; [| |discriminate H1]); clear H1;
    unfold read_frame; cbn [fst snd]; cbv beta iota; mrun; try done;
    (destruct (len d =? 0); [by mrun|]);
    rewrite bind_eq;
    match goal with
    | |- context [update_data_worksheet env d ?n ?s] =>
        pose proof (update_data_worksheet_returns d n s) as H2;
        destruct (update_data_worksheet env d n s) as [[[|]|e2] st2];
          [| |discriminate H2]; clear H2
    end;
    unfold succeeded; cbn [fst snd negb]; cbv beta iota; mrun; try done;
    unfold datetime_now; mrun;
    match goal with
    | |- context [update_metadata_worksheet env ?md ?s] =>
        pose proof (update_metadata_worksheet_succeeded md s) as H3;
        destruct (update_metadata_worksheet env md s) as [[[|]|e3] st3];
          [| |discriminate H3]; clear H3
    end;
    cbn [fst snd negb]; cbv beta iota; by mrun.
Qed.

End CycleSteps.

Section DataWrites.
Import GoogleSheetsConnection.
Variable env : Env.

Lemma get_or_create_then_update_writes_only sp name rows cols data st :
  spreadsheet st = Some sp ->
  writes_only sp name st
    (snd (try_except
            (let* worksheet := get_or_create_worksheet env name rows cols in
             match worksheet with
             | None => ret false
             | Some w => update_worksheet_data env w data
             end)
            (fun _ => ret false) st)).
Proof.
  intros Hsp. rewrite try_except_eq, bind_eq.
  pose proof (get_or_create_worksheet_writes_only env sp name rows cols st Hsp) as H1.
  destruct (get_or_create_worksheet env name rows cols st) as [[[w|]|e] st1] eqn:Hg;
    cbv beta iota; mrun; try done.
  apply get_or_create_worksheet_some in Hg as [Hw Hname].
  rewrite Hsp in Hw. injection Hw as Hw.
  pose proof (update_worksheet_data_writes_only env sp name w data st1
                (eq_sym Hw) Hname) as H2.
  destruct (update_worksheet_data env w data st1) as [[b|e] st2]; cbn [snd] in *;
    mrun; by eapply writes_only_trans.
Qed.

Lemma update_data_worksheet_writes_only sp d name st :
  spreadsheet st = Some sp ->
  writes_only sp name st (snd (update_data_worksheet env d name st)).
Proof.
  intros Hsp. unfold update_data_worksheet.
  destruct (prepare_dataframe_for_upload d) as [data|e] eqn:Hdata.
  - by apply (get_or_create_then_update_writes_only sp name _ _ data).
  - rewrite try_except_eq, bind_eq.
    pose proof (get_or_create_worksheet_writes_only env sp name
                  (Nat.max (len d + 10) 100) (Nat.max (length (columns d) + 5) 20)
                  st Hsp) as H1.
    destruct (get_or_create_worksheet env name _ _ st) as [[[w|]|e'] st1];
      cbv beta iota; by mrun.
Qed.

Lemma update_metadata_worksheet_writes_only sp md st :
  spreadsheet st = Some sp ->
  writes_only sp "Sync_Metadata" st (snd (update_metadata_worksheet env md st)).
Proof. apply get_or_create_then_update_writes_only. Qed.

(** After [update_data_worksheet] has returned [True] the worksheet holds
    the prepared frame. *)
Lemma update_data_worksheet_true d name st st' :
  update_data_worksheet env d name st = (Return true, st') ->
  exists g,
    prepare_dataframe_for_upload d = Return g
    /\ worksheet_cells name st' = Some g.
Proof.
  unfold update_data_worksheet. rewrite try_except_eq, bind_eq.
  match goal with
  | |- context [get_or_create_worksheet env name ?r ?c st] =>
      pose proof (get_or_create_worksheet_same_objects env name r c st) as [Hs _];
      destruct (get_or_create_worksheet env name r c st) as [[[w|]|e] st1] eqn:Hg
  end; cbv beta iota; [|mfail|mfail].
  apply get_or_create_worksheet_some in Hg as [Hsp Htitle]. simpl in Hs.
  rewrite bind_eq, lift_eq.
  destruct (prepare_dataframe_for_upload d) as [g|e]; cbv beta iota; [|mfail].
  destruct (update_worksheet_data env w g st1) as [[[|]|e] st2] eqn:Hu; [|mfail|mfail].
  intros [= <-]. exists g. split; [done|].
  apply update_worksheet_data_true in Hu as (Hs2 & sheets & ws & H1 & H2 & H3).
  unfold worksheet_cells. rewrite Hs2, Hs, Hsp, H1. rewrite Htitle in H2.
  by rewrite H2, H3.
Qed.

End DataWrites.

(** X1.  [update_data_worksheet] and [update_metadata_worksheet] change
    nothing on the drive but the one worksheet they are asked to write, in
    the spreadsheet that is open: every other worksheet, of this
    spreadsheet or of another, keeps its size and its cells, and none is
    added or removed. *)
Theorem writes_touch_one_worksheet
    (env : Env) (sp name : string) (d : DataFrame) (md : list (string * value))
    (st : State) :
  spreadsheet st = Some sp ->
  writes_only sp name st
    (snd (GoogleSheetsConnection.update_data_worksheet env d name st))
  /\ writes_only sp "Sync_Metadata" st
       (snd (GoogleSheetsConnection.update_metadata_worksheet env md st)).
Proof.
  intros Hsp. split.
  - by apply update_data_worksheet_writes_only.
  - by apply update_metadata_worksheet_writes_only.
Qed.

Lemma writes_touch_one_worksheet_witness :
  let env := Scenario.calm Scenario.users_rows in
  writes_only "users" "users_data" Scenario.connected
    (snd (GoogleSheetsConnection.update_data_worksheet env Scenario.users_df
            "users_data" Scenario.connected))
  /\ writes_only "users" "Sync_Metadata" Scenario.connected
       (snd (GoogleSheetsConnection.update_metadata_worksheet env
               [("Status", VStr "Running")] Scenario.connected)).
Proof.
  intros env.
  apply (writes_touch_one_worksheet env "users" "users_data" Scenario.users_df
           [("Status", VStr "Running")] Scenario.connected).
  vm_compute; reflexivity.
Defined.

(** X2.  A cycle that returns [True], in either mode, has read a frame
    with at least one row, and leaves the data worksheet holding exactly
    that frame as prepared for upload: the header and one row per row of
    the frame.  The write of the metadata that follows has not touched
    it. *)
Theorem successful_cycle_mirrors_frame
    (mode : sync_mode) (env : Env) (st st' : State) :
  cycle mode env st = (Return true, st') ->
  exists d g,
    fst (DatabaseConnection.get_table_data env (Config.table_name env) st)
    = Return (Some d)
    /\ len d <> 0
    /\ df st' = Some d
    /\ prepare_dataframe_for_upload d = Return g
    /\ worksheet_cells (data_worksheet_name env) st' = Some g
    /\ length g = S (len d).
Proof.
  rewrite cycle_eq. cbv zeta.
  pose proof (get_table_data_returns env (Config.table_name env) st) as H1.
  set (r1 := DatabaseConnection.get_table_data env (Config.table_name env) st) in *.
  destruct (read_frame r1) as [d|]; [|by intros [=]].
  destruct (len d =? 0) eqn:Hlen; [by intros [=]|].
  set (st1 := set_df (Some d) (snd r1)).
  pose proof (update_data_worksheet_returns env d (data_worksheet_name env) st1) as H2.
  pose proof (update_data_worksheet_same_objects env d (data_worksheet_name env) st1)
    as [Hsp2 Hdf2].
  set (r2 := GoogleSheetsConnection.update_data_worksheet env d
               (data_worksheet_name env) st1) in *.
  destruct (succeeded r2); [|by intros [=]].
  set (md := cycle_metadata mode env (now env (clock (snd r2))) d).
  pose proof (update_metadata_worksheet_same_objects env md (snd r2)) as [Hsp3 Hdf3].
  set (r3 := GoogleSheetsConnection.update_metadata_worksheet env md (snd r2)) in *.
  intros [= Hok <-].
  assert (exists g, prepare_dataframe_for_upload d = Return g
                    /\ worksheet_cells (data_worksheet_name env) (snd r2) = Some g)
    as (g & Hg & Hcells).
  { apply (update_data_worksheet_true env d _ st1). fold r2.
    by destruct r2 as [? ?]; simpl in *; subst. }
  exists d, g.
  split; [done|]. split; [by apply Nat.eqb_neq|].
  split; [by rewrite Hdf3, Hdf2|]. split; [done|].
  split; [|by apply prepare_dataframe_for_upload_length].
  rewrite <- Hcells, !worksheet_cells_at, Hsp3.
  destruct (spreadsheet (snd r2)) as [sp|] eqn:Hsp; [|done].
  f_equal.
  apply (update_metadata_worksheet_writes_only env sp md (snd r2) Hsp).
  right. apply data_worksheet_name_not_metadata.
Qed.

Lemma successful_cycle_mirrors_frame_witness :
  let r := cycle OneTime (Scenario.calm Scenario.users_rows) Scenario.connected in
  exists d g,
    fst (DatabaseConnection.get_table_data (Scenario.calm Scenario.users_rows)
           (Config.table_name (Scenario.calm Scenario.users_rows)) Scenario.connected)
    = Return (Some d)
    /\ len d <> 0
    /\ df (snd r) = Some d
    /\ prepare_dataframe_for_upload d = Return g
    /\ worksheet_cells (data_worksheet_name (Scenario.calm Scenario.users_rows)) (snd r)
       = Some g
    /\ length g = S (len d).
Proof.
  intros r.
  apply (successful_cycle_mirrors_frame OneTime (Scenario.calm Scenario.users_rows)
           Scenario.connected (snd r)).
  vm_compute; reflexivity.
Defined.

(** X3.  Nothing is rolled back: when the frame has been written to the
    data worksheet and the write of the metadata then fails, the cycle
    returns [False] and the data worksheet keeps the new frame. *)
Theorem failed_metadata_write_keeps_data
    (mode : sync_mode) (env : Env) (st : State) (d : DataFrame) :
  let r1 := DatabaseConnection.get_table_data env (Config.table_name env) st in
  let r2 := GoogleSheetsConnection.update_data_worksheet env d
              (data_worksheet_name env) (set_df (Some d) (snd r1)) in
  let md := cycle_metadata mode env (now env (clock (snd r2))) d in
  let r3 := GoogleSheetsConnection.update_metadata_worksheet env md (snd r2) in
  read_frame r1 = Some d ->
  len d <> 0 ->
  succeeded r2 = true ->
  succeeded r3 = false ->
  cycle mode env st = (Return false, snd r3)
  /\ exists g,
       prepare_dataframe_for_upload d = Return g
       /\ worksheet_cells (data_worksheet_name env) (snd r3) = Some g.
Proof.
  intros r1 r2 md r3 Hread Hlen Hok2 Hok3.
  split.
  - rewrite cycle_eq. cbv zeta. fold r1. rewrite Hread.
    apply Nat.eqb_neq in Hlen. rewrite Hlen. fold r2. rewrite Hok2.
    fold md r3. by rewrite Hok3.
  - pose proof (update_metadata_worksheet_same_objects env md (snd r2)) as [Hsp3 _].
    fold r3 in Hsp3.
    assert (exists g, prepare_dataframe_for_upload d = Return g
                      /\ worksheet_cells (data_worksheet_name env) (snd r2) = Some g)
      as (g & Hg & Hcells).
    { apply (update_data_worksheet_true env d _ (set_df (Some d) (snd r1))). fold r2.
      pose proof (update_data_worksheet_returns env d (data_worksheet_name env)
                    (set_df (Some d) (snd r1))) as H2.
      fold r2 in H2. rewrite Hok2 in H2. by destruct r2 as [? ?]; simpl in *; subst. }
    exists g. split; [done|].
    rewrite <- Hcells, !worksheet_cells_at, Hsp3.
    destruct (spreadsheet (snd r2)) as [sp|] eqn:Hsp; [|done].
    f_equal.
    apply (update_metadata_worksheet_writes_only env sp md (snd r2) Hsp).
    right. apply data_worksheet_name_not_metadata.
Qed.

Lemma failed_metadata_write_keeps_data_witness :
  let env := Scenario.metadata_fails Scenario.users_rows in
  let r := cycle Interval env Scenario.connected in
  fst r = Return false
  /\ worksheet_cells "users_data" (snd r)
     = Some [ ["id"; "name"; "created_at"];
              ["1"; "Ann"; "2024-01-01 00:00:00"];
              ["2"; "Bo"; EmptyString] ].
Proof.
  intros env r.
  destruct (failed_metadata_write_keeps_data Interval env Scenario.connected
              Scenario.users_df) as [H1 H2];
    [ vm_compute; reflexivity | vm_compute; lia
    | vm_compute; reflexivity | vm_compute; reflexivity | ].
  split.
  - unfold r. by rewrite H1.
  - vm_compute; reflexivity.
Defined.

(** ** Worksheets: lookup, creation, overwrite *)

Section Worksheets.
Import GoogleSheetsConnection.
Variable env : Env.

(** [get_or_create_worksheet], case by case. *)
Lemma get_or_create_worksheet_eq name rows cols st :
  get_or_create_worksheet env name rows cols st
  = let st1 := called env (EGsWorksheet name) st in
    match spreadsheet st with
    | None => (Return None, st)
    | Some sp =>
        if gs_fault env (clock st) (EGsWorksheet name) then (Return None, st1)
        else match drive st !! sp with
             | None => (Return None, st1)
             | Some sheets =>
                 match sheets !! name with
                 | Some _ => (Return (Some (mkHandle sp name)), st1)
                 | None =>
                     let st2 := called env (EGsAddWorksheet name rows cols) st1 in
                     if gs_fault env (clock st1) (EGsAddWorksheet name rows cols)
                     then (Raise APIError, st2)
                     else (Return (Some (mkHandle sp name)),
                           set_drive
                             (<[sp := <[name := mkWorksheet rows cols []]> sheets]>
                                (drive st)) st2)
                 end
             end
    end.
Proof.
  cbv zeta.
  unfold get_or_create_worksheet, spreadsheet_worksheet, the_spreadsheet. mrun.
  destruct (spreadsheet st) as [sp|] eqn:Hsp; mrun; [|done].
  destruct (gs_fault env (clock st) (EGsWorksheet name)); mrun; [done|].
  rewrite called_drive.
  destruct (drive st !! sp) as [sheets|] eqn:Hs; mrun; [|done].
  destruct (sheets !! name) eqn:Hn; mrun; [done|].
  unfold spreadsheet_add_worksheet, the_spreadsheet. mrun.
  rewrite called_spreadsheet, Hsp. mrun.
  match goal with
  | |- context [gs_fault env ?t ?e] => destruct (gs_fault env t e)
  end; mrun; [done|].
  rewrite !called_drive, Hs, Hn. by mrun.
Qed.

Lemma called_set_drive ev d st :
  called env ev (set_drive d st) = set_drive d (called env ev st).
Proof. unfold called, elapse. simpl. by destruct (due _ _ _). Qed.

(** [update_worksheet_data], case by case. *)
Lemma update_worksheet_data_eq w data st :
  update_worksheet_data env w data st
  = let st1 := called env (EGsClear (h_title w)) st in
    let st2 := called env (EGsUpdate (h_title w) data) st1 in
    if gs_fault env (clock st) (EGsClear (h_title w)) then (Return false, st1)
    else match drive st !! h_spreadsheet w with
         | None => (Return false, st1)
         | Some sheets =>
             match sheets !! h_title w with
             | None => (Return false, st1)
             | Some ws =>
                 let cleared :=
                   <[h_spreadsheet w :=
                       <[h_title w := mkWorksheet (ws_rows ws) (ws_cols ws) []]> sheets]>
                     (drive st) in
                 if gs_fault env (clock st1) (EGsUpdate (h_title w) data)
                 then (Return false, set_drive cleared st2)
                 else (Return true,
                       set_drive
                         (<[h_spreadsheet w :=
                              <[h_title w := mkWorksheet (ws_rows ws) (ws_cols ws) data]>
                                sheets]> (drive st)) st2)
             end
         end.
Proof.
  cbv zeta. unfold update_worksheet_data, worksheet_clear, worksheet_update.
  rewrite try_except_eq, bind_eq, write_cells_eq. cbv zeta.
  destruct (gs_fault env (clock st) (EGsClear (h_title w))); [by mrun|].
  destruct (drive st !! h_spreadsheet w) as [sheets|]; [|by mrun].
  destruct (sheets !! h_title w) as [ws|]; [|by mrun].
  cbv beta iota. rewrite bind_eq, write_cells_eq. cbv zeta. cbn [drive set_drive].
  change (clock (set_drive ?d ?s)) with (clock s).
  match goal with
  | |- context [gs_fault env ?t ?e] => destruct (gs_fault env t e)
  end.
  - mrun. by rewrite called_set_drive.
  - rewrite lookup_insert_eq, lookup_insert_eq. mrun. cbn [ws_rows ws_cols cells].
    rewrite called_set_drive. cbn [drive set_drive].
    by rewrite overlay_nil, insert_insert_eq, insert_insert_eq.
Qed.

End Worksheets.

(** X4.  [get_or_create_worksheet] is idempotent: once it has returned a
    worksheet, a second call for the same name, whatever size it asks for,
    returns the same worksheet after the lookup alone, provided the
    service answers the lookup; no worksheet is added and none changes
    size or content. *)
Theorem get_or_create_worksheet_idempotent
    (env : Env) (name : string) (rows cols rows' cols' : nat)
    (st st1 : State) (w : GoogleSheetsConnection.handle) :
  GoogleSheetsConnection.get_or_create_worksheet env name rows cols st
  = (Return (Some w), st1) ->
  gs_fault env (clock st1) (EGsWorksheet name) = false ->
  GoogleSheetsConnection.get_or_create_worksheet env name rows' cols' st1
  = (Return (Some w), called env (EGsWorksheet name) st1)
  /\ drive (called env (EGsWorksheet name) st1) = drive st1.
Proof.
  intros H1 Hfault. split; [|apply called_drive].
  assert (exists sp sheets,
            w = GoogleSheetsConnection.mkHandle sp name
            /\ spreadsheet st1 = Some sp
            /\ drive st1 !! sp = Some sheets
            /\ is_Some (sheets !! name)) as (sp & sheets & -> & Hsp & Hd & [ws Hws]).
  { rewrite get_or_create_worksheet_eq in H1. cbv zeta in H1.
    destruct (spreadsheet st) as [sp|] eqn:Hsp; [|by simplify_eq].
    destruct (gs_fault env (clock st) (EGsWorksheet name)); [by simplify_eq|].
    destruct (drive st !! sp) as [sheets|] eqn:Hd; [|by simplify_eq].
    destruct (sheets !! name) as [ws|] eqn:Hws.
    - injection H1 as <- <-. exists sp, sheets.
      by rewrite called_spreadsheet, called_drive.
    - destruct (gs_fault env _ (EGsAddWorksheet name rows cols)); [by simplify_eq|].
      injection H1 as <- <-.
      exists sp, (<[name := mkWorksheet rows cols []]> sheets).
      split; [done|]. cbn [spreadsheet drive set_drive].
      rewrite !called_spreadsheet, lookup_insert_eq, lookup_insert_eq.
      by eauto. }
  rewrite get_or_create_worksheet_eq. cbv zeta.
  by rewrite Hsp, Hfault, Hd, Hws.
Qed.

Lemma get_or_create_worksheet_idempotent_witness :
  let env := Scenario.world None Scenario.users_rows in
  let first :=
    GoogleSheetsConnection.get_or_create_worksheet env "users_data" 1000 50
      Scenario.signed_in in
  GoogleSheetsConnection.get_or_create_worksheet env "users_data" 5 5 (snd first)
  = (Return (Some (GoogleSheetsConnection.mkHandle "users" "users_data")),
     called env (EGsWorksheet "users_data") (snd first))
  /\ drive (called env (EGsWorksheet "users_data") (snd first)) = drive (snd first).
Proof.
  intros env first.
  apply (get_or_create_worksheet_idempotent env "users_data" 1000 50 5 5
           Scenario.signed_in (snd first)
           (GoogleSheetsConnection.mkHandle "users" "users_data"));
    vm_compute; reflexivity.
Defined.

(** X5.  The two ways [get_or_create_worksheet] fails.  When the lookup
    of the worksheet is refused, the method returns [None].  When the
    worksheet is missing and [add_worksheet] is refused, the exception is
    raised inside the handler of [WorksheetNotFound], where the last
    [except] clause does not apply: it leaves the method, the drive is
    unchanged, and the callers' own handlers turn it into [False]. *)
Theorem get_or_create_worksheet_failures
    (env : Env) (name : string) (rows cols : nat) (st : State) (sp : string) :
  spreadsheet st = Some sp ->
  (gs_fault env (clock st) (EGsWorksheet name) = true ->
   GoogleSheetsConnection.get_or_create_worksheet env name rows cols st
   = (Return None, called env (EGsWorksheet name) st))
  /\ (forall sheets,
        drive st !! sp = Some sheets ->
        sheets !! name = None ->
        gs_fault env (clock st) (EGsWorksheet name) = false ->
        (forall r c,
           gs_fault env (clock (called env (EGsWorksheet name) st))
             (EGsAddWorksheet name r c) = true) ->
        fst (GoogleSheetsConnection.get_or_create_worksheet env name rows cols st)
        = Raise APIError
        /\ drive (snd (GoogleSheetsConnection.get_or_create_worksheet
                         env name rows cols st)) = drive st
        /\ forall d,
             fst (GoogleSheetsConnection.update_data_worksheet env d name st)
             = Return false).
Proof.
  intros Hsp. split.
  - intros Hfault. rewrite get_or_create_worksheet_eq. cbv zeta.
    by rewrite Hsp, Hfault.
  - intros sheets Hd Hn Hlookup Hadd.
    assert (forall r c,
              GoogleSheetsConnection.get_or_create_worksheet env name r c st
              = (Raise APIError,
                 called env (EGsAddWorksheet name r c)
                   (called env (EGsWorksheet name) st))) as Heq.
    { intros r c. rewrite get_or_create_worksheet_eq. cbv zeta.
      by rewrite Hsp, Hlookup, Hd, Hn, Hadd. }
    split; [by rewrite Heq|]. split; [by rewrite Heq; cbn [snd]; rewrite !called_drive|].
    intros d. unfold GoogleSheetsConnection.update_data_worksheet.
    rewrite try_except_eq, bind_eq, Heq. by mrun.
Qed.

Lemma get_or_create_worksheet_failures_witness :
  let env := Scenario.add_fails Scenario.users_rows in
  fst (GoogleSheetsConnection.get_or_create_worksheet env "users_data" 1000 50
         Scenario.signed_in) = Raise APIError
  /\ drive (snd (GoogleSheetsConnection.get_or_create_worksheet env "users_data" 1000 50
                   Scenario.signed_in)) = drive Scenario.signed_in
  /\ forall d,
       fst (GoogleSheetsConnection.update_data_worksheet env d "users_data"
              Scenario.signed_in) = Return false.
Proof.
  intros env.
  apply (proj2 (get_or_create_worksheet_failures env "users_data" 1000 50
                  Scenario.signed_in "users" ltac:(vm_compute; reflexivity))
           {["Sheet1" := mkWorksheet 1000 26 []]});
    vm_compute; reflexivity.
Defined.

(** X6.  [update_worksheet_data] never raises, and its overwrite is not
    atomic.  For a worksheet that exists: when [clear] is refused the
    method returns [False] and the worksheet is as before; when [clear]
    has passed and [update] is refused the method returns [False] and the
    worksheet is left empty; when both pass the method returns [True] and
    the worksheet holds exactly the new rows, whatever it held before. *)
Theorem update_worksheet_data_not_atomic
    (env : Env) (w : GoogleSheetsConnection.handle) (data : grid) (st : State)
    (sheets : gmap string Worksheet) (ws : Worksheet) :
  drive st !! GoogleSheetsConnection.h_spreadsheet w = Some sheets ->
  sheets !! GoogleSheetsConnection.h_title w = Some ws ->
  let sp := GoogleSheetsConnection.h_spreadsheet w in
  let title := GoogleSheetsConnection.h_title w in
  let r := GoogleSheetsConnection.update_worksheet_data env w data st in
  let clear_refused := gs_fault env (clock st) (EGsClear title) in
  let update_refused :=
    gs_fault env (clock (called env (EGsClear title) st)) (EGsUpdate title data) in
  fst r = Return (negb clear_refused && negb update_refused)
  /\ worksheet_at sp title (snd r)
     = Some (if clear_refused then ws
             else mkWorksheet (ws_rows ws) (ws_cols ws)
                    (if update_refused then [] else data)).
Proof.
  intros Hd Hws sp title r clear_refused update_refused.
  subst sp title r clear_refused update_refused.
  rewrite update_worksheet_data_eq. cbv zeta. rewrite Hd, Hws.
  destruct (gs_fault env (clock st) _); cbn [negb andb fst snd].
  - split; [done|]. unfold worksheet_at. by rewrite called_drive, Hd.
  - destruct (gs_fault env _ _); cbn [negb fst snd];
      (split; [done|]); unfold worksheet_at; cbn [drive set_drive];
      by rewrite !lookup_insert_eq.
Qed.

Lemma update_worksheet_data_not_atomic_witness :
  let env := Scenario.metadata_fails Scenario.users_rows in
  let st := snd (cycle Interval (Scenario.calm Scenario.users_rows) Scenario.connected) in
  let w := GoogleSheetsConnection.mkHandle "users" "Sync_Metadata" in
  let r := GoogleSheetsConnection.update_worksheet_data env w [["Attribute"; "Value"]] st in
  (length <$> worksheet_cells "Sync_Metadata" st) = Some 8
  /\ fst r = Return false
  /\ worksheet_at "users" "Sync_Metadata" (snd r) = Some (mkWorksheet 10 3 []).
Proof.
  intros env st w r.
  pose (sheets := default ∅ (drive st !! "users")).
  pose (ws := default (mkWorksheet 0 0 []) (sheets !! "Sync_Metadata")).
  destruct (update_worksheet_data_not_atomic env w [["Attribute"; "Value"]] st sheets ws)
    as [Hr Hw]; [vm_compute; reflexivity | vm_compute; reflexivity |].
  split; [vm_compute; reflexivity|]. split.
  - etransitivity; [exact Hr|]. vm_compute; reflexivity.
  - etransitivity; [exact Hw|]. vm_compute; reflexivity.
Defined.

(** ** The metadata table *)

Section MetadataTable.
Import GoogleSheetsConnection.

Lemma sync_info_eq md :
  sync_info md = ["Attribute"; "Value"] :: map (fun kv => [fst kv; str (snd kv)]) md.
Proof. unfold sync_info. by rewrite fold_left_snoc_map. Qed.

Lemma attribute_value_cons k header (kv : string * value) rows :
  attribute_value k (header :: [fst kv; str (snd kv)] :: rows)
  = if String.eqb (fst kv) k then Some (str (snd kv))
    else attribute_value k (header :: rows).
Proof. unfold attribute_value. simpl. by destruct (String.eqb (fst kv) k). Qed.

End MetadataTable.

(** X7.  The metadata dict and the table written from it: the table has
    the header and one row per entry, the attribute column lists the keys
    in insertion order, looking an attribute up gives the text of the
    value stored under that key, and a key that is not in the dict is not
    in the table. *)
Theorem metadata_table_round_trip (md : list (string * value)) :
  NoDup (map fst md) ->
  length (GoogleSheetsConnection.sync_info md) = S (length md)
  /\ attributes (GoogleSheetsConnection.sync_info md) = map fst md
  /\ (forall k v,
        In (k, v) md ->
        attribute_value k (GoogleSheetsConnection.sync_info md) = Some (str v))
  /\ (forall k,
        ~ In k (map fst md) ->
        attribute_value k (GoogleSheetsConnection.sync_info md) = None).
Proof.
  intros Hnodup. rewrite sync_info_eq.
  split; [by simpl; rewrite List.length_map|].
  split.
  { unfold attributes. simpl. rewrite List.map_map. by apply List.map_ext. }
  split.
  - induction md as [|[k' v'] md IH]; intros k v Hin; [done|].
    simpl. rewrite (attribute_value_cons k _ (k', v')). simpl.
    apply NoDup_cons in Hnodup as [Hk' Hnodup].
    destruct Hin as [[= -> ->]|Hin].
    + by rewrite String.eqb_refl.
    + destruct (String.eqb k' k) eqn:Heq; [|by apply IH].
      apply String.eqb_eq in Heq. subst k'. exfalso. apply Hk'.
      apply list_elem_of_In. apply (List.in_map fst) in Hin. exact Hin.
  - intros k. clear Hnodup. induction md as [|[k' v'] md IH]; intros Hk; [done|].
    simpl. rewrite (attribute_value_cons k _ (k', v')). simpl.
    destruct (String.eqb k' k) eqn:Heq.
    + apply String.eqb_eq in Heq. subst k'. exfalso. apply Hk. by left.
    + apply IH. intros Hin. apply Hk. by right.
Qed.

Lemma metadata_table_round_trip_witness :
  let md := NeonToSheetsSync.final_metadata (Scenario.calm Scenario.users_rows)
              (mkDatetime 2024 5 6 7 8 9 0) 3 in
  length (GoogleSheetsConnection.sync_info md) = 5
  /\ attributes (GoogleSheetsConnection.sync_info md)
     = ["Last Sync Time"; "Source Table"; "Total Syncs Completed"; "Status"]
  /\ attribute_value "Total Syncs Completed" (GoogleSheetsConnection.sync_info md)
     = Some "3"
  /\ attribute_value "Sync Type" (GoogleSheetsConnection.sync_info md) = None.
Proof.
  intros md.
  destruct (metadata_table_round_trip md) as (H1 & H2 & H3 & H4).
  { apply (bool_decide_unpack _). vm_compute. exact I. }
  split; [exact H1|]. split; [exact H2|]. split.
  - apply (H3 "Total Syncs Completed" (VInt 3)). vm_compute. tauto.
  - apply H4. vm_compute. intuition discriminate.
Defined.

(** ** The environment *)

Section Environment.
Import GoogleSheetsConnection Config.

Lemma env_truthy_true o :
  env_truthy o = true <-> exists s, o = Some s /\ s <> EmptyString.
Proof.
  unfold env_truthy. destruct o as [s|].
  - rewrite negb_true_iff, String.eqb_neq. split; [by eauto|].
    by intros (s' & [= <-] & Hs).
  - split; [done|]. by intros (s & [=] & _).
Qed.

Lemma env_truthy_false o :
  env_truthy o = false <-> o = None \/ o = Some EmptyString.
Proof.
  unfold env_truthy. destruct o as [s|].
  - rewrite negb_false_iff, String.eqb_eq. split; [intros ->; by right|].
    by intros [[=]|[= ->]].
  - split; [by left|done].
Qed.

Lemma validate_environment_true env :
  validate_environment env = true
  <-> forall v, v ∈ required_vars -> env_truthy (getenv env v) = true.
Proof.
  unfold validate_environment. cbv zeta.
  generalize required_vars. intros l.
  induction l as [|x l IH].
  - split; [|done]. intros _ v Hv. by apply elem_of_nil in Hv.
  - rewrite filter_cons. destruct (env_truthy (getenv env x)) eqn:Hx; simpl.
    + rewrite IH. split.
      * intros H v [->|Hv]%elem_of_cons; auto.
      * intros H v Hv. apply H. by right.
    + split; [done|]. intros H. specialize (H x). rewrite Hx in H.
      discriminate H. by left.
Qed.

End Environment.

(** X8.  When [validate_environment] passes, each of the eight required
    variables is set to a non-empty string.  The table name is then a
    string, and the spreadsheet is named after [SPREADSHEET_NAME] when
    that is set and not empty and after the table otherwise: the fixed
    default name is not used, and the name is never empty. *)
Theorem validated_environment_names (env : Env) :
  Config.validate_environment env = true ->
  (forall v, v ∈ Config.required_vars ->
             exists s, getenv env v = Some s /\ s <> EmptyString)
  /\ exists t,
       getenv env "TABLE_NAME" = Some t
       /\ t <> EmptyString
       /\ Config.table_name env = VStr t
       /\ GoogleSheetsConnection.spreadsheet_name env
          = match getenv env "SPREADSHEET_NAME" with
            | Some s => if String.eqb s EmptyString then t else s
            | None => t
            end
       /\ GoogleSheetsConnection.spreadsheet_name env <> EmptyString.
Proof.
  intros Hv. rewrite validate_environment_true in Hv.
  assert (forall v, v ∈ Config.required_vars ->
                    exists s, getenv env v = Some s /\ s <> EmptyString) as Hall.
  { intros v Hin. by apply env_truthy_true, Hv. }
  split; [done|].
  destruct (Hall "TABLE_NAME") as (t & Ht & Hne).
  { unfold Config.required_vars. repeat constructor. }
  exists t. split; [done|]. split; [done|].
  split; [unfold Config.table_name; by rewrite Ht|].
  assert (GoogleSheetsConnection.env_truthy (getenv env "TABLE_NAME") = true) as Htt
    by (apply env_truthy_true; eauto).
  unfold GoogleSheetsConnection.spreadsheet_name. rewrite Htt, Ht.
  destruct (getenv env "SPREADSHEET_NAME") as [s|] eqn:Hs; simpl; [|done].
  destruct (String.eqb s EmptyString) eqn:Heq; simpl; [done|].
  split; [done|]. by apply String.eqb_neq.
Qed.

Lemma validated_environment_names_witness :
  let env := Scenario.calm Scenario.users_rows in
  Config.table_name env = VStr "users"
  /\ GoogleSheetsConnection.spreadsheet_name env = "users".
Proof.
  intros env.
  destruct (validated_environment_names env) as (_ & t & Ht & _ & Hname & Hsp & _);
    [vm_compute; reflexivity|].
  injection Ht as <-. by split.
Defined.

(** X9.  With one of the required variables unset or empty, neither mode
    goes further than the check: [sync_data] and [start_continuous_sync]
    return [False] at once, having made no call and changed nothing. *)
Theorem missing_variable_makes_no_call
    (env : Env) (v : string) (fuel : nat) (st : State) :
  v ∈ Config.required_vars ->
  getenv env v = None \/ getenv env v = Some EmptyString ->
  Config.validate_environment env = false
  /\ OneTimeSyncToSheets.sync_data env st = (Return false, st)
  /\ NeonToSheetsSync.start_continuous_sync env fuel st = (Return (Some false), st).
Proof.
  intros Hin Hv.
  assert (Config.validate_environment env = false) as Hfalse.
  { destruct (Config.validate_environment env) eqn:Hval; [|done].
    rewrite validate_environment_true in Hval. specialize (Hval v Hin).
    apply env_truthy_false in Hv. congruence. }
  split; [done|].
  unfold OneTimeSyncToSheets.sync_data, NeonToSheetsSync.start_continuous_sync.
  by rewrite Hfalse.
Qed.

Lemma missing_variable_makes_no_call_witness :
  let env := Scenario.unconfigured Scenario.users_rows in
  Config.validate_environment env = false
  /\ OneTimeSyncToSheets.sync_data env Scenario.fresh = (Return false, Scenario.fresh)
  /\ NeonToSheetsSync.start_continuous_sync env 5 Scenario.fresh
     = (Return (Some false), Scenario.fresh).
Proof.
  intros env.
  apply (missing_variable_makes_no_call env "CLIENT_SECRET" 5 Scenario.fresh).
  - unfold Config.required_vars. repeat constructor.
  - right. reflexivity.
Defined.

(** ** Queries and the connection *)

Section Queries.
Import DatabaseConnection.
Variable env : Env.

Lemma query_database_keeps_connection query params st :
  keeps_connection st (snd (query_database env query params st)).
Proof.
  apply (query_database_preserves env keeps_connection (fun _ => true));
    unfold keeps_connection; try done.
  - auto.
  - intros d st0. by rewrite elapse_connection.
Qed.

Lemma query_database_with_connection query params st :
  is_Some (connection st) ->
  query_database env query params st = query_database_try env query params false st.
Proof.
  intros [conn Hc]. unfold query_database. mrun. rewrite Hc. by mrun.
Qed.

(** With [need_to_disconnect] set, the [finally] clause closes the
    connection, whatever the [try] statement has come to. *)
Lemma query_database_try_disconnects query params st :
  is_Some (connection st) ->
  query_database_try env query params true st
  = let r := query_database_try env query params false st in
    (fst r, set_connection (Some (mkPgConnection true)) (called env EPgClose (snd r))).
Proof.
  intros Hc. cbv zeta.
  pose proof (query_database_keeps_connection query params st Hc) as [conn Hc'].
  rewrite (query_database_with_connection _ _ _ Hc) in Hc'.
  unfold query_database_try in *. rewrite !try_finally_eq in *. cbn [snd] in *.
  set (m := try_except _ _) in *. rewrite ret_eq in *. cbn [fst snd] in *.
  by rewrite (disconnect_eq env _ conn).
Qed.

Lemma query_database_without_connection query params st :
  connection st = None ->
  query_database env query params st
  = if pg_reachable env (clock st) then
      let st0 := set_connection (Some (mkPgConnection false)) (called env EPgConnect st) in
      let r := query_database env query params st0 in
      (fst r, set_connection (Some (mkPgConnection true)) (called env EPgClose (snd r)))
    else (Return QNone, called env EPgConnect st).
Proof.
  intros Hc. unfold query_database at 1. mrun. rewrite Hc. mrun.
  rewrite connect_eq. destruct (pg_reachable env (clock st)); cbv beta iota; mrun; [|done].
  cbv zeta. rewrite query_database_try_disconnects by (by eexists).
  by rewrite <- query_database_with_connection by (by eexists).
Qed.

End Queries.

(** X10.  [query_database] called on an object that has no connection
    yet.  When the server cannot be reached it returns [None] after the
    one attempt to connect: no statement is sent and there is still no
    connection.  Otherwise it opens a connection, comes to what the same
    call comes to on that open connection, and closes the connection
    before it returns or raises: the object keeps the closed
    connection. *)
Theorem query_database_connects_and_closes
    (env : Env) (query : string) (params : list value) (st : State) :
  connection st = None ->
  let r := DatabaseConnection.query_database env query params st in
  (pg_reachable env (clock st) = false ->
   r = (Return DatabaseConnection.QNone, called env EPgConnect st)
   /\ connection (snd r) = None)
  /\ (pg_reachable env (clock st) = true ->
      let st0 :=
        set_connection (Some (mkPgConnection false)) (called env EPgConnect st) in
      let r0 := DatabaseConnection.query_database env query params st0 in
      fst r = fst r0
      /\ snd r = set_connection (Some (mkPgConnection true))
                   (called env EPgClose (snd r0))
      /\ released (snd r)).
Proof.
  intros Hc r. unfold r. rewrite query_database_without_connection by done.
  split; intros Hreach; rewrite Hreach.
  - split; [done|]. cbn [snd]. by rewrite called_connection.
  - cbv zeta. cbn [fst snd]. by repeat split.
Qed.

Lemma query_database_connects_and_closes_witness :
  (let r := DatabaseConnection.query_database Scenario.offline
              DatabaseConnection.exists_query [VStr "users"] Scenario.fresh in
   r = (Return DatabaseConnection.QNone, called Scenario.offline EPgConnect Scenario.fresh)
   /\ connection (snd r) = None)
  /\ (let env := Scenario.calm Scenario.users_rows in
      let r := DatabaseConnection.query_database env
                 DatabaseConnection.exists_query [VStr "users"] Scenario.fresh in
      fst r = Return (DatabaseConnection.QRows [[("exists", VBool true)]])
      /\ released (snd r)).
Proof.
  split.
  - apply (query_database_connects_and_closes Scenario.offline
             DatabaseConnection.exists_query [VStr "users"] Scenario.fresh);
      reflexivity.
  - intros env r.
    destruct (proj2 (query_database_connects_and_closes env
                       DatabaseConnection.exists_query [VStr "users"] Scenario.fresh
                       eq_refl) eq_refl) as (H1 & _ & H3).
    split; [|exact H3]. etransitivity; [exact H1|]. vm_compute; reflexivity.
Defined.

(** X11.  [query_database] decides from the text of the statement whether
    to fetch rows.  A statement whose text passes the test, because it
    starts with SELECT, leading blanks and case apart, or because
    RETURNING stands anywhere in it, in any case, and for which the
    server has no result set, is executed, then rolled back when
    [fetchall] raises, and the method returns [None].  A statement in
    ASCII whose text does not pass the test is committed and gives
    [True].  The connection stays open. *)
Theorem statement_without_rows_is_rolled_back
    (env : Env) (query : string) (params : list value) (st : State) :
  connection st = Some (mkPgConnection false) ->
  pg_answer env (clock (called env EPgCursor st)) query params = ExecDone ->
  let st2 := called env (EPgExecute query params) (called env EPgCursor st) in
  (startswith "SELECT" (upper (strip query)) = true
   \/ contains "RETURNING" (upper query) = true ->
   DatabaseConnection.query_database env query params st
   = (Return DatabaseConnection.QNone,
      called env EPgRollback (called env EPgFetchall st2)))
  /\ (isascii query = true ->
      startswith "SELECT" (upper (strip query)) = false ->
      contains "RETURNING" (upper query) = false ->
      DatabaseConnection.query_database env query params st
      = (Return DatabaseConnection.QTrue, called env EPgCommit st2))
  /\ connection (snd (DatabaseConnection.query_database env query params st))
     = Some (mkPgConnection false).
Proof.
  intros Hc Hans st2.
  rewrite (query_database_on_open_connection env query params st Hc). cbv zeta.
  rewrite Hans. fold st2. unfold DatabaseConnection.is_select_or_returning.
  split; [|split].
  - intros [H|H]; rewrite H; [done|]. by rewrite orb_true_r.
  - by intros _ -> ->.
  - destruct (_ || _); cbn [snd]; subst st2; by rewrite !called_connection.
Qed.

Lemma statement_without_rows_is_rolled_back_witness :
  let env := Scenario.accepting in
  let st := set_connection (Some (mkPgConnection false)) Scenario.fresh in
  let q := "update users set note = 'returning customer' where id = 7" in
  let q' := "update users set note = 'new customer' where id = 7" in
  DatabaseConnection.query_database env q [] st
  = (Return DatabaseConnection.QNone,
     called env EPgRollback
       (called env EPgFetchall
          (called env (EPgExecute q []) (called env EPgCursor st))))
  /\ DatabaseConnection.query_database env q' [] st
     = (Return DatabaseConnection.QTrue,
        called env EPgCommit
          (called env (EPgExecute q' []) (called env EPgCursor st))).
Proof.
  intros env st q q'. split.
  - apply (statement_without_rows_is_rolled_back env q [] st);
      [reflexivity | reflexivity | right; reflexivity].
  - apply (statement_without_rows_is_rolled_back env q' [] st); reflexivity.
Defined.

(** X12.  [table_exists] on an open connection: it returns the value of
    the column "exists" of the first row the server answers, [False] when
    the server answers no row, and [False], after a rollback, when the
    server rejects the statement.  In each case the name travels as the
    one parameter of the statement and the connection stays open. *)
Theorem table_exists_on_open_connection
    (env : Env) (name : value) (st : State) :
  connection st = Some (mkPgConnection false) ->
  let q := DatabaseConnection.exists_query in
  let st1 := called env EPgCursor st in
  let st2 := called env (EPgExecute q [name]) st1 in
  let r := DatabaseConnection.table_exists env name st in
  (forall v rows,
     pg_answer env (clock st1) q [name] = ExecRows ["exists"] ([v] :: rows) ->
     r = (Return v, called env EPgCommit (called env EPgFetchall st2)))
  /\ (forall d,
        pg_answer env (clock st1) q [name] = ExecRows d [] ->
        r = (Return (VBool false), called env EPgCommit (called env EPgFetchall st2)))
  /\ (pg_answer env (clock st1) q [name] = ExecError ->
      r = (Return (VBool false), called env EPgRollback st2))
  /\ (pg_answer env (clock st1) q [name] <> ExecLost ->
      connection (snd r) = Some (mkPgConnection false)).
Proof.
  intros Hc q st1 st2 r.
  assert (DatabaseConnection.is_select_or_returning q = true) as Hsel
    by (vm_compute; reflexivity).
  subst q st1 st2 r.
  unfold DatabaseConnection.table_exists. rewrite bind_eq.
  rewrite (query_database_on_open_connection env _ [name] st Hc). cbv zeta.
  rewrite Hsel.
  split; [|split; [|split]].
  - intros v rows ->. cbv beta iota. by destruct rows.
  - intros d ->. done.
  - intros ->. done.
  - intros Hlost.
    destruct (pg_answer env _ _ [name]) as [d rows| | |];
      cbv beta iota; [| | |done].
    + destruct (DatabaseConnection.dicts d rows) as [|row rows'];
        unfold DatabaseConnection.first_exists;
        [|destruct (List.find _ row) as [[k v]|]];
        unfold ret, raise; cbn [snd]; by rewrite !called_connection.
    + unfold ret. cbn [snd]. by rewrite !called_connection.
    + unfold ret. cbn [snd]. by rewrite !called_connection.
Qed.

Lemma table_exists_on_open_connection_witness :
  let env := Scenario.calm Scenario.users_rows in
  let st := set_connection (Some (mkPgConnection false)) Scenario.fresh in
  fst (DatabaseConnection.table_exists env (VStr "users") st) = Return (VBool true)
  /\ connection (snd (DatabaseConnection.table_exists env (VStr "users") st))
     = Some (mkPgConnection false).
Proof.
  intros env st.
  destruct (table_exists_on_open_connection env (VStr "users") st eq_refl)
    as (H1 & _ & _ & H4).
  split.
  - by rewrite (H1 (VBool true) [] eq_refl).
  - apply H4. vm_compute. discriminate.
Defined.

Section ConnectionKept.
Variable env : Env.

Lemma fetch_all_frame_open name s d :
  connection s = Some (mkPgConnection false) ->
  read_frame (fetch_all env name s) = Some d ->
  connection (snd (fetch_all env name s)) = Some (mkPgConnection false).
Proof.
  intros Hs. unfold read_frame, fetch_all. cbv zeta.
  destruct (pg_answer env _ _ _); cbn [fst snd]; try done.
  intros _. by rewrite !called_connection.
Qed.

Lemma get_table_data_frame_open name st d :
  read_frame (DatabaseConnection.get_table_data env name st) = Some d ->
  connection (snd (DatabaseConnection.get_table_data env name st))
  = Some (mkPgConnection false).
Proof.
  rewrite get_table_data_eq. unfold ensure_connection.
  destruct (connection st) as [[[|]]|] eqn:Hc.
  - destruct (pg_reachable env (clock st)); [|done]. by apply fetch_all_frame_open.
  - by apply fetch_all_frame_open.
  - destruct (pg_reachable env (clock st)); [|done]. by apply fetch_all_frame_open.
Qed.

Lemma update_data_worksheet_connection d name st :
  connection (snd (GoogleSheetsConnection.update_data_worksheet env d name st))
  = connection st.
Proof.
  apply (update_data_worksheet_preserves env
           (fun st st' => connection st' = connection st) (fun _ => true));
    try done.
  - intros a b c H1 H2. congruence.
  - intros t st0. apply elapse_connection.
Qed.

End ConnectionKept.

(** X13.  [get_table_data] never raises.  On an open connection it reads
    at once; on a closed connection, or with none, it connects first, and
    returns [None] after that one attempt when the server cannot be
    reached.  When it returns a frame, the connection is open afterwards:
    the method never closes it. *)
Theorem get_table_data_reconnects (env : Env) (name : value) (st : State) :
  let r := DatabaseConnection.get_table_data env name st in
  fst r = Return (read_frame r)
  /\ (connection st = Some (mkPgConnection false) -> r = fetch_all env name st)
  /\ (connection st <> Some (mkPgConnection false) ->
      r = if pg_reachable env (clock st)
          then fetch_all env name
                 (set_connection (Some (mkPgConnection false))
                    (called env EPgConnect st))
          else (Return None, called env EPgConnect st))
  /\ (forall d, read_frame r = Some d ->
                connection (snd r) = Some (mkPgConnection false)).
Proof.
  intros r. split; [apply get_table_data_returns|].
  split; [|split; [|intros d; by apply get_table_data_frame_open]];
    unfold r; rewrite get_table_data_eq; unfold ensure_connection.
  - by intros ->.
  - intros Hc. destruct (connection st) as [[[|]]|]; [|done|];
      by destruct (pg_reachable env (clock st)).
Qed.

Lemma get_table_data_reconnects_witness :
  let env := Scenario.calm Scenario.users_rows in
  let st1 := snd (DatabaseConnection.disconnect env Scenario.connected) in
  let r := DatabaseConnection.get_table_data env (VStr "users") st1 in
  released st1
  /\ fst r = Return (Some Scenario.users_df)
  /\ r = fetch_all env (VStr "users")
          (set_connection (Some (mkPgConnection false)) (called env EPgConnect st1))
  /\ connection (snd r) = Some (mkPgConnection false).
Proof.
  intros env st1 r.
  destruct (get_table_data_reconnects env (VStr "users") st1) as (H1 & _ & H3 & H4).
  assert (read_frame r = Some Scenario.users_df) as Hread by (vm_compute; reflexivity).
  split; [vm_compute; reflexivity|].
  split; [etransitivity; [exact H1|]; f_equal; exact Hread|].
  split; [|by apply (H4 Scenario.users_df)].
  etransitivity; [apply H3; vm_compute; discriminate|]. reflexivity.
Defined.

(** X14.  Neither mode closes the database connection after a cycle that
    has succeeded: the connection is open when the cycle returns [True],
    and one-time [sync_data], which ends there, returns [True] with the
    connection still open. *)
Theorem successful_sync_leaves_connection_open
    (mode : sync_mode) (env : Env) (st st' : State) :
  cycle mode env st = (Return true, st') \/
  OneTimeSyncToSheets.sync_data env st = (Return true, st') ->
  connection st' = Some (mkPgConnection false).
Proof.
  assert (forall m s s', cycle m env s = (Return true, s') ->
                         connection s' = Some (mkPgConnection false)) as Hcycle.
  { intros m s s'. rewrite cycle_eq. cbv zeta.
    pose proof (get_table_data_frame_open env (Config.table_name env) s) as Hopen.
    destruct (read_frame _) as [d|]; [|by intros [=]].
    destruct (len d =? 0); [by intros [=]|].
    destruct (succeeded _); [|by intros [=]].
    intros [= _ <-].
    rewrite update_metadata_worksheet_connection, update_data_worksheet_connection.
    by apply (Hopen d). }
  intros [H|H]; [by eapply Hcycle|].
  unfold OneTimeSyncToSheets.sync_data in H.
  destruct (Config.validate_environment env); cbn [negb] in H; [|by simplify_eq].
  rewrite bind_eq in H.
  destruct (OneTimeSyncToSheets.connect_to_services env st) as [[[|]|e] st1];
    cbn [negb] in H; [|by simplify_eq|by simplify_eq].
  rewrite bind_eq in H.
  destruct (OneTimeSyncToSheets.download_and_upload_data env st1) as [[[|]|e] st2] eqn:Hd;
    cbn [negb] in H; [|by simplify_eq|by simplify_eq].
  injection H as <-. by apply (Hcycle OneTime st1).
Qed.

Lemma successful_sync_leaves_connection_open_witness :
  let r := OneTimeSyncToSheets.sync_data (Scenario.calm Scenario.users_rows)
             Scenario.fresh in
  fst r = Return true /\ connection (snd r) = Some (mkPgConnection false).
Proof.
  intros r. split; [vm_compute; reflexivity|].
  apply (successful_sync_leaves_connection_open OneTime
           (Scenario.calm Scenario.users_rows) Scenario.fresh (snd r)).
  right. vm_compute; reflexivity.
Defined.

(** ** Counting rows *)

Section Strings.

Lemma string_app_cons x (a b : string) : String x a +:+ b = String x (a +:+ b).
Proof. reflexivity. Qed.

Lemma string_app_nil (b : string) : EmptyString +:+ b = b.
Proof. reflexivity. Qed.

Lemma string_app_assoc (a b c : string) : (a +:+ b) +:+ c = a +:+ (b +:+ c).
Proof.
  induction a as [|x a IH]; [done|]. rewrite !string_app_cons. by f_equal.
Qed.

Lemma rev_app_app s1 s2 acc :
  String.rev_app (s1 +:+ s2) acc = String.rev_app s2 (String.rev_app s1 acc).
Proof.
  revert acc. induction s1 as [|x s1 IH]; intros acc; [done|].
  rewrite string_app_cons. simpl. apply IH.
Qed.

Lemma rev_app_acc s acc : String.rev_app s acc = String.rev s +:+ acc.
Proof.
  unfold String.rev. revert acc. induction s as [|x s IH]; intros acc; simpl; [done|].
  rewrite (IH (String x EmptyString)), IH, string_app_assoc. done.
Qed.

Lemma rev_snoc s c : String.rev (s +:+ String c EmptyString) = String c (String.rev s).
Proof. unfold String.rev. by rewrite rev_app_app. Qed.

Lemma rev_cons c s : String.rev (String c s) = String.rev s +:+ String c EmptyString.
Proof. unfold String.rev at 1. simpl. apply rev_app_acc. Qed.

Lemma rev_rev s : String.rev (String.rev s) = s.
Proof.
  induction s as [|x s IH]; [done|]. by rewrite rev_cons, rev_snoc, IH.
Qed.

(** Text that ends in a character that is no blank has nothing to strip
    at its end. *)
Lemma rstrip_snoc s c :
  is_space c = false -> rstrip (s +:+ String c EmptyString) = s +:+ String c EmptyString.
Proof.
  intros Hc. unfold rstrip. rewrite rev_snoc. simpl. rewrite Hc.
  by rewrite rev_cons, rev_rev.
Qed.

Lemma row_count_query_is_select name :
  DatabaseConnection.is_select_or_returning (DatabaseConnection.row_count_query name)
  = true.
Proof.
  unfold DatabaseConnection.is_select_or_returning, DatabaseConnection.row_count_query.
  rewrite <- !string_app_assoc.
  unfold strip.
  match goal with
  | |- context [lstrip (?t +:+ ";")] =>
      assert (lstrip (t +:+ ";") = t +:+ ";") as -> by reflexivity;
      rewrite (rstrip_snoc t ";"%char) by reflexivity
  end.
  rewrite !string_app_assoc. reflexivity.
Qed.

End Strings.

(** X15.  [get_row_count] on an open connection.  The statement carries
    the table name in its text, between double quotes, and no parameter;
    whatever the name, the text starts with SELECT, so the rows are always
    fetched.  The method returns the column "row_count" of the first row,
    and [None] when the server rejects the statement, has no result set
    for it or answers no row. *)
Theorem get_row_count_on_open_connection
    (env : Env) (name : value) (st : State) :
  connection st = Some (mkPgConnection false) ->
  let q := DatabaseConnection.row_count_query name in
  let st1 := called env EPgCursor st in
  let st2 := called env (EPgExecute q []) st1 in
  let r := DatabaseConnection.get_row_count env name st in
  DatabaseConnection.is_select_or_returning q = true
  /\ (forall v rows,
        pg_answer env (clock st1) q [] = ExecRows ["row_count"] ([v] :: rows) ->
        r = (Return (Some v), called env EPgCommit (called env EPgFetchall st2)))
  /\ (pg_answer env (clock st1) q [] = ExecError
      \/ pg_answer env (clock st1) q [] = ExecDone
      \/ (exists d, pg_answer env (clock st1) q [] = ExecRows d []) ->
      fst r = Return None).
Proof.
  intros Hc q st1 st2 r.
  pose proof (row_count_query_is_select name) as Hsel. fold q in Hsel.
  split; [done|].
  subst r st2 st1. unfold DatabaseConnection.get_row_count. rewrite bind_eq.
  fold q. rewrite (query_database_on_open_connection env q [] st Hc). cbv zeta.
  rewrite Hsel. split.
  - intros v rows ->. cbv beta iota. by destruct rows.
  - intros [->|[->|[d ->]]]; done.
Qed.

Lemma get_row_count_on_open_connection_witness :
  let env := Scenario.diagnostics Scenario.users_rows in
  fst (DatabaseConnection.get_row_count env (VStr "users") Scenario.connected)
  = Return (Some (VInt 2))
  /\ fst (DatabaseConnection.get_row_count env (VStr "ghosts") Scenario.connected)
     = Return None.
Proof.
  intros env. split.
  - destruct (get_row_count_on_open_connection env (VStr "users") Scenario.connected)
      as (_ & H & _); [vm_compute; reflexivity|].
    by rewrite (H (VInt 2) [] ltac:(vm_compute; reflexivity)).
  - destruct (get_row_count_on_open_connection env (VStr "ghosts") Scenario.connected)
      as (_ & _ & H); [vm_compute; reflexivity|].
    apply H. left. vm_compute; reflexivity.
Defined.

(** ** The connection test *)

Section TestConnection.
Import DatabaseConnection.
Variable env : Env.

Lemma keeps_connection_refl st : keeps_connection st st.
Proof. by intros H. Qed.

Lemma keeps_connection_trans a b c :
  keeps_connection a b -> keeps_connection b c -> keeps_connection a c.
Proof. unfold keeps_connection. auto. Qed.

Ltac keeps :=
  unfold keeps_connection; try done;
  try (intros ? ? ? ? ?; by auto);
  try (intros ? ?; by rewrite elapse_connection).

Lemma connection_cursor_keeps : preserves keeps_connection (connection_cursor env).
Proof. apply (connection_cursor_preserves env keeps_connection (fun _ => true)); keeps. Qed.

Lemma cursor_execute_keeps q ps : preserves keeps_connection (cursor_execute env q ps).
Proof. apply (cursor_execute_preserves env keeps_connection (fun _ => true)); keeps. Qed.

Lemma cursor_fetchall_keeps cur : preserves keeps_connection (cursor_fetchall env cur).
Proof. apply (cursor_fetchall_preserves env keeps_connection (fun _ => true)); keeps. Qed.

Lemma subscript_keeps row key : preserves keeps_connection (subscript row key).
Proof.
  intros st. unfold subscript. destruct row as [d|]; [|apply keeps_connection_refl].
  destruct (List.find _ d) as [[k v]|]; apply keeps_connection_refl.
Qed.

Lemma cursor_fetchone_keeps cur : preserves keeps_connection (cursor_fetchone cur).
Proof.
  intros st. unfold cursor_fetchone.
  destruct cur as [[d [|row rows]]|]; apply keeps_connection_refl.
Qed.

Lemma print_tables_keeps tables : preserves keeps_connection (print_tables tables).
Proof.
  induction tables as [|t rest IH]; [apply preserves_ret, keeps_connection_refl|].
  change (print_tables (t :: rest))
    with (subscript (Some t) "table_name";; print_tables rest).
  apply preserves_bind; [apply keeps_connection_trans|apply subscript_keeps|done].
Qed.

(** [test_connection], with its [try] statement named. *)
Lemma test_connection_eq st :
  exists m : M bool,
    preserves keeps_connection m
    /\ (forall s, exists b, fst (m s) = Return b)
    /\ test_connection env st
       = if pg_reachable env (clock st) then
           let st0 :=
             set_connection (Some (mkPgConnection false)) (called env EPgConnect st) in
           (fst (m st0),
            set_connection (Some (mkPgConnection true))
              (called env EPgClose (snd (m st0))))
         else (Return false, called env EPgConnect st).
Proof.
  pose proof keeps_connection_refl as Hrefl.
  pose proof keeps_connection_trans as Htrans.
  unfold test_connection. rewrite bind_eq, connect_eq.
  match goal with
  | |- context [try_finally ?m (disconnect env)] => exists m
  end.
  split; [|split].
  - pose proof connection_cursor_keeps. pose proof cursor_execute_keeps.
    pose proof cursor_fetchall_keeps. pose proof subscript_keeps.
    pose proof cursor_fetchone_keeps. pose proof print_tables_keeps.
    repeat first
      [ done
      | apply preserves_ret; done
      | apply preserves_bind; [done| |intros ?; cbv beta]
      | apply preserves_try_except; [done| |intros ?; cbv beta] ].
  - intros s. rewrite try_except_eq.
    match goal with |- context [match ?x with _ => _ end] => destruct x as [[b|e] s1] end;
      by eexists.
  - destruct (pg_reachable env (clock st)); cbv beta iota; cbn [negb]; [|done].
    rewrite try_finally_eq.
    match goal with
    | |- context [disconnect env (snd (?m ?s0))] =>
        assert (is_Some (connection (snd (m s0)))) as [conn Hconn]
    end.
    { match goal with
      | |- is_Some (connection (snd (?m ?s0))) =>
          assert (preserves keeps_connection m) as Hm
      end.
      { pose proof connection_cursor_keeps. pose proof cursor_execute_keeps.
        pose proof cursor_fetchall_keeps. pose proof subscript_keeps.
        pose proof cursor_fetchone_keeps. pose proof print_tables_keeps.
        repeat first
          [ done
          | apply preserves_ret; done
          | apply preserves_bind; [done| |intros ?; cbv beta]
          | apply preserves_try_except; [done| |intros ?; cbv beta] ]. }
      apply Hm. by eexists. }
    by rewrite (disconnect_eq env _ conn Hconn).
Qed.

End TestConnection.

(** X16.  [test_connection] never raises.  When the server cannot be
    reached it returns [False] after the attempt to connect and closes
    nothing.  Otherwise, whatever its statements come to, it closes the
    connection before it returns and leaves the closed connection on the
    object: the next [table_exists] on the same object raises
    [InterfaceError]. *)
Theorem test_connection_closes (env : Env) (st : State) :
  let r := DatabaseConnection.test_connection env st in
  (exists b, fst r = Return b)
  /\ (pg_reachable env (clock st) = false ->
      r = (Return false, called env EPgConnect st))
  /\ (pg_reachable env (clock st) = true ->
      released (snd r)
      /\ forall name,
           fst (DatabaseConnection.table_exists env name (snd r))
           = Raise InterfaceError).
Proof.
  intros r. unfold r.
  destruct (test_connection_eq env st) as (m & Hm & Hret & ->).
  destruct (pg_reachable env (clock st)).
  - cbv zeta. cbn [fst snd]. split; [apply Hret|]. split; [done|]. intros _.
    split; [done|]. intros name. by apply table_exists_on_closed_connection.
  - split; [by eexists|]. by split.
Qed.

Lemma test_connection_closes_witness :
  let env := Scenario.diagnostics Scenario.users_rows in
  let r := DatabaseConnection.test_connection env Scenario.fresh in
  fst r = Return true
  /\ released (snd r)
  /\ fst (DatabaseConnection.table_exists env (VStr "users") (snd r))
     = Raise InterfaceError.
Proof.
  intros env r.
  destruct (test_connection_closes env Scenario.fresh) as (_ & _ & H).
  destruct (H eq_refl) as [H1 H2].
  split; [vm_compute; reflexivity|]. split; [exact H1|apply H2].
Defined.

(** ** What a cycle adds to the trace *)

Section TraceFrame.
Variable env : Env.
Variable P : event -> bool.
Hypothesis Hsignal : P (EPrint MsgSignal) = true.
Hypothesis Hconnect : P EPgConnect = true.
Hypothesis Hcursor : P EPgCursor = true.
Hypothesis Hfetchall : P EPgFetchall = true.

Lemma appends_refl st : appends P st st.
Proof. exists []. by rewrite app_nil_r. Qed.

Lemma appends_trans a b c : appends P a b -> appends P b c -> appends P a c.
Proof.
  intros (l1 & H1 & Hl1) (l2 & H2 & Hl2). exists (l1 ++ l2).
  rewrite H2, H1, <- app_assoc. split; [done|].
  by rewrite forallb_app, Hl1, Hl2.
Qed.

Lemma appends_same_trace st st' : trace st' = trace st -> appends P st st'.
Proof. intros H. exists []. by rewrite app_nil_r. Qed.

Lemma appends_elapse d st : appends P st (elapse env d st).
Proof.
  unfold appends. rewrite elapse_trace. eexists. split; [done|].
  destruct (due _ _ _); simpl; [by rewrite Hsignal|done].
Qed.

Lemma appends_log ev st : P ev = true -> appends P st (set_trace (trace st ++ [ev]) st).
Proof. intros Hev. exists [ev]. split; [done|]. simpl. by rewrite Hev. Qed.

Lemma external_appends ev : P ev = true -> preserves (appends P) (external env ev).
Proof.
  intros Hev st. rewrite external_eq. simpl. unfold called.
  eapply appends_trans; [by apply appends_log | apply appends_elapse].
Qed.

Ltac tframe :=
  pose proof appends_refl as Hrefl; pose proof appends_trans as Htrans;
  repeat first
    [ done
    | apply external_appends; assumption
    | apply preserves_ret; done
    | apply preserves_raise; done
    | apply preserves_gets; done
    | apply preserves_modify; intros ?; by apply appends_same_trace
    | match goal with
      | |- preserves _ (match ?x with _ => _ end) => destruct x
      | |- preserves _ (if ?x then _ else _) => destruct x
      end
    | apply preserves_bind; [done| |intros ?; cbv beta]
    | apply preserves_try_except; [done| |intros ?; cbv beta]
    | apply preserves_try_finally; [done| | ] ].

Import DatabaseConnection.

Lemma the_connection_appends : preserves (appends P) the_connection.
Proof. unfold the_connection. tframe. Qed.

Lemma connect_appends : preserves (appends P) (connect env).
Proof. unfold connect, psycopg2_connect. tframe. Qed.

Lemma get_table_data_appends name :
  P (EPgExecute (select_all_query name) []) = true ->
  preserves (appends P) (get_table_data env name).
Proof.
  intros Hexecute.
  pose proof the_connection_appends. pose proof connect_appends.
  unfold get_table_data, get_table_data_try, connection_cursor, cursor_execute,
    cursor_columns, cursor_fetchall.
  tframe.
Qed.

Hypothesis Hgs : forall ev, is_gs_event ev = true -> P ev = true.

Import GoogleSheetsConnection.

Ltac gframe :=
  pose proof appends_refl as Hrefl; pose proof appends_trans as Htrans;
  repeat first
    [ done
    | apply external_appends; first [apply Hgs; reflexivity | assumption]
    | apply preserves_ret; done
    | apply preserves_raise; done
    | apply preserves_gets; done
    | apply preserves_modify; intros ?; by apply appends_same_trace
    | match goal with
      | |- preserves _ (match ?x with _ => _ end) => destruct x
      | |- preserves _ (if ?x then _ else _) => destruct x
      end
    | apply preserves_bind; [done| |intros ?; cbv beta]
    | apply preserves_try_except; [done| |intros ?; cbv beta]
    | apply preserves_try_finally; [done| | ] ].

Lemma spreadsheet_worksheet_appends title :
  preserves (appends P) (spreadsheet_worksheet env title).
Proof. unfold spreadsheet_worksheet, the_spreadsheet. gframe. Qed.

Lemma spreadsheet_add_worksheet_appends title rows cols :
  preserves (appends P) (spreadsheet_add_worksheet env title rows cols).
Proof. unfold spreadsheet_add_worksheet, the_spreadsheet. gframe. Qed.

Lemma get_or_create_worksheet_appends name rows cols :
  preserves (appends P) (get_or_create_worksheet env name rows cols).
Proof.
  intros st. unfold get_or_create_worksheet.
  pose proof (spreadsheet_worksheet_appends name st) as H1.
  destruct (spreadsheet_worksheet env name st) as [[w|e] st1]; simpl in *; [done|].
  pose proof (spreadsheet_add_worksheet_appends name rows cols st1) as H2.
  destruct e; simpl; try done.
  rewrite bind_eq.
  destruct (spreadsheet_add_worksheet env name rows cols st1) as [[w|e] st2];
    simpl in *; by eapply appends_trans.
Qed.

Lemma update_worksheet_data_appends w data :
  preserves (appends P) (update_worksheet_data env w data).
Proof.
  unfold update_worksheet_data, worksheet_clear, worksheet_update, write_cells. gframe.
Qed.

Lemma update_data_worksheet_appends d name :
  preserves (appends P) (update_data_worksheet env d name).
Proof.
  pose proof get_or_create_worksheet_appends. pose proof update_worksheet_data_appends.
  unfold update_data_worksheet. gframe.
Qed.

Lemma update_metadata_worksheet_appends md :
  preserves (appends P) (update_metadata_worksheet env md).
Proof.
  pose proof get_or_create_worksheet_appends. pose proof update_worksheet_data_appends.
  unfold update_metadata_worksheet. gframe.
Qed.

Lemma cycle_appends mode :
  P (EPgExecute (select_all_query (Config.table_name env)) []) = true ->
  preserves (appends P) (cycle mode env).
Proof.
  intros Hexecute.
  pose proof (get_table_data_appends _ Hexecute).
  pose proof update_data_worksheet_appends.
  pose proof update_metadata_worksheet_appends.
  destruct mode; unfold cycle, NeonToSheetsSync.perform_sync_cycle,
    OneTimeSyncToSheets.download_and_upload_data, datetime_now; cbv zeta; gframe.
Qed.

End TraceFrame.

(** X17.  What a cycle does, in either mode, to the outside: it connects,
    opens a cursor, sends one kind of statement, the selection of the
    whole table, with no parameter, fetches, and calls the spreadsheet
    service.  It never sleeps, so a failed read or write is not retried
    after a pause, and it never commits, rolls back or closes the
    connection. *)
Theorem cycle_calls (mode : sync_mode) (env : Env) (st : State) :
  exists l,
    trace (snd (cycle mode env st)) = trace st ++ l
    /\ forallb (is_cycle_event env) l = true
    /\ (forall query params,
          In (EPgExecute query params) l ->
          query = DatabaseConnection.select_all_query (Config.table_name env)
          /\ params = [])
    /\ (forall n, ~ In (ESleep n) l)
    /\ ~ In EPgCommit l /\ ~ In EPgRollback l /\ ~ In EPgClose l.
Proof.
  destruct (cycle_appends env (is_cycle_event env) eq_refl eq_refl eq_refl eq_refl
              ltac:(by intros [] H) mode
              ltac:(by simpl; rewrite String.eqb_refl) st)
    as (l & Hl & Hall).
  exists l. split; [done|]. split; [done|].
  rewrite forallb_forall in Hall.
  split;
    [|repeat split; unfold not; intros;
      match goal with H : In _ l |- _ => by apply Hall in H end].
  intros query params Hin. apply Hall in Hin. simpl in Hin.
  apply andb_true_iff in Hin as [Hq Hp]. apply String.eqb_eq in Hq.
  by destruct params.
Qed.

(** ** Rounds of the loop *)

Section Rounds.
Import NeonToSheetsSync.
Variable env : Env.

Lemma perform_sync_cycle_sync_count st :
  sync_count (snd (perform_sync_cycle env st)) = sync_count st.
Proof.
  apply (perform_sync_cycle_preserves env
           (fun st st' => sync_count st' = sync_count st) (fun _ => true)); try done.
  - intros a b c H1 H2. congruence.
  - intros d st0. unfold elapse. by destruct (due _ _ _).
Qed.

Lemma waited_sync_count n st : sync_count (waited env n st) = sync_count st.
Proof.
  revert st. induction n as [|n IH]; intros st; simpl; [done|].
  destruct (is_running st); [|done]. rewrite IH. unfold slept, elapse.
  by destruct (due _ _ _).
Qed.

Lemma loop_body_sync_count st :
  sync_count (snd (loop_body env st))
  = if is_running (waited env (interval_seconds env) st)
    then sync_count st + 1 else sync_count st.
Proof.
  rewrite loop_body_eq. cbv zeta.
  destruct (is_running (waited env (interval_seconds env) st)); cbn [snd].
  - change (sync_count (logged ?ev ?s)) with (sync_count s).
    rewrite perform_sync_cycle_sync_count. simpl. by rewrite waited_sync_count.
  - apply waited_sync_count.
Qed.

End Rounds.

(** X18.  The counter behind "Total Syncs Completed" counts the cycles
    that were started, not those that succeeded: a round that reaches its
    cycle adds one whatever the cycle returns, so with no signal the
    counter has grown by the number of rounds, and the shutdown asks for
    the counter to be written as it stands. *)
Theorem failed_cycles_are_counted (env : Env) (fuel : nat) (st : State) :
  signal_at env = None ->
  is_running st = true ->
  sync_count (snd (NeonToSheetsSync.sync_loop env fuel st)) = sync_count st + fuel
  /\ (forall st0,
        sync_count (snd (NeonToSheetsSync.loop_body env st0))
        = if is_running (waited env (interval_seconds env) st0)
          then sync_count st0 + 1 else sync_count st0)
  /\ (forall st0 st',
        NeonToSheetsSync.shutdown env st0 = (Return true, st') ->
        exists t md_state,
          st' = logged (EPrint MsgStopped)
                  (snd (GoogleSheetsConnection.update_metadata_worksheet env
                          (NeonToSheetsSync.final_metadata env t (sync_count st0))
                          md_state))
          /\ attribute_value "Total Syncs Completed"
               (GoogleSheetsConnection.sync_info
                  (NeonToSheetsSync.final_metadata env t (sync_count st0)))
             = Some (str_int (Z.of_nat (sync_count st0)))).
Proof.
  intros Hs Hrun. split; [|split].
  - revert st Hrun. induction fuel as [|fuel IH]; intros st Hrun;
      rewrite sync_loop_eq, Hrun; [simpl; lia|].
    rewrite loop_body_eq. cbv zeta.
    rewrite (waited_keeps_running env _ st Hs Hrun).
    rewrite IH.
    + change (sync_count (logged ?ev ?s)) with (sync_count s).
      rewrite perform_sync_cycle_sync_count.
      change (sync_count (round_start ?s)) with (sync_count s + 1).
      rewrite waited_sync_count. lia.
    + change (is_running (logged ?ev ?s)) with (is_running s).
      apply perform_sync_cycle_keeps_running; [done|].
      change (is_running (round_start ?s)) with (is_running s).
      by apply waited_keeps_running.
  - apply loop_body_sync_count.
  - intros st0 st' H. rewrite shutdown_eq in H. cbv zeta in H.
    apply (f_equal snd) in H. cbn [snd] in H. subst st'.
    set (st2 := match connection st0 with
                | Some _ => set_connection (Some (mkPgConnection true))
                              (called env EPgClose (logged (EPrint MsgShuttingDown) st0))
                | None => logged (EPrint MsgShuttingDown) st0
                end).
    assert (sync_count st2 = sync_count st0) as ->.
    { unfold st2. destruct (connection st0); [|done].
      change (sync_count (set_connection ?c ?s)) with (sync_count s).
      by rewrite called_sync_count. }
    exists (now env (clock st2)), st2. split; [done|]. reflexivity.
Qed.

Lemma failed_cycles_are_counted_witness :
  let env := Scenario.endless [] in
  let st := set_sync_count 1 Scenario.connected in
  fst (NeonToSheetsSync.perform_sync_cycle env (round_start st)) = Return false
  /\ sync_count (snd (NeonToSheetsSync.sync_loop env 3 st)) = 4.
Proof.
  intros env st. split; [vm_compute; reflexivity|].
  destruct (failed_cycles_are_counted env 3 st) as (H & _ & _);
    [reflexivity | vm_compute; reflexivity |].
  exact H.
Defined.

(** X19.  With [SYNC_INTERVAL_MINUTES] at zero or below there is no wait
    at all: [range(self.sync_interval)] is empty, a round goes straight
    to its cycle without sleeping, and the rounds follow each other back
    to back. *)
Theorem zero_interval_never_waits (env : Env) (fuel : nat) (st : State) :
  (sync_interval_minutes env <= 0)%Z ->
  is_running st = true ->
  let r := NeonToSheetsSync.perform_sync_cycle env (round_start st) in
  interval_seconds env = 0
  /\ NeonToSheetsSync.loop_body env st
     = (Return false, logged (round_report (succeeded r) (sync_count st + 1)) (snd r))
  /\ NeonToSheetsSync.sync_loop env (S fuel) st
     = NeonToSheetsSync.sync_loop env fuel
         (logged (round_report (succeeded r) (sync_count st + 1)) (snd r)).
Proof.
  intros Hle Hrun r.
  assert (interval_seconds env = 0) as Hzero.
  { unfold interval_seconds, Config.sync_interval. lia. }
  split; [done|].
  assert (NeonToSheetsSync.loop_body env st
          = (Return false,
             logged (round_report (succeeded r) (sync_count st + 1)) (snd r))) as Hbody.
  { rewrite loop_body_eq, Hzero. cbv zeta. simpl waited. by rewrite Hrun. }
  split; [done|]. by rewrite sync_loop_eq, Hrun, Hbody.
Qed.

Lemma zero_interval_never_waits_witness :
  let env := Scenario.hasty Scenario.users_rows in
  let r := NeonToSheetsSync.perform_sync_cycle env (round_start Scenario.connected) in
  NeonToSheetsSync.loop_body env Scenario.connected
  = (Return false,
     logged (round_report (succeeded r) (sync_count Scenario.connected + 1)) (snd r)).
Proof.
  intros env r.
  destruct (zero_interval_never_waits env 0 Scenario.connected) as (_ & H & _);
    [vm_compute; discriminate | vm_compute; reflexivity | exact H].
Defined.

(** X20.  A stop signal that arrives before the loop, while the services
    are being connected or during the initial cycle, is honoured as soon
    as that cycle has succeeded: the test of the [while] statement fails
    the first time, no round runs and nothing is slept, whatever the
    interval, and the shutdown follows at once. *)
Theorem signal_before_loop_skips_it
    (env : Env) (fuel : nat) (st st1 : State) :
  Config.validate_environment env = true ->
  NeonToSheetsSync.connect_to_services env st = (Return true, st1) ->
  let r := NeonToSheetsSync.perform_sync_cycle env (logged (EPrint MsgInitialSync) st1) in
  succeeded r = true ->
  is_running (snd r) = false ->
  let st2 := set_sync_count 1 (logged (EPrint MsgInitialSyncCompleted) (snd r)) in
  NeonToSheetsSync.sync_loop env fuel st2 = (Return true, st2)
  /\ NeonToSheetsSync.start_continuous_sync env fuel st
     = (Return (Some true), snd (NeonToSheetsSync.shutdown env st2)).
Proof.
  intros Hv Hc r Hok Hstop st2.
  assert (NeonToSheetsSync.sync_loop env fuel st2 = (Return true, st2)) as Hloop.
  { rewrite sync_loop_eq. by replace (is_running st2) with false. }
  split; [done|].
  rewrite (start_continuous_sync_initial_cycle env fuel st st1 Hv Hc). cbv zeta.
  fold r. rewrite Hok. fold st2. rewrite Hloop.
  by rewrite shutdown_eq.
Qed.

Lemma signal_before_loop_skips_it_witness :
  let env := Scenario.early Scenario.users_rows in
  let r := NeonToSheetsSync.start_continuous_sync env 0 Scenario.fresh in
  fst r = Return (Some true)
  /\ (forall n, ~ In (ESleep n) (trace (snd r)))
  /\ (attribute_value "Total Syncs Completed" <$> worksheet_cells "Sync_Metadata" (snd r))
     = Some (Some "1").
Proof.
  intros env r.
  pose (st1 := snd (NeonToSheetsSync.connect_to_services env Scenario.fresh)).
  destruct (signal_before_loop_skips_it env 0 Scenario.fresh st1) as [_ H];
    [ vm_compute; reflexivity | vm_compute; reflexivity | vm_compute; reflexivity
    | vm_compute; reflexivity | ].
  split; [unfold r; by rewrite H|].
  split; [|vm_compute; reflexivity].
  intros n Hin. vm_compute in Hin. by intuition discriminate.
Defined.

(** ** The loop ends *)

Section Termination.
Import NeonToSheetsSync.
Variable env : Env.

Lemma connect_to_services_flag_tracks_signal s st :
  signal_at env = Some s ->
  flag_tracks_signal s st ->
  flag_tracks_signal s (snd (connect_to_services env st)).
Proof.
  intros Hs.
  apply (connect_to_services_preserves env
           (fun st st' => flag_tracks_signal s st -> flag_tracks_signal s st')
           (fun _ => true)); try done.
  - auto.
  - intros d st0. by apply flag_tracks_signal_elapse.
Qed.

Lemma connect_to_services_clock st :
  clock st <= clock (snd (connect_to_services env st)).
Proof.
  apply (connect_to_services_preserves env
           (fun st st' => clock st <= clock st') (fun _ => true)); try done.
  - intros a b c. lia.
  - intros d st0. rewrite elapse_clock. lia.
Qed.

End Termination.

(** X21.  Interval mode ends once a stop signal arrives.  For a process
    whose flag is up exactly while the signal is ahead, with an interval
    of at least one second, a number of rounds that covers the seconds
    left until the signal is enough for [start_continuous_sync] to come
    to its end: the loop is never still running after them.  When the
    setup and the initial cycle have succeeded, the method then returns
    [True]. *)
Theorem start_continuous_sync_ends
    (env : Env) (fuel : nat) (st : State) (s : nat) :
  signal_at env = Some s ->
  flag_tracks_signal s st ->
  0 < interval_seconds env ->
  s <= clock st + fuel * 1000 ->
  fst (NeonToSheetsSync.start_continuous_sync env fuel st) <> Return None
  /\ (forall st1,
        Config.validate_environment env = true ->
        NeonToSheetsSync.connect_to_services env st = (Return true, st1) ->
        succeeded (NeonToSheetsSync.perform_sync_cycle env
                     (logged (EPrint MsgInitialSync) st1)) = true ->
        fst (NeonToSheetsSync.start_continuous_sync env fuel st) = Return (Some true)).
Proof.
  intros Hs Hflag Hpos Hfuel.
  assert (forall st1,
            Config.validate_environment env = true ->
            NeonToSheetsSync.connect_to_services env st = (Return true, st1) ->
            succeeded (NeonToSheetsSync.perform_sync_cycle env
                         (logged (EPrint MsgInitialSync) st1)) = true ->
            fst (NeonToSheetsSync.start_continuous_sync env fuel st)
            = Return (Some true)) as Hend.
  { intros st1 Hv Hc Hok.
    rewrite (start_continuous_sync_initial_cycle env fuel st st1 Hv Hc). cbv zeta.
    rewrite Hok.
    set (r := NeonToSheetsSync.perform_sync_cycle env
                (logged (EPrint MsgInitialSync) st1)).
    set (st2 := set_sync_count 1 (logged (EPrint MsgInitialSyncCompleted) (snd r))).
    pose proof (connect_to_services_flag_tracks_signal env s st Hs Hflag) as Hflag1.
    pose proof (connect_to_services_clock env st) as Hclock1.
    rewrite Hc in Hflag1, Hclock1. cbn [snd] in Hflag1, Hclock1.
    assert (flag_tracks_signal s (snd r)) as Hflag2.
    { apply perform_sync_cycle_flag_tracks_signal; [done|].
      by unfold flag_tracks_signal in *. }
    pose proof (perform_sync_cycle_clock env (logged (EPrint MsgInitialSync) st1))
      as Hclock2.
    fold r in Hclock2. change (clock (logged ?ev ?x)) with (clock x) in Hclock2.
    assert (fst (NeonToSheetsSync.sync_loop env fuel st2) = Return true) as Hloop.
    { apply (sync_loop_ends env s); [done| |done|].
      - by unfold flag_tracks_signal in *.
      - change (clock st2) with (clock (snd r)). lia. }
    destruct (NeonToSheetsSync.sync_loop env fuel st2) as [res st3].
    cbn [fst] in Hloop. subst res. by rewrite shutdown_eq. }
  split; [|done].
  destruct (Config.validate_environment env) eqn:Hv;
    [|unfold NeonToSheetsSync.start_continuous_sync; by rewrite Hv].
  destruct (NeonToSheetsSync.connect_to_services env st) as [[[|]|e] st1] eqn:Hc;
    [|unfold NeonToSheetsSync.start_continuous_sync;
      rewrite Hv; cbn [negb]; by rewrite bind_eq, Hc..].
  destruct (succeeded (NeonToSheetsSync.perform_sync_cycle env
                         (logged (EPrint MsgInitialSync) st1))) eqn:Hok.
  - by rewrite (Hend st1 eq_refl eq_refl Hok).
  - rewrite (start_continuous_sync_initial_cycle env fuel st st1 Hv Hc). cbv zeta.
    by rewrite Hok.
Qed.

Lemma start_continuous_sync_ends_witness :
  let env := Scenario.calm Scenario.users_rows in
  fst (NeonToSheetsSync.start_continuous_sync env 3 Scenario.fresh) <> Return None
  /\ fst (NeonToSheetsSync.start_continuous_sync env 3 Scenario.fresh)
     = Return (Some true).
Proof.
  intros env.
  destruct (start_continuous_sync_ends env 3 Scenario.fresh 3000) as [H1 H2];
    [ reflexivity
    | split; [intros _; apply Nat.ltb_lt; vm_compute; reflexivity | reflexivity]
    | apply Nat.ltb_lt; vm_compute; reflexivity
    | apply Nat.leb_le; vm_compute; reflexivity | ].
  split; [exact H1|].
  apply (H2 Scenario.connected); vm_compute; reflexivity.
Defined.

(** ** Setting up the services *)

Section Setup.
Variable env : Env.

Lemma table_exists_sheets_untouched name st :
  sheets_untouched st (snd (DatabaseConnection.table_exists env name st)).
Proof.
  apply (table_exists_preserves env sheets_untouched (fun ev => negb (is_gs_event ev))).
  - apply sheets_untouched_refl.
  - apply sheets_untouched_trans.
  - apply sheets_untouched_elapse.
  - apply sheets_untouched_log.
  - by intros c st0.
  - by intros ev ->.
Qed.

Lemma called_sheets_untouched ev st :
  is_gs_event ev = false -> sheets_untouched st (called env ev st).
Proof.
  intros Hev. unfold called.
  eapply sheets_untouched_trans; [|apply sheets_untouched_elapse].
  apply sheets_untouched_log. by rewrite Hev.
Qed.

Lemma connect_to_services_same st :
  OneTimeSyncToSheets.connect_to_services env st
  = NeonToSheetsSync.connect_to_services env st.
Proof. reflexivity. Qed.

(** [connect_to_services] up to the check of the table. *)
Lemma connect_to_services_database st :
  NeonToSheetsSync.connect_to_services env st
  = if pg_reachable env (clock st) then
      let st0 :=
        set_connection (Some (mkPgConnection false)) (called env EPgConnect st) in
      match DatabaseConnection.table_exists env (Config.table_name env) st0 with
      | (Return found, st1) =>
          if truthy found then
            (let* ok := GoogleSheetsConnection.connect env in
             if negb ok then ret false
             else
               let* ok := GoogleSheetsConnection.setup_worksheets env
                            (Config.table_name env) in
               if negb ok then ret false else ret true) st1
          else (Return false, st1)
      | (Raise e, st1) => (Raise e, st1)
      end
    else (Return false, called env EPgConnect st).
Proof.
  unfold NeonToSheetsSync.connect_to_services. rewrite bind_eq, connect_eq.
  destruct (pg_reachable env (clock st)); cbv beta iota; cbn [negb]; [|done].
  cbv zeta. rewrite bind_eq.
  destruct (DatabaseConnection.table_exists env _ _) as [[found|e] st1]; [|done].
  cbv beta iota. by destruct (truthy found).
Qed.

End Setup.

(** X22.  The database comes first in [connect_to_services], in both
    classes.  When the server cannot be reached, or when the check of the
    table gives a false value, the method returns [False] without a call
    to the spreadsheet service: no spreadsheet is opened or created for a
    table that is not there.  [sync_data] and [start_continuous_sync]
    then return [False] in the same state. *)
Theorem database_failure_stops_setup (env : Env) (fuel : nat) (st : State) :
  Config.validate_environment env = true ->
  let st0 := set_connection (Some (mkPgConnection false)) (called env EPgConnect st) in
  let t := DatabaseConnection.table_exists env (Config.table_name env) st0 in
  let st' := if pg_reachable env (clock st) then snd t else called env EPgConnect st in
  pg_reachable env (clock st) = false
  \/ (exists found, fst t = Return found /\ truthy found = false) ->
  NeonToSheetsSync.connect_to_services env st = (Return false, st')
  /\ OneTimeSyncToSheets.connect_to_services env st = (Return false, st')
  /\ sheets_untouched st st'
  /\ OneTimeSyncToSheets.sync_data env st = (Return false, st')
  /\ NeonToSheetsSync.start_continuous_sync env fuel st = (Return (Some false), st').
Proof.
  intros Hv st0 t st' Hfail.
  assert (NeonToSheetsSync.connect_to_services env st = (Return false, st')) as Hc.
  { rewrite connect_to_services_database. cbv zeta. unfold st'.
    destruct (pg_reachable env (clock st)); [|done].
    destruct Hfail as [|(found & Hfound & Hfalse)]; [done|].
    fold st0 t. destruct t as [r st1]. cbn [fst snd] in *. subst r.
    by rewrite Hfalse. }
  split; [done|]. split; [by rewrite connect_to_services_same|].
  split.
  { unfold st'. destruct (pg_reachable env (clock st)).
    - eapply sheets_untouched_trans; [|apply table_exists_sheets_untouched].
      unfold st0.
      eapply (sheets_untouched_trans _ (called env EPgConnect st)); [|by split].
      by apply called_sheets_untouched.
    - by apply called_sheets_untouched. }
  split.
  - unfold OneTimeSyncToSheets.sync_data. rewrite Hv. cbn [negb].
    by rewrite bind_eq, connect_to_services_same, Hc.
  - unfold NeonToSheetsSync.start_continuous_sync. rewrite Hv. cbn [negb].
    by rewrite bind_eq, Hc.
Qed.

Lemma database_failure_stops_setup_witness :
  let r := OneTimeSyncToSheets.sync_data Scenario.ghosts Scenario.fresh in
  fst r = Return false
  /\ sheets_untouched Scenario.fresh (snd r)
  /\ fst (NeonToSheetsSync.start_continuous_sync Scenario.ghosts 5 Scenario.fresh)
     = Return (Some false).
Proof.
  intros r.
  destruct (database_failure_stops_setup Scenario.ghosts 5 Scenario.fresh)
    as (_ & _ & Hsheets & Hsync & Hstart);
    [ vm_compute; reflexivity
    | right; exists (VBool false); split; vm_compute; reflexivity | ].
  unfold r. rewrite Hsync, Hstart. by repeat split.
Defined.

Section Established.
Variable env : Env.

Lemma table_exists_returns_open name st found :
  connection st = Some (mkPgConnection false) ->
  fst (DatabaseConnection.table_exists env name st) = Return found ->
  connection (snd (DatabaseConnection.table_exists env name st))
  = Some (mkPgConnection false).
Proof.
  intros Hc. unfold DatabaseConnection.table_exists. rewrite bind_eq.
  rewrite (query_database_on_open_connection env _ [name] st Hc). cbv zeta.
  destruct (pg_answer env _ _ [name]) as [d rows| | |]; cbv beta iota.
  - destruct (DatabaseConnection.is_select_or_returning _); cbv beta iota; [|done].
    destruct (DatabaseConnection.dicts d rows) as [|row rows'];
      unfold DatabaseConnection.first_exists;
      [|destruct (List.find _ row) as [[k v]|]];
      unfold ret, raise; cbn [fst snd]; try done;
      intros _; by rewrite !called_connection.
  - destruct (DatabaseConnection.is_select_or_returning _); cbv beta iota;
      unfold ret, raise; cbn [fst snd]; try done;
      intros _; by rewrite !called_connection.
  - unfold ret. cbn [fst snd]. intros _. by rewrite !called_connection.
  - done.
Qed.

Lemma oauth_from_dict_eq st :
  GoogleSheetsConnection.oauth_from_dict env st
  = if gs_fault env (clock st) EGsOauth then (Raise APIError, called env EGsOauth st)
    else (Return tt, set_gc true (called env EGsOauth st)).
Proof.
  unfold GoogleSheetsConnection.oauth_from_dict. mrun.
  destruct (gs_fault env (clock st) EGsOauth); by mrun.
Qed.

Lemma gc_open_eq title st :
  GoogleSheetsConnection.gc_open env title st
  = let st1 := called env (EGsOpen title) st in
    if gs_fault env (clock st) (EGsOpen title) then (Raise APIError, st1)
    else match drive st !! title with
         | Some _ => (Return title, st1)
         | None => (Raise SpreadsheetNotFound, st1)
         end.
Proof.
  unfold GoogleSheetsConnection.gc_open. mrun. cbv zeta.
  destruct (gs_fault env (clock st) (EGsOpen title)); mrun; [done|].
  rewrite called_drive. destruct (drive st !! title); by mrun.
Qed.

Lemma gc_create_eq title st :
  GoogleSheetsConnection.gc_create env title st
  = let st1 := called env (EGsCreate title) st in
    if gs_fault env (clock st) (EGsCreate title) then (Raise APIError, st1)
    else (Return title,
          set_drive (<[title := {["Sheet1" := mkWorksheet 1000 26 []]}]> (drive st1)) st1).
Proof.
  unfold GoogleSheetsConnection.gc_create. mrun. cbv zeta.
  destruct (gs_fault env (clock st) (EGsCreate title)); by mrun.
Qed.

Lemma sheets_connect_true st st' :
  GoogleSheetsConnection.connect env st = (Return true, st') ->
  spreadsheet st' = Some (GoogleSheetsConnection.spreadsheet_name env)
  /\ gc st' = true
  /\ is_Some (drive st' !! GoogleSheetsConnection.spreadsheet_name env)
  /\ connection st' = connection st.
Proof.
  unfold GoogleSheetsConnection.connect.
  rewrite try_except_eq, bind_eq, oauth_from_dict_eq.
  destruct (gs_fault env (clock st) EGsOauth); [mfail|].
  cbv beta iota. rewrite bind_eq. cbv beta. rewrite gc_open_eq. cbv zeta.
  set (st1 := set_gc true (called env EGsOauth st)).
  assert (gc st1 = true /\ connection st1 = connection st) as [Hgc1 Hc1]
    by (unfold st1; split; [done|]; cbn; by rewrite called_connection).
  clearbody st1.
  destruct (gs_fault env (clock st1) (EGsOpen _)); [mfail|].
  destruct (drive st1 !! GoogleSheetsConnection.spreadsheet_name env) as [sheets|] eqn:Hd.
  - mrun. intros H. apply (f_equal snd) in H. cbn [snd] in H. subst st'.
    cbn [spreadsheet gc drive connection set_spreadsheet].
    rewrite called_drive, Hd, called_connection, called_gc.
    split; [done|]. split; [done|]. split; [by eexists|done].
  - rewrite gc_create_eq. cbv zeta.
    destruct (gs_fault env _ (EGsCreate _)); [mfail|].
    mrun. intros H. apply (f_equal snd) in H. cbn [snd] in H. subst st'.
    cbn [spreadsheet gc drive connection set_spreadsheet set_drive].
    rewrite lookup_insert_eq, !called_connection, !called_gc.
    split; [done|]. split; [done|]. split; [by eexists|done].
Qed.

Lemma get_or_create_worksheet_exists sp name rows cols st w st' :
  spreadsheet st = Some sp ->
  GoogleSheetsConnection.get_or_create_worksheet env name rows cols st
  = (Return (Some w), st') ->
  spreadsheet st' = Some sp
  /\ is_Some (worksheet_at sp name st').
Proof.
  intros Hsp. rewrite get_or_create_worksheet_eq. cbv zeta. rewrite Hsp.
  destruct (gs_fault env (clock st) (EGsWorksheet name)); [by intros [=]|].
  destruct (drive st !! sp) as [sheets|] eqn:Hd; [|by intros [=]].
  destruct (sheets !! name) as [ws|] eqn:Hws.
  - intros [= _ <-]. rewrite called_spreadsheet. split; [done|].
    unfold worksheet_at. rewrite called_drive, Hd, Hws. by eexists.
  - destruct (gs_fault env _ (EGsAddWorksheet name rows cols)); [by intros [=]|].
    intros [= _ <-]. cbn [spreadsheet set_drive]. rewrite !called_spreadsheet.
    split; [done|]. unfold worksheet_at. cbn [drive set_drive].
    rewrite !lookup_insert_eq. by eexists.
Qed.

Lemma setup_worksheets_connection name st :
  connection (snd (GoogleSheetsConnection.setup_worksheets env name st)) = connection st.
Proof.
  apply (setup_worksheets_preserves env
           (fun st st' => connection st' = connection st) (fun _ => true));
    try done.
  - intros a b c H1 H2. congruence.
  - intros d st0. apply elapse_connection.
Qed.

Lemma setup_worksheets_gc name st :
  gc (snd (GoogleSheetsConnection.setup_worksheets env name st)) = gc st.
Proof.
  apply (setup_worksheets_preserves env
           (fun st st' => gc st' = gc st) (fun _ => true));
    try done.
  - intros a b c H1 H2. congruence.
  - intros d st0. unfold elapse. by destruct (due _ _ _).
Qed.

Lemma setup_worksheets_true sp name st st' :
  spreadsheet st = Some sp ->
  GoogleSheetsConnection.setup_worksheets env name st = (Return true, st') ->
  spreadsheet st' = Some sp
  /\ is_Some (worksheet_at sp (str name +:+ "_data") st')
  /\ is_Some (worksheet_at sp "Sync_Metadata" st').
Proof.
  intros Hsp. unfold GoogleSheetsConnection.setup_worksheets. cbv zeta.
  rewrite try_except_eq, bind_eq.
  destruct (GoogleSheetsConnection.get_or_create_worksheet env
              (str name +:+ "_data") 1000 50 st) as [[[w1|]|e] st1] eqn:H1;
    cbv beta iota; [|mfail|mfail].
  apply (get_or_create_worksheet_exists sp) in H1 as [Hsp1 Hdata]; [|done].
  rewrite bind_eq.
  pose proof (get_or_create_worksheet_writes_only env sp "Sync_Metadata" 10 3 st1 Hsp1)
    as Honly.
  destruct (GoogleSheetsConnection.get_or_create_worksheet env "Sync_Metadata" 10 3 st1)
    as [[[w2|]|e] st2] eqn:H2; cbv beta iota; [|mfail|mfail].
  apply (get_or_create_worksheet_exists sp) in H2 as [Hsp2 Hmeta]; [|done].
  mrun. intros [= <-]. split; [done|]. split; [|done].
  cbn [snd] in Honly. rewrite Honly; [done|].
  right. apply data_worksheet_name_not_metadata.
Qed.

End Established.

(** X23.  What [connect_to_services] has established when it returns
    [True], in both classes: the database connection is open, the
    spreadsheet named after the configuration is open, and its two
    worksheets, the data worksheet of the table and "Sync_Metadata",
    exist. *)
Theorem connect_to_services_establishes (env : Env) (st st1 : State) :
  NeonToSheetsSync.connect_to_services env st = (Return true, st1)
  \/ OneTimeSyncToSheets.connect_to_services env st = (Return true, st1) ->
  let sp := GoogleSheetsConnection.spreadsheet_name env in
  connection st1 = Some (mkPgConnection false)
  /\ gc st1 = true
  /\ spreadsheet st1 = Some sp
  /\ is_Some (worksheet_at sp (data_worksheet_name env) st1)
  /\ is_Some (worksheet_at sp "Sync_Metadata" st1).
Proof.
  intros H sp.
  assert (NeonToSheetsSync.connect_to_services env st = (Return true, st1)) as Hc
    by (by destruct H as [H|H]; [|rewrite connect_to_services_same in H]).
  clear H. rewrite connect_to_services_database in Hc. cbv zeta in Hc.
  destruct (pg_reachable env (clock st)); [|by simplify_eq].
  set (st0 := set_connection _ _) in Hc.
  pose proof (table_exists_returns_open env (Config.table_name env) st0) as Hopen.
  destruct (DatabaseConnection.table_exists env (Config.table_name env) st0)
    as [[found|e] st_b]; [|by simplify_eq].
  specialize (Hopen found eq_refl eq_refl). cbn [snd] in Hopen.
  destruct (truthy found); [|by simplify_eq].
  rewrite bind_eq in Hc.
  destruct (GoogleSheetsConnection.connect env st_b) as [[[|]|e] st_c] eqn:Hsheets;
    cbn [negb] in Hc; [|by simplify_eq|by simplify_eq].
  apply sheets_connect_true in Hsheets as (Hsp & Hgc & _ & Hconn).
  rewrite bind_eq in Hc.
  pose proof (setup_worksheets_connection env (Config.table_name env) st_c) as Hconn2.
  pose proof (setup_worksheets_gc env (Config.table_name env) st_c) as Hgc2.
  destruct (GoogleSheetsConnection.setup_worksheets env (Config.table_name env) st_c)
    as [[[|]|e] st_d] eqn:Hsetup; cbn [negb] in Hc; [|by simplify_eq|by simplify_eq].
  try rewrite Hsetup in Hconn2. try rewrite Hsetup in Hgc2.
  apply (setup_worksheets_true env sp) in Hsetup as (Hsp2 & Hdata & Hmeta); [|done].
  unfold ret in Hc.
  apply (f_equal snd) in Hc. cbn [snd] in Hc, Hconn2, Hgc2. subst st1.
  split; [by rewrite Hconn2, Hconn|]. split; [by rewrite Hgc2|]. by repeat split.
Qed.

Lemma connect_to_services_establishes_witness :
  let env := Scenario.calm Scenario.users_rows in
  connection Scenario.connected = Some (mkPgConnection false)
  /\ gc Scenario.connected = true
  /\ spreadsheet Scenario.connected = Some "users"
  /\ is_Some (worksheet_at "users" "users_data" Scenario.connected)
  /\ is_Some (worksheet_at "users" "Sync_Metadata" Scenario.connected).
Proof.
  intros env.
  apply (connect_to_services_establishes env Scenario.fresh Scenario.connected).
  right. vm_compute; reflexivity.
Defined.

(** ** More on the normalizer *)

(** X24.  The text of a timestamp cell tells the instant to the second
    and no further: two valid datetimes are written as the same text
    exactly when they agree on year, month, day, hour, minute and second.
    The microseconds, which [str] would print, are dropped. *)
Theorem timestamp_cells_drop_microseconds (t1 t2 : datetime) :
  valid_datetime t1 = true ->
  valid_datetime t2 = true ->
  clean_cell (VDatetime t1) = clean_cell (VDatetime t2)
  <-> (year t1 = year t2 /\ month t1 = month t2 /\ day t1 = day t2
       /\ hour t1 = hour t2 /\ minute t1 = minute t2 /\ second t1 = second t2).
Proof.
  intros H1 H2. rewrite !clean_cell_scalar by done.
  simpl checknull. simpl as_datetime. cbv iota.
  split.
  - intros Heq. apply Return_inj in Heq.
    apply (strftime_fields t1 t2 H1 H2) in Heq.
    by injection Heq as -> -> -> -> -> ->.
  - intros (Hy & Hmo & Hd & Hh & Hmi & Hs).
    rewrite !strftime_timestamp. by rewrite Hy, Hmo, Hd, Hh, Hmi, Hs.
Qed.

Lemma timestamp_cells_drop_microseconds_witness :
  clean_cell (VDatetime (mkDatetime 2024 1 1 0 0 0 0))
  = clean_cell (VDatetime (mkDatetime 2024 1 1 0 0 0 250000))
  /\ str (VDatetime (mkDatetime 2024 1 1 0 0 0 0))
     <> str (VDatetime (mkDatetime 2024 1 1 0 0 0 250000)).
Proof.
  split.
  - apply (timestamp_cells_drop_microseconds
             (mkDatetime 2024 1 1 0 0 0 0) (mkDatetime 2024 1 1 0 0 0 250000));
      [reflexivity | reflexivity | by repeat split].
  - vm_compute. discriminate.
Defined.

(** X25.  Text is uploaded as it is: a frame all of whose cells are
    strings comes out as its header followed by its rows, nothing
    trimmed, quoted or replaced, the empty string included.  So preparing
    again what has been prepared changes nothing. *)
Theorem text_is_uploaded_verbatim
    (cols : list string) (rows : list (list string)) (d : DataFrame) (g : grid) :
  prepare_dataframe_for_upload (mkDataFrame cols (map (map VStr) rows))
  = Return (cols :: rows)
  /\ (prepare_dataframe_for_upload d = Return g ->
      prepare_dataframe_for_upload (mkDataFrame (columns d) (map (map VStr) (tl g)))
      = Return g).
Proof.
  assert (forall c r,
            prepare_dataframe_for_upload (mkDataFrame c (map (map VStr) r))
            = Return (c :: r)) as Htext.
  { intros c r. apply prepare_dataframe_for_upload_return. simpl.
    induction r as [|row r IH]; simpl; constructor; [apply clean_header | exact IH]. }
  split; [apply Htext|].
  intros Hg. apply prepare_dataframe_for_upload_inv in Hg as (out & -> & _).
  apply Htext.
Qed.

Lemma text_is_uploaded_verbatim_witness :
  prepare_dataframe_for_upload
    (mkDataFrame ["id"; "name"; "created_at"]
       (map (map VStr) [["1"; "Ann"; "2024-01-01 00:00:00"]; ["2"; "Bo"; EmptyString]]))
  = Return [["id"; "name"; "created_at"]; ["1"; "Ann"; "2024-01-01 00:00:00"];
            ["2"; "Bo"; EmptyString]].
Proof.
  destruct (text_is_uploaded_verbatim [] [] Scenario.users_df
              [["id"; "name"; "created_at"]; ["1"; "Ann"; "2024-01-01 00:00:00"];
               ["2"; "Bo"; EmptyString]]) as [_ H].
  apply H. reflexivity.
Defined.
